(** * Patent monitor: classification matcher, PGR deadline model,
      tracking store, scan orchestrator and response normalization

    A shallow embedding of the core of [patent_monitor]:
    - [matcher.py]   : [PatentMatcher] (prefix matching on classification
                       codes, keyword and assignee-exclusion checks);
    - [models.py]    : [Patent.pgr_deadline], [pgr_months_remaining],
                       [urgency];
    - [db.py]        : the SQLite tracking store ([patents], [search_runs],
                       [notifications] tables);
    - [service.py]   : [run_scan], [_search_api], [_search_gazette];
    - [analyzer.py]  : [_call_api], [_parse_response], [_data_to_result],
                       [analyze], [_guess_media_type].
    Beside these: [Patent.uspto_url]; the read side of the store
    ([_row_to_patent], [get_patent], the listing queries, with
    [fromisoformat] and [json.loads] on the texts the store writes);
    [run_ai_analysis] and [_analyze_single_patent] of [service.py]; the
    constructor of [USPTOClient] and the request loop of its [_request];
    and [GazetteScraper.scrape_week].

    Conventions of the embedding.
    - Python [str] values are modelled as [string], read as ASCII text:
      whitespace and the case conversions are those of [str.isspace],
      [str.upper] and [str.lower] on ASCII characters; codes above 127 are
      left uninterpreted.
    - Python [int] is [Z]; a Python [float] is modelled by the exact
      rational it approximates ([Q]), with separate constructors for NaN
      and the infinities in decoded JSON.  The comparisons of [urgency]
      against 0, 3 and 6 give the same answer on the float and on the
      rational, because the thresholds are floats and rounding is monotone.
    - A raised exception is a value of [Exn]; fallible functions return
      [Res A] ([Ok a] or [Raise e]).
    - [datetime.date] is a proleptic Gregorian (year, month, day) triple
      over [Z].  [valid_date] describes the values a [date] object can hold
      (years 1 to 9999).  [date - timedelta] raises as CPython does once
      the result leaves that range; the results of [relativedelta]
      arithmetic are not range-checked, where CPython raises.
    - SQL rows are finite maps from column names to [SqlValue]; a table is
      the list of its rows in insertion order.
    - The fields of the records have the declared types of the dataclasses
      (a [str] field holds a string, a [date] field a date), as the values
      built by the two source adapters do. *)

From stdpp Require Import gmap strings list.
From Stdlib Require Import ZArith QArith Lia Lqa Bool Ascii String.

Set Warnings "-register-all".

(* ===================================================================== *)
(** * Python string methods used by the code                              *)
(* ===================================================================== *)

Module PyStr.

Definition dquote : ascii := ascii_of_nat 34.
Definition squote : ascii := ascii_of_nat 39.

Definition is_empty (s : string) : bool :=
  match s with EmptyString => true | String _ _ => false end.

(** [str.isspace] on one ASCII code: TAB, LF, VT, FF, CR, the four
    separators FS GS RS US, and the space. *)
Definition py_isspace (c : ascii) : bool :=
  let n := nat_of_ascii c in
  ((9 <=? n) && (n <=? 13)) || ((28 <=? n) && (n <=? 32)).

Fixpoint all_chars (f : ascii -> bool) (s : string) : bool :=
  match s with
  | EmptyString => true
  | String c s' => f c && all_chars f s'
  end.

Fixpoint lstrip (s : string) : string :=
  match s with
  | EmptyString => EmptyString
  | String c s' => if py_isspace c then lstrip s' else s
  end.

Fixpoint rstrip (s : string) : string :=
  match s with
  | EmptyString => EmptyString
  | String c s' =>
      let r := rstrip s' in
      if py_isspace c && is_empty r then EmptyString else String c r
  end.

(** [s.strip()] *)
Definition strip (s : string) : string := rstrip (lstrip s).

Definition upper_char (c : ascii) : ascii :=
  let n := nat_of_ascii c in
  if (97 <=? n) && (n <=? 122) then ascii_of_nat (n - 32) else c.

Definition lower_char (c : ascii) : ascii :=
  let n := nat_of_ascii c in
  if (65 <=? n) && (n <=? 90) then ascii_of_nat (n + 32) else c.

Fixpoint map_chars (f : ascii -> ascii) (s : string) : string :=
  match s with
  | EmptyString => EmptyString
  | String c s' => String (f c) (map_chars f s')
  end.

(** [s.upper()], [s.lower()] *)
Definition upper (s : string) : string := map_chars upper_char s.
Definition lower (s : string) : string := map_chars lower_char s.

(** [s.replace(old, new)] for a one-character [old]. *)
Fixpoint replace_char (old : ascii) (new : string) (s : string) : string :=
  match s with
  | EmptyString => EmptyString
  | String c s' =>
      if Ascii.eqb c old then new +:+ replace_char old new s'
      else String c (replace_char old new s')
  end.

(** [s.split(sep)] for a one-character separator: never the empty list. *)
Fixpoint split (sep : ascii) (s : string) : list string :=
  match s with
  | EmptyString => [EmptyString]
  | String c s' =>
      if Ascii.eqb c sep then EmptyString :: split sep s'
      else match split sep s' with
           | [] => [String c EmptyString]
           | x :: xs => String c x :: xs
           end
  end.

(** [s.startswith(p)] *)
Definition startswith (s p : string) : bool := String.prefix p s.

(** [needle in hay] *)
Fixpoint contains (needle hay : string) : bool :=
  startswith hay needle ||
  match hay with
  | EmptyString => false
  | String _ hay' => contains needle hay'
  end.

(** [s[:n]] *)
Fixpoint take (n : nat) (s : string) : string :=
  match n, s with
  | S n', String c s' => String c (take n' s')
  | _, _ => EmptyString
  end.

Definition str_in (s : string) (l : list string) : bool :=
  existsb (String.eqb s) l.


(** [s[n:]] *)
Fixpoint drop (n : nat) (s : string) : string :=
  match n, s with
  | S n', String _ s' => drop n' s'
  | _, _ => s
  end.

(** [s.rsplit(sep, 1)[-1]] for a one-character separator: the text after
    the last separator, the whole text when there is none. *)
Definition rsplit_last (sep : ascii) (s : string) : string :=
  List.last (split sep s) EmptyString.

End PyStr.

(* ===================================================================== *)
(** * Exceptions and results                                              *)
(* ===================================================================== *)

(** The exception classes that occur in the modelled code.  Every one of
    them derives from [Exception], so a clause [except Exception] catches
    each. *)
Inductive ExnClass :=
| ValueError
| TypeError
| AttributeError
| OverflowError
| RuntimeError
| RateLimitError
| APIStatusError (status_code : Z)
| OtherException (class_name : string).

(** An exception object: its class and the text of [str(e)]. *)
Record Exn := { exn_class : ExnClass; exn_str : string }.

Inductive Res (A : Type) :=
| Ok (a : A)
| Raise (e : Exn).
Arguments Ok {A} a.
Arguments Raise {A} e.

(* ===================================================================== *)
(** * datetime.date, datetime.datetime and dateutil.relativedelta         *)
(* ===================================================================== *)

Module Calendar.
Import PyStr.
Local Open Scope Z_scope.

Record date := { year : Z; month : Z; day : Z }.

Record datetime := {
  dt_date : date;
  hour : Z;
  minute : Z;
  second : Z;
  microsecond : Z
}.

(** [calendar.isleap] *)
Definition isleap (y : Z) : bool :=
  (y mod 4 =? 0) && (negb (y mod 100 =? 0) || (y mod 400 =? 0)).

(** [calendar.monthrange(y, m)[1]]: the number of days of month [m]. *)
Definition days_in_month (y m : Z) : Z :=
  if m =? 2 then (if isleap y then 29 else 28)
  else if (m =? 4) || (m =? 6) || (m =? 9) || (m =? 11) then 30
  else 31.

(** The values a [date] object can hold. *)
Definition valid_date (d : date) : bool :=
  (1 <=? year d) && (year d <=? 9999) &&
  (1 <=? month d) && (month d <=? 12) &&
  (1 <=? day d) && (day d <=? days_in_month (year d) (month d)).

Definition valid_datetime (t : datetime) : bool :=
  valid_date (dt_date t) &&
  (0 <=? hour t) && (hour t <=? 23) &&
  (0 <=? minute t) && (minute t <=? 59) &&
  (0 <=? second t) && (second t <=? 59) &&
  (0 <=? microsecond t) && (microsecond t <=? 999999).

(** Comparison of dates ([<], [>], [==]). *)
Definition date_ltb (a b : date) : bool :=
  (year a <? year b) ||
  ((year a =? year b) &&
   ((month a <? month b) || ((month a =? month b) && (day a <? day b)))).

Definition date_gtb (a b : date) : bool := date_ltb b a.

Definition date_eqb (a b : date) : bool :=
  (year a =? year b) && (month a =? month b) && (day a =? day b).

(** [date.toordinal]: day 1 is 0001-01-01. *)
Definition days_before_year (y : Z) : Z :=
  let y1 := y - 1 in y1 * 365 + y1 / 4 - y1 / 100 + y1 / 400.

Definition days_before_month (y m : Z) : Z :=
  let cumulative :=
    if m =? 1 then 0 else if m =? 2 then 31 else if m =? 3 then 59
    else if m =? 4 then 90 else if m =? 5 then 120 else if m =? 6 then 151
    else if m =? 7 then 181 else if m =? 8 then 212 else if m =? 9 then 243
    else if m =? 10 then 273 else if m =? 11 then 304 else 334 in
  cumulative + (if (2 <? m) && isleap y then 1 else 0).

Definition toordinal (d : date) : Z :=
  days_before_year (year d) + days_before_month (year d) (month d) + day d.

(** [date.fromordinal], following CPython's [_ord2ymd]. *)
Definition fromordinal (n : Z) : date :=
  let n := n - 1 in
  let n400 := n / 146097 in
  let n := n mod 146097 in
  let n100 := n / 36524 in
  let n := n mod 36524 in
  let n4 := n / 1461 in
  let n := n mod 1461 in
  let n1 := n / 365 in
  let n := n mod 365 in
  let y := n400 * 400 + 1 + n100 * 100 + n4 * 4 + n1 in
  if (n1 =? 4) || (n100 =? 4) then {| year := y - 1; month := 12; day := 31 |}
  else
    let leapyear := (n1 =? 3) && (negb (n4 =? 24) || (n100 =? 3)) in
    let m := Z.shiftr (n + 50) 5 in
    let before (k : Z) : Z :=
      days_before_month 1 k + (if (2 <? k) && leapyear then 1 else 0) in
    let m := if n <? before m then m - 1 else m in
    {| year := y; month := m; day := n - before m + 1 |}.

(** [date.max.toordinal()] *)
Definition max_ordinal : Z := 3652059.

(** The two [OverflowError]s of [d - timedelta(days=k)]: the one of the
    [timedelta] constructor, whose day count is limited to nine digits (the
    message is abbreviated: CPython names the number, or says that it does
    not fit a C int), and the one of the subtraction. *)
Definition days_out_of_range : Exn :=
  {| exn_class := OverflowError; exn_str := "must have magnitude <= 999999999" |}.

Definition date_out_of_range : Exn :=
  {| exn_class := OverflowError; exn_str := "date value out of range" |}.

(** [d - timedelta(days=k)]: the constructor checks the day count, the
    subtraction goes through the ordinals and checks that the result is a
    date. *)
Definition date_sub_days (d : date) (k : Z) : Res date :=
  if 999999999 <? Z.abs k then Raise days_out_of_range
  else
    let n := toordinal d - k in
    if (1 <=? n) && (n <=? max_ordinal) then Ok (fromordinal n)
    else Raise date_out_of_range.

(** Zero-padded decimal fields of [isoformat]. *)
Definition digit (n : Z) : ascii := ascii_of_nat (48 + Z.to_nat (n mod 10)).

Definition pad2 (n : Z) : string :=
  String (digit (n / 10)) (String (digit n) EmptyString).

Definition pad4 (n : Z) : string :=
  String (digit (n / 1000)) (String (digit (n / 100)) (pad2 n)).

Definition pad6 (n : Z) : string :=
  String (digit (n / 100000)) (String (digit (n / 10000)) (pad4 n)).

(** [date.isoformat]: YYYY-MM-DD. *)
Definition date_isoformat (d : date) : string :=
  pad4 (year d) +:+ "-" +:+ pad2 (month d) +:+ "-" +:+ pad2 (day d).

(** [datetime.isoformat]: YYYY-MM-DDTHH:MM:SS, followed by .ffffff when the
    microsecond is not zero. *)
Definition datetime_isoformat (t : datetime) : string :=
  date_isoformat (dt_date t) +:+ "T" +:+
  pad2 (hour t) +:+ ":" +:+ pad2 (minute t) +:+ ":" +:+ pad2 (second t) +:+
  (if microsecond t =? 0 then EmptyString else "." +:+ pad6 (microsecond t)).

Definition digit_value (c : ascii) : option Z :=
  let n := nat_of_ascii c in
  if ((48 <=? n) && (n <=? 57))%nat then Some (Z.of_nat n - 48) else None.

(** The date at the head of an ISO text (YYYY-MM-DD), with the rest of the
    text; [None] when the text does not begin with a date (CPython raises
    [ValueError]). *)
Definition parse_date_prefix (s : string) : option (date * string) :=
  match s with
  | String y1 (String y2 (String y3 (String y4 (String s1
      (String m1 (String m2 (String s2 (String d1 (String d2 rest))))))))) =>
      match digit_value y1, digit_value y2, digit_value y3, digit_value y4,
            digit_value m1, digit_value m2, digit_value d1, digit_value d2 with
      | Some a, Some b, Some c, Some d, Some e, Some f, Some g, Some h =>
          let dt := {| year := a * 1000 + b * 100 + c * 10 + d;
                       month := e * 10 + f; day := g * 10 + h |} in
          if Ascii.eqb s1 "-" && Ascii.eqb s2 "-" && valid_date dt
          then Some (dt, rest) else None
      | _, _, _, _, _, _, _, _ => None
      end
  | _ => None
  end.

(** [datetime.fromisoformat(s).date()] for the texts [datetime.isoformat]
    produces; the rows of the store hold no other shape. *)
Definition datetime_fromisoformat_date (s : string) : Res date :=
  match parse_date_prefix s with
  | Some (d, _) => Ok d
  | None => Raise {| exn_class := ValueError;
                     exn_str := "Invalid isoformat string" |}
  end.

(** ** dateutil.relativedelta *)

(** The relative fields of a [relativedelta] that the code reads or sets
    (the time-of-day fields stay zero when both operands are dates). *)
Record relativedelta := { years : Z; months : Z; days : Z }.

(** [relativedelta._set_months] *)
Definition _set_months (rd : relativedelta) (m : Z) : relativedelta :=
  if 11 <? Z.abs m then
    let s := Z.sgn m in
    {| years := ((m * s) / 12) * s; months := ((m * s) mod 12) * s; days := days rd |}
  else {| years := 0; months := m; days := days rd |}.

(** [relativedelta(months=m)] (the keyword constructor followed by [_fix]). *)
Definition relativedelta_months (m : Z) : relativedelta :=
  if 11 <? Z.abs m then
    let s := Z.sgn m in
    {| years := ((m * s) / 12) * s; months := ((m * s) mod 12) * s; days := 0 |}
  else {| years := 0; months := m; days := 0 |}.

(** [other + rd] ([relativedelta.__radd__]): shift the year and month,
    clamp the day to the length of the target month, then add the days. *)
Definition date_add (other : date) (rd : relativedelta) : date :=
  let y := year other + years rd in
  let m := month other in
  let '(y, m) :=
    if months rd =? 0 then (y, m)
    else
      let m := m + months rd in
      if 12 <? m then (y + 1, m - 12)
      else if m <? 1 then (y - 1, m + 12)
      else (y, m) in
  let d := Z.min (days_in_month y m) (day other) in
  let repl := {| year := y; month := m; day := d |} in
  if days rd =? 0 then repl else fromordinal (toordinal repl + days rd).

(** The loop of [relativedelta.__init__(dt1, dt2)] that corrects the month
    count while [dt2 + months] overshoots [dt1]. *)
Fixpoint adjust_months (fuel : nat) (dt1 dt2 : date)
    (compare : date -> date -> bool) (increment : Z) (m : Z) : option Z :=
  let dtm := date_add dt2 (_set_months {| years := 0; months := 0; days := 0 |} m) in
  if compare dt1 dtm then
    match fuel with
    | O => None
    | S fuel' => adjust_months fuel' dt1 dt2 compare increment (m + increment)
    end
  else Some m.

(** [relativedelta(dt1, dt2)] for two dates.  [None] stands for a loop that
    has not finished within the fuel; [relativedelta_between_total] shows
    that it does not happen. *)
Definition relativedelta_between (dt1 dt2 : date) : option relativedelta :=
  let m0 := (year dt1 - year dt2) * 12 + (month dt1 - month dt2) in
  let '(compare, increment) :=
    if date_ltb dt1 dt2 then (date_gtb, 1) else (date_ltb, -1) in
  match adjust_months (S (Z.to_nat (Z.abs m0))) dt1 dt2 compare increment m0 with
  | None => None
  | Some m =>
      let rd := _set_months {| years := 0; months := 0; days := 0 |} m in
      let dtm := date_add dt2 rd in
      Some {| years := years rd; months := months rd;
              days := toordinal dt1 - toordinal dtm |}
  end.

Arguments date_isoformat : simpl never.
Arguments datetime_isoformat : simpl never.
Arguments fromordinal : simpl never.
Arguments toordinal : simpl never.
Arguments datetime_fromisoformat_date : simpl never.


(** ** Parsing ISO texts *)

(** The exception of [fromisoformat] on a text it does not accept (the
    message is abbreviated: CPython appends the text, or names the field
    that is out of range). *)
Definition invalid_isoformat : Exn :=
  {| exn_class := ValueError; exn_str := "Invalid isoformat string" |}.

(** [date.fromisoformat] on the form YYYY-MM-DD, the form [isoformat]
    writes and the one every CPython version since 3.7 accepts. *)
Definition date_fromisoformat (s : string) : Res date :=
  match parse_date_prefix s with
  | Some (d, EmptyString) => Ok d
  | _ => Raise invalid_isoformat
  end.

Definition parse_two_digits (s : string) : option (Z * string) :=
  match s with
  | String a (String b rest) =>
      match digit_value a, digit_value b with
      | Some x, Some y => Some (x * 10 + y, rest)
      | _, _ => None
      end
  | _ => None
  end.

(** The fraction of a second: three or six digits up to the end of the
    text, as microseconds. *)
Definition parse_fraction (s : string) : option Z :=
  match s with
  | String a (String b (String c EmptyString)) =>
      match digit_value a, digit_value b, digit_value c with
      | Some x, Some y, Some z => Some ((x * 100 + y * 10 + z) * 1000)
      | _, _, _ => None
      end
  | String a (String b (String c (String d (String e (String f EmptyString))))) =>
      match digit_value a, digit_value b, digit_value c,
            digit_value d, digit_value e, digit_value f with
      | Some x, Some y, Some z, Some u, Some v, Some w =>
          Some (x * 100000 + y * 10000 + z * 1000 + u * 100 + v * 10 + w)
      | _, _, _, _, _, _ => None
      end
  | _ => None
  end.

(** The time of day of an ISO text without offset: HH, HH:MM, HH:MM:SS,
    or HH:MM:SS followed by a fraction. *)
Definition parse_time (s : string) : option (Z * Z * Z * Z) :=
  match parse_two_digits s with
  | None => None
  | Some (h, EmptyString) => Some (h, 0, 0, 0)
  | Some (h, String c1 r1) =>
      if negb (Ascii.eqb c1 ":") then None else
      match parse_two_digits r1 with
      | None => None
      | Some (m, EmptyString) => Some (h, m, 0, 0)
      | Some (m, String c2 r2) =>
          if negb (Ascii.eqb c2 ":") then None else
          match parse_two_digits r2 with
          | None => None
          | Some (sec, EmptyString) => Some (h, m, sec, 0)
          | Some (sec, String c3 r3) =>
              if negb (Ascii.eqb c3 ".") then None else
              match parse_fraction r3 with
              | Some us => Some (h, m, sec, us)
              | None => None
              end
          end
      end
  end.

(** [datetime.fromisoformat] on the texts of naive datetimes: a date, then
    optionally one separator character and a time of day.  Texts with a
    UTC offset denote aware datetimes, which the code never writes; they
    are outside the model. *)
Definition datetime_fromisoformat (s : string) : Res datetime :=
  match parse_date_prefix s with
  | None => Raise invalid_isoformat
  | Some (d, EmptyString) =>
      Ok {| dt_date := d; hour := 0; minute := 0; second := 0; microsecond := 0 |}
  | Some (d, String _ rest) =>
      match parse_time rest with
      | Some (h, m, sec, us) =>
          let t := {| dt_date := d; hour := h; minute := m; second := sec;
                      microsecond := us |} in
          if valid_datetime t then Ok t else Raise invalid_isoformat
      | None => Raise invalid_isoformat
      end
  end.

Arguments date_fromisoformat : simpl never.
Arguments datetime_fromisoformat : simpl never.

End Calendar.

(* ===================================================================== *)
(** * models.py                                                           *)
(* ===================================================================== *)

Module Models.
Import PyStr Calendar.

Record Patent := {
  patent_number : string;
  title : string;
  issue_date : date;
  application_number : string;
  filing_date : option date;
  inventors : list string;
  assignee : string;
  classification_us : string;
  classification_cpc : string;
  classification_locarno : string;
  image_url : option string;
  abstract : option string;
  status : string;
  first_seen : datetime;
  notified_at : option datetime;
  notes : option string
}.

(** [Patent.pgr_deadline]: [self.issue_date + relativedelta(months=9)]. *)
Definition pgr_deadline (self : Patent) : date :=
  date_add (issue_date self) (relativedelta_months 9).

(** [Patent.pgr_months_remaining], with [today] the value of
    [date.today()]: [delta.months + delta.days / 30.0]. *)
Definition pgr_months_remaining (self : Patent) (today : date) : option Q :=
  match relativedelta_between (pgr_deadline self) today with
  | Some delta => Some (inject_Z (months delta) + inject_Z (days delta) / 30)%Q
  | None => None
  end.

(** Follows the specification's words, for comparison with
    [pgr_months_remaining]: the signed calendar-month delta from today to
    the deadline (whole years counted as twelve months each) plus the day
    delta divided by 30. *)
Definition spec_months_remaining (self : Patent) (today : date) : option Q :=
  match relativedelta_between (pgr_deadline self) today with
  | Some delta =>
      Some (inject_Z (12 * years delta + months delta) + inject_Z (days delta) / 30)%Q
  | None => None
  end.

(** The bucket chosen by [Patent.urgency] for a value of months remaining. *)
Definition urgency_of (remaining : Q) : string :=
  if Qle_bool remaining 0 then "expired"
  else if negb (Qle_bool 3 remaining) then "high"
  else if negb (Qle_bool 6 remaining) then "medium"
  else "low".

(** [Patent.urgency] *)
Definition urgency (self : Patent) (today : date) : option string :=
  match pgr_months_remaining self today with
  | Some remaining => Some (urgency_of remaining)
  | None => None
  end.

(** [Alert]: the fields set by the scan ([criteria_name], [sent_at] and
    [ai_analysis] keep their defaults). *)
Record Alert := {
  alert_patent : Patent;
  matched_criteria : list string
}.

(** [SearchRun] *)
Record SearchRun := {
  run_at : datetime;
  source : string;
  query_params : string;
  results_count : Z;
  new_matches_count : Z;
  run_error : option string;
  duration_seconds : Q
}.


(** [Patent.uspto_url] *)
Definition uspto_url (self : Patent) : string :=
  let num := replace_char ","%char EmptyString (patent_number self) in
  let num := if startswith num "D" then num else "D" +:+ num in
  "https://image-ppubs.uspto.gov/dirsearch-public/print/downloadPdf/" +:+ num.

End Models.

(* ===================================================================== *)
(** * config.py                                                           *)
(* ===================================================================== *)

Module Config.

Record SearchCriteriaConfig := {
  name : string;
  us_classes : list string;
  cpc_classes : list string;
  keywords : list string;
  assignee_exclude : list string
}.

Record SourcesConfig := {
  uspto_api : bool;
  official_gazette : bool
}.

(** [ApiConfig]: the fields from which the API client is built. *)
Record ApiConfig := {
  rate_limit_per_minute : Z;
  timeout_seconds : Z;
  max_retries : Z;
  api_key : string
}.

(** The fields of [Config] read by the scan. *)
Record Config := {
  api : ApiConfig;
  search_criteria : list SearchCriteriaConfig;
  initial_lookback_days : Z;
  sources : SourcesConfig
}.

End Config.

(* ===================================================================== *)
(** * matcher.py                                                          *)
(* ===================================================================== *)

Module Matcher.
Import PyStr Models Config.

(** The normalization applied to both sides of the class check:
    [x.strip().upper()] with every space character then removed by
    [replace]. *)
Definition normalize (x : string) : string :=
  replace_char " "%char EmptyString (upper (strip x)).

(** [PatentMatcher._class_matches] *)
Definition _class_matches (patent_classification target_class : string) : bool :=
  if is_empty patent_classification || is_empty target_class then false
  else
    let target_normalized := normalize target_class in
    let classifications := map normalize (split ";"%char patent_classification) in
    existsb (fun cls => startswith cls target_normalized) classifications.

(** [pattern.search(text)] for the escaped lower-cased keyword compiled
    with [re.IGNORECASE]: a case-insensitive substring search. *)
Definition pattern_search (keyword_lower text : string) : bool :=
  contains (lower keyword_lower) (lower text).

(** [PatentMatcher._keyword_matches] *)
Definition _keyword_matches (patent : Patent) (keyword : string) : bool :=
  let keyword_lower := lower keyword in
  if negb (is_empty (title patent)) && pattern_search keyword_lower (title patent)
  then true
  else
    match abstract patent with
    | Some a => negb (is_empty a) && pattern_search keyword_lower a
    | None => false
    end.

(** [PatentMatcher._is_excluded] *)
Definition _is_excluded (patent : Patent) (criteria : SearchCriteriaConfig) : bool :=
  match assignee_exclude criteria with
  | [] => false
  | _ =>
      if is_empty (assignee patent) then false
      else
        let assignee_lower := lower (assignee patent) in
        existsb (fun excluded => contains (lower excluded) assignee_lower)
                (assignee_exclude criteria)
  end.

(** [PatentMatcher._match_single] *)
Definition _match_single (patent : Patent) (criteria : SearchCriteriaConfig) : list string :=
  if _is_excluded patent criteria then []
  else
    map (fun us_class =>
           "US class: " +:+ us_class +:+ " (criteria: " +:+ name criteria +:+ ")")
        (List.filter (fun us_class =>
                        _class_matches (classification_us patent) us_class)
                     (us_classes criteria))
    ++
    map (fun cpc_class =>
           "CPC class: " +:+ cpc_class +:+ " (criteria: " +:+ name criteria +:+ ")")
        (List.filter (fun cpc_class =>
                        _class_matches (classification_cpc patent) cpc_class)
                     (cpc_classes criteria))
    ++
    map (fun keyword =>
           "Keyword: '" +:+ keyword +:+ "' (criteria: " +:+ name criteria +:+ ")")
        (List.filter (fun keyword => _keyword_matches patent keyword)
                     (keywords criteria)).

(** [PatentMatcher.match], for the matcher built from [criteria_list]. *)
Definition match_ (criteria_list : list SearchCriteriaConfig) (patent : Patent)
  : list string :=
  flat_map (fun criteria => _match_single patent criteria) criteria_list.

End Matcher.

(* ===================================================================== *)
(** * json.dumps on the values the store serializes                       *)
(* ===================================================================== *)

Module Json.
Import PyStr.

Definition backslash : ascii := ascii_of_nat 92.

Definition hex_digit (n : nat) : ascii :=
  if (n <? 10)%nat then ascii_of_nat (48 + n) else ascii_of_nat (87 + n).

(** The escape of one character under [ensure_ascii=True]. *)
Definition escape_char (c : ascii) : string :=
  let n := nat_of_ascii c in
  let esc (x : string) := String backslash x in
  if (n =? 34)%nat then esc (String dquote EmptyString)
  else if (n =? 92)%nat then esc (String backslash EmptyString)
  else if (n =? 10)%nat then esc "n"
  else if (n =? 13)%nat then esc "r"
  else if (n =? 9)%nat then esc "t"
  else if (n =? 8)%nat then esc "b"
  else if (n =? 12)%nat then esc "f"
  else if ((n <? 32) || (126 <? n))%nat then
    esc ("u00" +:+ String (hex_digit (n / 16)) (String (hex_digit (n mod 16)) EmptyString))
  else String c EmptyString.

Fixpoint escape (s : string) : string :=
  match s with
  | EmptyString => EmptyString
  | String c s' => escape_char c +:+ escape s'
  end.

(** [json.dumps(s)] for a [str]. *)
Definition dumps_str (s : string) : string :=
  String dquote (escape s +:+ String dquote EmptyString).

Fixpoint join (sep : string) (l : list string) : string :=
  match l with
  | [] => EmptyString
  | [x] => x
  | x :: rest => x +:+ sep +:+ join sep rest
  end.

(** [json.dumps(l)] for a list of [str]. *)
Definition dumps_str_list (l : list string) : string :=
  "[" +:+ join ", " (map dumps_str l) +:+ "]".

(** [json.dumps(d)] for a dict of [str] to [str], in insertion order. *)
Definition dumps_str_dict (d : list (string * string)) : string :=
  "{" +:+ join ", " (map (fun kv => dumps_str (fst kv) +:+ ": " +:+ dumps_str (snd kv)) d)
      +:+ "}".

Arguments dumps_str : simpl never.
Arguments dumps_str_list : simpl never.
Arguments dumps_str_dict : simpl never.


(** ** json.loads on the texts the store reads back *)

(** The positions of the decoder in the text of an array of strings. *)
Inductive LoadState :=
| AtStart
| AfterOpen
| InString
| AfterBackslash
| InUnicode (remaining : nat) (code : nat)
| AfterString
| AfterComma
| AtEnd.

Definition is_json_whitespace (c : ascii) : bool :=
  let n := nat_of_ascii c in
  (n =? 32)%nat || (n =? 9)%nat || (n =? 10)%nat || (n =? 13)%nat.

Definition hex_value (c : ascii) : option nat :=
  let n := nat_of_ascii c in
  if ((48 <=? n) && (n <=? 57))%nat then Some (n - 48)%nat
  else if ((97 <=? n) && (n <=? 102))%nat then Some (n - 87)%nat
  else if ((65 <=? n) && (n <=? 70))%nat then Some (n - 55)%nat
  else None.

(** The character a two-character escape stands for. *)
Definition unescape_char (c : ascii) : option ascii :=
  let n := nat_of_ascii c in
  if (n =? 34)%nat then Some dquote
  else if (n =? 92)%nat then Some backslash
  else if (n =? 47)%nat then Some "/"%char
  else if (n =? 98)%nat then Some (ascii_of_nat 8)
  else if (n =? 102)%nat then Some (ascii_of_nat 12)
  else if (n =? 110)%nat then Some (ascii_of_nat 10)
  else if (n =? 114)%nat then Some (ascii_of_nat 13)
  else if (n =? 116)%nat then Some (ascii_of_nat 9)
  else None.

(** The decoder, one character at a time: [current] holds the characters
    of the string being read, last first, and [items] the strings read so
    far, last first.  [None] stands for [JSONDecodeError], and also for a
    text that is JSON of another shape than an array of strings or that
    escapes a character above 255, which the store's writers do not
    produce. *)
Fixpoint loads_from (state : LoadState) (current : list ascii) (items : list string)
    (s : string) : option (list string) :=
  match s with
  | EmptyString =>
      match state with AtEnd => Some (rev items) | _ => None end
  | String c s' =>
      match state with
      | AtStart =>
          if is_json_whitespace c then loads_from AtStart current items s'
          else if Ascii.eqb c "[" then loads_from AfterOpen [] items s'
          else None
      | AfterOpen =>
          if is_json_whitespace c then loads_from AfterOpen current items s'
          else if Ascii.eqb c "]" then loads_from AtEnd [] items s'
          else if Ascii.eqb c dquote then loads_from InString [] items s'
          else None
      | InString =>
          if Ascii.eqb c dquote
          then loads_from AfterString []
                          (string_of_list_ascii (rev current) :: items) s'
          else if Ascii.eqb c backslash then loads_from AfterBackslash current items s'
          else if (nat_of_ascii c <? 32)%nat then None
          else loads_from InString (c :: current) items s'
      | AfterBackslash =>
          if Ascii.eqb c "u" then loads_from (InUnicode 4 0) current items s'
          else match unescape_char c with
               | Some x => loads_from InString (x :: current) items s'
               | None => None
               end
      | InUnicode remaining code =>
          match hex_value c, remaining with
          | Some h, 1%nat =>
              let code := (code * 16 + h)%nat in
              if (code <? 256)%nat
              then loads_from InString (ascii_of_nat code :: current) items s'
              else None
          | Some h, S remaining' =>
              loads_from (InUnicode remaining' (code * 16 + h)%nat) current items s'
          | _, _ => None
          end
      | AfterString =>
          if is_json_whitespace c then loads_from AfterString current items s'
          else if Ascii.eqb c "," then loads_from AfterComma [] items s'
          else if Ascii.eqb c "]" then loads_from AtEnd [] items s'
          else None
      | AfterComma =>
          if is_json_whitespace c then loads_from AfterComma current items s'
          else if Ascii.eqb c dquote then loads_from InString [] items s'
          else None
      | AtEnd =>
          if is_json_whitespace c then loads_from AtEnd current items s'
          else None
      end
  end.

(** [json.loads(s)] for the text of an array of strings. *)
Definition loads_str_list (s : string) : option (list string) :=
  loads_from AtStart [] [] s.

Arguments loads_str_list : simpl never.

End Json.

(* ===================================================================== *)
(** * db.py                                                               *)
(* ===================================================================== *)

Module Db.
Import PyStr Calendar Models.

Inductive SqlValue :=
| SqlNull
| SqlInt (z : Z)
| SqlReal (q : Q)
| SqlText (s : string).

(** A row maps the names of the columns of its table to values. *)
Abbreviation Row := (gmap string SqlValue).

(** The three tables of [SCHEMA]. *)
Record Database := {
  patents : list Row;
  search_runs : list Row;
  notifications : list Row
}.

(** The store after [init_db] on a fresh file. *)
Definition empty_db : Database :=
  {| patents := []; search_runs := []; notifications := [] |}.

(** The columns of the [patents] table: those of [SCHEMA] and [ai_analysis],
    added by [_migrate]. *)
Definition patents_columns : list string :=
  ["id"; "patent_number"; "application_number"; "title"; "issue_date";
   "filing_date"; "inventors"; "assignee"; "classification_us";
   "classification_cpc"; "classification_locarno"; "image_url"; "abstract";
   "pgr_deadline"; "status"; "matched_criteria"; "first_seen_at";
   "notified_at"; "notes"; "ai_analysis"].

Definition sql_text_opt (o : option string) : SqlValue :=
  match o with Some s => SqlText s | None => SqlNull end.

(** [row[col] = s] in a WHERE clause. *)
Definition col_is (row : Row) (col s : string) : bool :=
  match row !! col with
  | Some (SqlText t) => String.eqb t s
  | _ => false
  end.

Arguments col_is : simpl never.

(** [Database.patent_exists] *)
Definition patent_exists (self : Database) (patent_number : string) : bool :=
  existsb (fun row => col_is row "patent_number" patent_number) (patents self).

(** The row written by the INSERT of [insert_patent]: the seventeen listed
    columns, the AUTOINCREMENT [id], and NULL for the columns the statement
    does not list. *)
Definition patent_row (id : Z) (patent : Patent)
    (matched_criteria : option (list string)) : Row :=
  list_to_map
    [("id", SqlInt id);
     ("patent_number", SqlText (Models.patent_number patent));
     ("application_number", SqlText (application_number patent));
     ("title", SqlText (title patent));
     ("issue_date", SqlText (date_isoformat (issue_date patent)));
     ("filing_date", sql_text_opt (date_isoformat <$> filing_date patent));
     ("inventors", SqlText (Json.dumps_str_list (inventors patent)));
     ("assignee", SqlText (assignee patent));
     ("classification_us", SqlText (classification_us patent));
     ("classification_cpc", SqlText (classification_cpc patent));
     ("classification_locarno", SqlText (classification_locarno patent));
     ("image_url", sql_text_opt (image_url patent));
     ("abstract", sql_text_opt (abstract patent));
     ("pgr_deadline", SqlText (date_isoformat (pgr_deadline patent)));
     ("status", SqlText (status patent));
     ("matched_criteria",
        match matched_criteria with
        | Some (c :: cs) => SqlText (Json.dumps_str_list (c :: cs))
        | _ => SqlNull
        end);
     ("first_seen_at", SqlText (datetime_isoformat (first_seen patent)));
     ("notes", sql_text_opt (notes patent));
     ("notified_at", SqlNull);
     ("ai_analysis", SqlNull)].

Arguments patent_row : simpl never.

(** [Database.insert_patent].  The UNIQUE constraint on [patent_number]
    makes SQLite raise [IntegrityError] when a row with the number exists;
    the method catches it and returns [False].  The NOT NULL columns are
    always given a value here. *)
Definition insert_patent (self : Database) (patent : Patent)
    (matched_criteria : option (list string)) : bool * Database :=
  if patent_exists self (Models.patent_number patent) then (false, self)
  else
    (true,
     {| patents := patents self ++
                   [patent_row (Z.of_nat (List.length (patents self)) + 1)
                               patent matched_criteria];
        search_runs := search_runs self;
        notifications := notifications self |}).

(** [UPDATE patents SET col = v WHERE patent_number = ?] *)
Definition update_patents (self : Database) (patent_number col : string)
    (v : SqlValue) : Database :=
  {| patents := map (fun row =>
                       if col_is row "patent_number" patent_number
                       then <[col := v]> row else row)
                    (patents self);
     search_runs := search_runs self;
     notifications := notifications self |}.

(** [Database.update_patent_status] *)
Definition update_patent_status (self : Database) (patent_number status : string)
  : Database :=
  update_patents self patent_number "status" (SqlText status).

(** [Database.mark_notified], with [now] the value of [datetime.now()]. *)
Definition mark_notified (self : Database) (now : datetime) (patent_number : string)
  : Database :=
  update_patents self patent_number "notified_at" (SqlText (datetime_isoformat now)).

(** [Database.update_ai_analysis] *)
Definition update_ai_analysis (self : Database) (patent_number analysis_json : string)
  : Database :=
  update_patents self patent_number "ai_analysis" (SqlText analysis_json).

(** [Database.get_ai_analysis] *)
Definition get_ai_analysis (self : Database) (patent_number : string)
  : option SqlValue :=
  match List.filter (fun row => col_is row "patent_number" patent_number)
                    (patents self) with
  | row :: _ => row !! "ai_analysis"
  | [] => None
  end.

(** [Database.get_patent_count] *)
Definition get_patent_count (self : Database) : Z :=
  Z.of_nat (List.length (patents self)).

(** The stored row of a patent number (the row read by [get_patent]). *)
Definition get_patent_row (self : Database) (patent_number : string) : option Row :=
  List.find (fun row => col_is row "patent_number" patent_number) (patents self).

Definition search_run_row (id : Z) (run : SearchRun) : Row :=
  list_to_map
    [("id", SqlInt id);
     ("run_at", SqlText (datetime_isoformat (run_at run)));
     ("source", SqlText (source run));
     ("query_params", SqlText (query_params run));
     ("results_count", SqlInt (results_count run));
     ("new_matches_count", SqlInt (new_matches_count run));
     ("error", sql_text_opt (run_error run));
     ("duration_seconds", SqlReal (duration_seconds run))].

Arguments search_run_row : simpl never.

(** [Database.log_search_run] *)
Definition log_search_run (self : Database) (run : SearchRun) : Database :=
  {| patents := patents self;
     search_runs := search_runs self ++
                    [search_run_row (Z.of_nat (List.length (search_runs self)) + 1) run];
     notifications := notifications self |}.

(** The row selected by
    [WHERE source = ? AND error IS NULL ORDER BY run_at DESC LIMIT 1]. *)
Definition is_null (v : option SqlValue) : bool :=
  match v with Some SqlNull => true | _ => false end.

Definition text_of (v : option SqlValue) : string :=
  match v with Some (SqlText s) => s | _ => EmptyString end.

Definition latest_run_at (rows : list Row) : option string :=
  fold_left (fun best row =>
               let t := text_of (row !! "run_at") in
               match best with
               | None => Some t
               | Some b => if String.ltb b t then Some t else Some b
               end)
            rows None.

(** [Database.get_last_run_date] *)
Definition get_last_run_date (self : Database) (source : string) : Res (option date) :=
  let rows := List.filter (fun row => col_is row "source" source
                                      && is_null (row !! "error"))
                          (search_runs self) in
  match latest_run_at rows with
  | None => Ok None
  | Some t =>
      match datetime_fromisoformat_date t with
      | Ok d => Ok (Some d)
      | Raise e => Raise e
      end
  end.

(** [Database.log_notification], with [now] the value of [datetime.now()]. *)
Definition log_notification (self : Database) (now : datetime) (patent_id : Z)
    (notification_type recipient status : string) (error : option string)
  : Database :=
  {| patents := patents self;
     search_runs := search_runs self;
     notifications := notifications self ++
       [list_to_map
          [("id", SqlInt (Z.of_nat (List.length (notifications self)) + 1));
           ("patent_id", SqlInt patent_id);
           ("notification_type", SqlText notification_type);
           ("sent_at", SqlText (datetime_isoformat now));
           ("recipient", SqlText recipient);
           ("status", SqlText status);
           ("error", sql_text_opt error)]] |}.

(** The write operations of the store, as data, and their effect. *)
Inductive StoreOp :=
| OpInsertPatent (patent : Patent) (matched_criteria : option (list string))
| OpUpdatePatentStatus (patent_number status : string)
| OpMarkNotified (now : datetime) (patent_number : string)
| OpUpdateAiAnalysis (patent_number analysis_json : string)
| OpLogSearchRun (run : SearchRun)
| OpLogNotification (now : datetime) (patent_id : Z)
    (notification_type recipient status : string) (error : option string).

Definition apply_op (self : Database) (op : StoreOp) : Database :=
  match op with
  | OpInsertPatent p mc => snd (insert_patent self p mc)
  | OpUpdatePatentStatus pn st => update_patent_status self pn st
  | OpMarkNotified now pn => mark_notified self now pn
  | OpUpdateAiAnalysis pn js => update_ai_analysis self pn js
  | OpLogSearchRun run => log_search_run self run
  | OpLogNotification now pid ty rc st er => log_notification self now pid ty rc st er
  end.

Definition apply_ops (self : Database) (ops : list StoreOp) : Database :=
  fold_left apply_op ops self.

(** How many of the [insert_patent] calls for the number [pn] in a history
    of write operations, run from the store [self], return [True]. *)
Fixpoint successful_inserts (pn : string) (self : Database) (ops : list StoreOp)
  : nat :=
  match ops with
  | [] => 0
  | op :: rest =>
      (match op with
       | OpInsertPatent p mc =>
           if String.eqb (Models.patent_number p) pn && fst (insert_patent self p mc)
           then 1 else 0
       | _ => 0
       end + successful_inserts pn (apply_op self op) rest)%nat
  end.


(** ** Reading rows back *)

(** The text of a column, [None] for NULL.  (The columns read here are
    declared TEXT, so SQLite stores a text or NULL in them.) *)
Definition text_opt (v : option SqlValue) : option string :=
  match v with Some (SqlText s) => Some s | _ => None end.

(** [row[col] or default] *)
Definition text_or (v : option SqlValue) (default : string) : string :=
  match text_opt v with
  | Some s => if is_empty s then default else s
  | None => default
  end.

(** [f(row[col]) if row[col] else None] *)
Definition parse_if_set {A} (f : string -> Res A) (v : option SqlValue)
  : Res (option A) :=
  match text_opt v with
  | Some s =>
      if is_empty s then Ok None
      else match f s with Ok a => Ok (Some a) | Raise e => Raise e end
  | None => Ok None
  end.

(** The exception of [json.loads] on the [inventors] column. *)
Definition json_decode_error : Exn :=
  {| exn_class := OtherException "JSONDecodeError";
     exn_str := "Expecting value" |}.

(** [json.loads(row["inventors"]) if row["inventors"] else []] *)
Definition load_inventors (v : option SqlValue) : Res (list string) :=
  match text_opt v with
  | Some s =>
      if is_empty s then Ok []
      else match Json.loads_str_list s with
           | Some l => Ok l
           | None => Raise json_decode_error
           end
  | None => Ok []
  end.

(** [Database._row_to_patent]: the keyword arguments are evaluated in the
    order written, so the first text that does not parse decides the
    exception. *)
Definition _row_to_patent (row : Row) : Res Patent :=
  match date_fromisoformat (text_of (row !! "issue_date")) with
  | Raise e => Raise e
  | Ok issue_date =>
  match parse_if_set date_fromisoformat (row !! "filing_date") with
  | Raise e => Raise e
  | Ok filing_date =>
  match load_inventors (row !! "inventors") with
  | Raise e => Raise e
  | Ok inventors =>
  match datetime_fromisoformat (text_of (row !! "first_seen_at")) with
  | Raise e => Raise e
  | Ok first_seen =>
  match parse_if_set datetime_fromisoformat (row !! "notified_at") with
  | Raise e => Raise e
  | Ok notified_at =>
      Ok {| patent_number := text_of (row !! "patent_number");
            title := text_of (row !! "title");
            issue_date := issue_date;
            application_number := text_or (row !! "application_number") EmptyString;
            filing_date := filing_date;
            inventors := inventors;
            assignee := text_or (row !! "assignee") EmptyString;
            classification_us := text_or (row !! "classification_us") EmptyString;
            classification_cpc := text_or (row !! "classification_cpc") EmptyString;
            classification_locarno :=
              text_or (row !! "classification_locarno") EmptyString;
            image_url := text_opt (row !! "image_url");
            abstract := text_opt (row !! "abstract");
            status := text_or (row !! "status") "new";
            first_seen := first_seen;
            notified_at := notified_at;
            notes := text_opt (row !! "notes") |}
  end end end end end.

(** [Database.get_patent] *)
Definition get_patent (self : Database) (patent_number : string)
  : Res (option Patent) :=
  match get_patent_row self patent_number with
  | Some row =>
      match _row_to_patent row with
      | Ok p => Ok (Some p)
      | Raise e => Raise e
      end
  | None => Ok None
  end.

(** [[self._row_to_patent(row) for row in cur.fetchall()]]: the first row
    that does not decode decides the exception. *)
Fixpoint rows_to_patents (rows : list Row) : Res (list Patent) :=
  match rows with
  | [] => Ok []
  | row :: rest =>
      match _row_to_patent row with
      | Raise e => Raise e
      | Ok p =>
          match rows_to_patents rest with
          | Raise e => Raise e
          | Ok ps => Ok (p :: ps)
          end
      end
  end.

(** [ORDER BY col DESC] on a text column, by the byte order of the texts.
    Rows with equal texts are kept in table order here; SQLite leaves
    their order open. *)
Fixpoint insert_desc (col : string) (row : Row) (sorted : list Row) : list Row :=
  match sorted with
  | [] => [row]
  | r :: rest =>
      if String.ltb (text_of (row !! col)) (text_of (r !! col))
      then r :: insert_desc col row rest
      else row :: sorted
  end.

Definition order_by_desc (col : string) (rows : list Row) : list Row :=
  fold_right (insert_desc col) [] rows.

(** [Database.get_patents_by_status] *)
Definition get_patents_by_status (self : Database) (status : string)
  : Res (list Patent) :=
  rows_to_patents
    (order_by_desc "issue_date"
       (List.filter (fun row => col_is row "status" status) (patents self))).

(** [Database.get_new_patents] *)
Definition get_new_patents (self : Database) : Res (list Patent) :=
  rows_to_patents
    (order_by_desc "issue_date"
       (List.filter (fun row => col_is row "status" "new") (patents self))).

(** [Database.get_patents_without_ai_analysis] *)
Definition get_patents_without_ai_analysis (self : Database) : Res (list Patent) :=
  rows_to_patents
    (order_by_desc "issue_date"
       (List.filter (fun row => is_null (row !! "ai_analysis")) (patents self))).

End Db.

(* ===================================================================== *)
(** * service.py: the scan                                                *)
(* ===================================================================== *)

Module Service.
Import PyStr Calendar Models Config Matcher Db.
Local Open Scope Z_scope.

(** [ScanResult] *)
Record ScanResult := {
  alerts : list Alert;
  total_fetched : Z;
  new_matches : Z;
  errors : list string;
  scan_duration_seconds : Q
}.

(** The two external sources as one invocation of the scan sees them:
    [USPTOClient.search_design_patents(date_from, date_to, keywords)] and
    [GazetteScraper.scrape_current_week()], each returning a list of
    patents or raising. *)
Record Sources := {
  search_design_patents : date -> date -> option (list string) -> Res (list Patent);
  scrape_current_week : Res (list Patent)
}.

(** The clock readings of one call of [_search_api], in program order:
    [time.time()], [date.today()] (start of the window), [date.today()]
    (end of the window), [datetime.now()], [time.time()]. *)
Record ApiClock := {
  api_start_time : Q;
  api_today_from : date;
  api_today_to : date;
  api_now : datetime;
  api_end_time : Q
}.

(** The clock readings of one call of [_search_gazette]. *)
Record GazetteClock := {
  gaz_start_time : Q;
  gaz_now : datetime;
  gaz_end_time : Q
}.

(** The clock readings of one call of [run_scan]. *)
Record ScanClock := {
  scan_start_time : Q;
  api_clock : ApiClock;
  gazette_clock : GazetteClock;
  scan_end_time : Q
}.

(** The [for patent in patents] loop shared, statement for statement, by
    [_search_api] and [_search_gazette]: skip a tracked patent, otherwise
    match it and, on a match, insert it and append an alert.  On the typed
    patents of the model no statement of the body raises. *)
Fixpoint scan_loop (criteria_list : list SearchCriteriaConfig)
    (patents : list Patent) (db : Database) (alerts : list Alert)
  : list Alert * Database :=
  match patents with
  | [] => (alerts, db)
  | patent :: rest =>
      if patent_exists db (patent_number patent) then
        scan_loop criteria_list rest db alerts
      else
        match match_ criteria_list patent with
        | [] => scan_loop criteria_list rest db alerts
        | matched =>
            let db' := snd (insert_patent db patent (Some matched)) in
            let alert := {| alert_patent := patent; matched_criteria := matched |} in
            scan_loop criteria_list rest db' (alerts ++ [alert])
        end
  end.

(** The state of a [USPTOClient] after [__init__] (the HTTP session
    apart). *)
Record USPTOClient := {
  client_api_key : string;
  client_timeout : Z;
  client_max_retries : Z;
  min_interval : Q
}.

(** The two exceptions of [60.0 / rate_limit]: at a rate limit of 0, and
    at an integer that does not round to a finite double, which is one of
    magnitude [2**1024 - 2**970] or more. *)
Definition float_division_by_zero : Exn :=
  {| exn_class := OtherException "ZeroDivisionError";
     exn_str := "float division by zero" |}.

Definition int_too_large_for_float : Exn :=
  {| exn_class := OverflowError; exn_str := "int too large to convert to float" |}.

Definition float_limit : Z := 2 ^ 1024 - 2 ^ 970.

(** [USPTOClient.__init__]: the statement that can raise is
    [self.min_interval = 60.0 / rate_limit]. *)
Definition USPTOClient_init (api_key : string) (rate_limit timeout max_retries : Z)
  : Res USPTOClient :=
  if rate_limit =? 0 then Raise float_division_by_zero
  else if float_limit <=? Z.abs rate_limit then Raise int_too_large_for_float
  else Ok {| client_api_key := api_key;
             client_timeout := timeout;
             client_max_retries := max_retries;
             min_interval := (60 / inject_Z rate_limit)%Q |}.

(** [_search_api].  Two things happen before the [try] block, and an
    exception of either leaves the function before a run is logged: the
    client is built from the configuration, and the start of the window is
    fixed (an explicit date, else the date of the last successful run, else
    today minus the configured look-back).  The one method of the client
    that is called is the [search_design_patents] of [srcs]. *)
Definition _search_api (config : Config) (db : Database) (srcs : Sources)
    (clk : ApiClock) (date_from date_to : option date)
  : Res ((list Alert * Z * option string) * Database) :=
  let start_time := api_start_time clk in
  let client_r :=
    USPTOClient_init (api_key (api config)) (rate_limit_per_minute (api config))
                     (timeout_seconds (api config)) (max_retries (api config)) in
  let date_from_r :=
    match client_r with
    | Raise e => Raise e
    | Ok client =>
        match date_from with
        | Some d => Ok d
        | None =>
            match get_last_run_date db "api" with
            | Raise e => Raise e
            | Ok (Some last_run) => Ok last_run
            | Ok None =>
                date_sub_days (api_today_from clk) (initial_lookback_days config)
            end
        end
    end in
  match date_from_r with
  | Raise e => Raise e
  | Ok date_from =>
      let date_to := match date_to with Some d => d | None => api_today_to clk end in
      let all_keywords := flat_map keywords (search_criteria config) in
      let '(alerts, fetched_count, results_count, new_matches_count, run_err, error, db1) :=
        match search_design_patents srcs date_from date_to
                (match all_keywords with [] => None | _ => Some all_keywords end) with
        | Ok patents =>
            let '(alerts, db1) := scan_loop (search_criteria config) patents db [] in
            (alerts, Z.of_nat (List.length patents), Z.of_nat (List.length patents),
             Z.of_nat (List.length alerts), None, None, db1)
        | Raise e =>
            ([], 0, 0, 0, Some (exn_str e),
             Some ("API search failed: " +:+ exn_str e), db)
        end in
      let run :=
        {| run_at := api_now clk;
           source := "api";
           query_params :=
             Json.dumps_str_dict
               [("date_from", date_isoformat date_from);
                ("date_to", date_isoformat date_to)];
           results_count := results_count;
           new_matches_count := new_matches_count;
           run_error := run_err;
           duration_seconds := (api_end_time clk - start_time)%Q |} in
      Ok ((alerts, fetched_count, error), log_search_run db1 run)
  end.

(** [_search_gazette] *)
Definition _search_gazette (db : Database)
    (criteria_list : list SearchCriteriaConfig) (srcs : Sources) (clk : GazetteClock)
  : (list Alert * Z * option string) * Database :=
  let start_time := gaz_start_time clk in
  let '(alerts, fetched_count, results_count, new_matches_count, run_err, error, db1) :=
    match scrape_current_week srcs with
    | Ok patents =>
        let '(alerts, db1) := scan_loop criteria_list patents db [] in
        (alerts, Z.of_nat (List.length patents), Z.of_nat (List.length patents),
         Z.of_nat (List.length alerts), None, None, db1)
    | Raise e =>
        ([], 0, 0, 0, Some (exn_str e),
         Some ("Gazette scrape failed: " +:+ exn_str e), db)
    end in
  let run :=
    {| run_at := gaz_now clk;
       source := "gazette";
       query_params := EmptyString;
       results_count := results_count;
       new_matches_count := new_matches_count;
       run_error := run_err;
       duration_seconds := (gaz_end_time clk - start_time)%Q |} in
  ((alerts, fetched_count, error), log_search_run db1 run).

(** [result.errors.append(err)] under [if err:]. *)
Definition append_error (errors : list string) (err : option string) : list string :=
  match err with
  | Some s => if is_empty s then errors else errors ++ [s]
  | None => errors
  end.

(** [run_scan] (with [progress_callback=None]). *)
Definition run_scan (config : Config) (db : Database) (srcs : Sources)
    (clk : ScanClock) (date_from date_to : option date)
  : Res (ScanResult * Database) :=
  let result :=
    {| alerts := []; total_fetched := 0; new_matches := 0; errors := [];
       scan_duration_seconds := 0%Q |} in
  let start_time := scan_start_time clk in
  let criteria_list := search_criteria config in
  let after_api :=
    if uspto_api (sources config) then
      match _search_api config db srcs (api_clock clk) date_from date_to with
      | Raise e => Raise e
      | Ok ((api_alerts, api_fetched, api_error), db1) =>
          Ok ({| alerts := alerts result ++ api_alerts;
                 total_fetched := total_fetched result + api_fetched;
                 new_matches := new_matches result + Z.of_nat (List.length api_alerts);
                 errors := append_error (errors result) api_error;
                 scan_duration_seconds := scan_duration_seconds result |}, db1)
      end
    else Ok (result, db) in
  match after_api with
  | Raise e => Raise e
  | Ok (result, db1) =>
      let '(result, db2) :=
        if official_gazette (sources config) then
          let '((gaz_alerts, gaz_fetched, gaz_error), db2) :=
            _search_gazette db1 criteria_list srcs (gazette_clock clk) in
          ({| alerts := alerts result ++ gaz_alerts;
              total_fetched := total_fetched result + gaz_fetched;
              new_matches := new_matches result + Z.of_nat (List.length gaz_alerts);
              errors := append_error (errors result) gaz_error;
              scan_duration_seconds := scan_duration_seconds result |}, db2)
        else (result, db1) in
      Ok ({| alerts := alerts result;
             total_fetched := total_fetched result;
             new_matches := new_matches result;
             errors := errors result;
             scan_duration_seconds := (scan_end_time clk - start_time)%Q |}, db2)
  end.

End Service.

(* ===================================================================== *)
(** * analyzer.py: response normalization                                 *)
(* ===================================================================== *)

Module Analyzer.
Import PyStr Calendar.
Local Open Scope Z_scope.

(** The values [json.loads] returns.  A [float] is an exact rational, or
    one of the three special values the decoder accepts ([NaN],
    [Infinity], [-Infinity]). *)
Inductive JsonValue : Type :=
| JNull
| JBool (b : bool)
| JInt (z : Z)
| JFloat (q : Q)
| JNaN
| JInfinity (negative : bool)
| JString (s : string)
| JArray (items : list JsonValue)
| JObject (members : gmap string JsonValue).

(** [type(v).__name__] *)
Definition type_name (v : JsonValue) : string :=
  match v with
  | JNull => "NoneType"
  | JBool _ => "bool"
  | JInt _ => "int"
  | JFloat _ | JNaN | JInfinity _ => "float"
  | JString _ => "str"
  | JArray _ => "list"
  | JObject _ => "dict"
  end.

(** [AnalysisResult].  [reasoning] is stored as received, whatever its JSON
    type. *)
Record AnalysisResult := {
  similarity_score : Z;
  risk_level : string;
  recommendation : string;
  reasoning : JsonValue;
  patent_image_used : bool;
  product_images_used : list string;
  model_used : string;
  analyzed_at : datetime;
  error : option string
}.

(** The digits of an integer literal, with single underscores allowed
    between digits. *)
Fixpoint parse_digits (s : string) (acc : Z) (after_digit : bool) : option Z :=
  match s with
  | EmptyString => if after_digit then Some acc else None
  | String c s' =>
      match digit_value c with
      | Some d => parse_digits s' (acc * 10 + d) true
      | None =>
          if Ascii.eqb c "_" && after_digit then parse_digits s' acc false
          else None
      end
  end.

(** [int(s)] for a [str]: surrounding whitespace, an optional sign, digits. *)
Definition parse_int_literal (s : string) : option Z :=
  match strip s with
  | String "+" r => parse_digits r 0 false
  | String "-" r => Z.opp <$> parse_digits r 0 false
  | r => parse_digits r 0 false
  end.

(** [int(v)] *)
Definition py_int (v : JsonValue) : Res Z :=
  match v with
  | JBool b => Ok (if b then 1 else 0)
  | JInt z => Ok z
  | JFloat q => Ok (Z.quot (Qnum q) (Zpos (Qden q)))
  | JNaN =>
      Raise {| exn_class := ValueError;
               exn_str := "cannot convert float NaN to integer" |}
  | JInfinity _ =>
      Raise {| exn_class := OverflowError;
               exn_str := "cannot convert float infinity to integer" |}
  | JString s =>
      match parse_int_literal s with
      | Some z => Ok z
      | None =>
          Raise {| exn_class := ValueError;
                   exn_str := "invalid literal for int() with base 10: "
                              +:+ String squote (s +:+ String squote EmptyString) |}
      end
  | JNull | JArray _ | JObject _ =>
      Raise {| exn_class := TypeError;
               exn_str := "int() argument must be a string, a bytes-like object "
                          +:+ "or a real number, not '" +:+ type_name v +:+ "'" |}
  end.

(** [v if v in allowed else fallback], for a JSON value [v]: only a string
    equals a string. *)
Definition validated (v : JsonValue) (allowed : list string) (fallback : string)
  : string :=
  match v with
  | JString s => if str_in s allowed then s else fallback
  | _ => fallback
  end.

(** [PatentAnalyzer._data_to_result], with [now] the value of
    [datetime.now()] taken by the constructor's default [analyzed_at]. *)
Definition _data_to_result (now : datetime) (data : JsonValue) : Res AnalysisResult :=
  match data with
  | JObject d =>
      match py_int (default (JInt 0) (d !! "similarity_score")) with
      | Raise e => Raise e
      | Ok score =>
          let score := Z.max 0 (Z.min 100 score) in
          let risk_level :=
            validated (default (JString "none") (d !! "risk_level"))
                      ["high"; "medium"; "low"; "none"] "none" in
          let recommendation :=
            validated (default (JString "monitor") (d !! "recommendation"))
                      ["flag"; "monitor"; "dismiss"] "monitor" in
          Ok {| similarity_score := score;
                risk_level := risk_level;
                recommendation := recommendation;
                reasoning := default (JString EmptyString) (d !! "reasoning");
                patent_image_used := false;
                product_images_used := [];
                model_used := EmptyString;
                analyzed_at := now;
                error := None |}
      end
  | _ =>
      Raise {| exn_class := AttributeError;
               exn_str := "'" +:+ type_name data +:+ "' object has no attribute 'get'" |}
  end.

Definition is_brace (c : ascii) : bool := Ascii.eqb c "{" || Ascii.eqb c "}".

(** The longest brace-free prefix of a text, and what follows it. *)
Fixpoint span_brace_free (s : string) : string * string :=
  match s with
  | EmptyString => (EmptyString, EmptyString)
  | String c s' =>
      if is_brace c then (EmptyString, s)
      else let '(run, rest) := span_brace_free s' in (String c run, rest)
  end.

(** The quoted key the second strategy looks for. *)
Definition score_key : string :=
  String dquote ("similarity_score" +:+ String dquote EmptyString).

(** [re.search] of the second strategy, an opening brace, brace-free text
    containing the quoted key, a closing brace: the leftmost match. *)
Fixpoint search_score_object (s : string) : option string :=
  match s with
  | EmptyString => None
  | String c s' =>
      if Ascii.eqb c "{" then
        let '(run, rest) := span_brace_free s' in
        match rest with
        | String c2 _ =>
            if Ascii.eqb c2 "}" && contains score_key run
            then Some (String "{" (run +:+ "}"))
            else search_score_object s'
        | EmptyString => search_score_object s'
        end
      else search_score_object s'
  end.

(** The text up to and including the first closing brace. *)
Fixpoint upto_close (s : string) : option string :=
  match s with
  | EmptyString => None
  | String c s' =>
      if Ascii.eqb c "}" then Some "}"%string
      else String c <$> upto_close s'
  end.

(** [re.search] of the third strategy (an opening brace, then lazily up to
    the first closing brace, with DOTALL): the leftmost match. *)
Fixpoint search_any_object (s : string) : option string :=
  match s with
  | EmptyString => None
  | String c s' =>
      if Ascii.eqb c "{" then
        match upto_close s' with
        | Some m => Some (String "{" m)
        | None => search_any_object s'
        end
      else search_any_object s'
  end.

(** The result returned when no strategy parses. *)
Definition parse_failure_result (now : datetime) (response_text : string)
  : AnalysisResult :=
  {| similarity_score := 0;
     risk_level := "none";
     recommendation := "monitor";
     reasoning := JString ("Could not parse AI response. Raw: "
                           +:+ take 200 response_text);
     patent_image_used := false;
     product_images_used := [];
     model_used := EmptyString;
     analyzed_at := now;
     error := Some "parse_failure"%string |}.

(** One strategy on an extracted candidate: [None] when there is no
    candidate or [json.loads] raises [JSONDecodeError] on it. *)
Definition try_candidate (json_loads : string -> option JsonValue)
    (now : datetime) (candidate : option string) : option (Res AnalysisResult) :=
  match candidate with
  | Some text => _data_to_result now <$> json_loads text
  | None => None
  end.

(** [PatentAnalyzer._parse_response].  [json_loads text] is [Some v] when
    [json.loads(text)] returns [v] and [None] when it raises
    [JSONDecodeError], the only exception the method catches. *)
Definition _parse_response (json_loads : string -> option JsonValue)
    (now : datetime) (response_text : string) : Res AnalysisResult :=
  match try_candidate json_loads now (Some (strip response_text)) with
  | Some r => r
  | None =>
      match try_candidate json_loads now (search_score_object response_text) with
      | Some r => r
      | None =>
          match try_candidate json_loads now (search_any_object response_text) with
          | Some r => r
          | None => Ok (parse_failure_result now response_text)
          end
      end
  end.

(** The outcome of one call of [client.messages.create]: the text of the
    reply, or a raised exception. *)
Inductive CreateOutcome :=
| Replied (text : string)
| Failed (e : Exn).

Definition max_retries : nat := 3.

(** The [for attempt in range(1, max_retries + 1)] loop of [_call_api];
    [create k] is the outcome of the k-th attempt. *)
Fixpoint _call_api_from (create : nat -> CreateOutcome) (attempt remaining : nat)
  : Res string :=
  match remaining with
  | O =>
      Raise {| exn_class := RuntimeError;
               exn_str := "Anthropic API call failed after all retries" |}
  | S remaining' =>
      match create attempt with
      | Replied text => Ok text
      | Failed e =>
          match exn_class e with
          | RateLimitError => _call_api_from create (S attempt) remaining'
          | APIStatusError status_code =>
              if (500 <=? status_code) && (attempt <? max_retries)%nat
              then _call_api_from create (S attempt) remaining'
              else Raise e
          | _ => Raise e
          end
      end
  end.

(** [PatentAnalyzer._call_api] *)
Definition _call_api (create : nat -> CreateOutcome) : Res string :=
  _call_api_from create 1 max_retries.

(** The result built by the [except Exception] clause of [analyze]. *)
Definition call_failure_result (model : string) (now : datetime) (e : Exn)
  : AnalysisResult :=
  {| similarity_score := 0;
     risk_level := "none";
     recommendation := "monitor";
     reasoning := JString ("AI analysis failed: " +:+ exn_str e);
     patent_image_used := false;
     product_images_used := [];
     model_used := model;
     analyzed_at := now;
     error := Some (exn_str e) |}.

(** [PatentAnalyzer.analyze].  [model] is [config.model]; [parse_now] and
    [now] are the readings of [datetime.now()] inside [_parse_response]
    and at the end of [analyze]; building the request payload has no
    outcome of its own. *)
Definition analyze (model : string) (json_loads : string -> option JsonValue)
    (create : nat -> CreateOutcome) (parse_now now : datetime)
    (patent_image : option string) (product_images : list (string * string))
  : AnalysisResult :=
  match _call_api create with
  | Raise e => call_failure_result model now e
  | Ok response_text =>
      match _parse_response json_loads parse_now response_text with
      | Raise e => call_failure_result model now e
      | Ok result =>
          {| similarity_score := similarity_score result;
             risk_level := risk_level result;
             recommendation := recommendation result;
             reasoning := reasoning result;
             patent_image_used :=
               match patent_image with Some _ => true | None => false end;
             product_images_used := map fst product_images;
             model_used := model;
             analyzed_at := now;
             error := error result |}
      end
  end.


(** The signatures [_guess_media_type] looks for at the head of the image
    bytes (a [bytes] value is modelled as the string of its bytes). *)
Definition png_magic : string :=
  String (ascii_of_nat 137)
    ("PNG" +:+ String (ascii_of_nat 13) (String (ascii_of_nat 10)
                 (String (ascii_of_nat 26) (String (ascii_of_nat 10) EmptyString)))).

Definition jpeg_magic : string :=
  String (ascii_of_nat 255) (String (ascii_of_nat 216) EmptyString).

(** [PatentAnalyzer._guess_media_type] *)
Definition _guess_media_type (image_bytes filename : string) : string :=
  if String.eqb (take 8 image_bytes) png_magic then "image/png"
  else if String.eqb (take 2 image_bytes) jpeg_magic then "image/jpeg"
  else if String.eqb (take 4 image_bytes) "RIFF"
          && String.eqb (take 4 (drop 8 image_bytes)) "WEBP" then "image/webp"
  else
    let ext := if contains "." filename then rsplit_last "." (lower filename)
               else EmptyString in
    if String.eqb ext "png" then "image/png"
    else if String.eqb ext "jpg" then "image/jpeg"
    else if String.eqb ext "jpeg" then "image/jpeg"
    else if String.eqb ext "webp" then "image/webp"
    else "image/png".

End Analyzer.

(* ===================================================================== *)
(** * api/uspto_client.py: the request loop                               *)
(* ===================================================================== *)

Module UsptoClient.
Import PyStr Analyzer.
Local Open Scope Z_scope.

(** The outcome of one call of [session.request]: a response, with its
    status code, the [HTTPError] that [raise_for_status] raises for it when
    the status is a 4xx or 5xx, and the outcome of [response.json()]; a
    [requests.exceptions.Timeout]; or any other exception, which no clause
    of [_request] catches. *)
Inductive HttpOutcome :=
| Response (status_code : Z) (http_error : Exn) (json : Res JsonValue)
| TimedOut (e : Exn)
| OtherFailure (e : Exn).

(** The [for attempt in range(1, self.max_retries + 1)] loop of
    [USPTOClient._request]; [send k] is the outcome of the k-th request. *)
Fixpoint _request_from (send : nat -> HttpOutcome) (max_retries : nat)
    (attempt remaining : nat) : Res JsonValue :=
  match remaining with
  | O => Ok (JObject ∅)
  | S remaining' =>
      match send attempt with
      | Response status_code http_error json =>
          if status_code =? 429 then
            _request_from send max_retries (S attempt) remaining'
          else if status_code =? 404 then Ok (JObject ∅)
          else if (400 <=? status_code) && (status_code <? 600) then
            if (500 <=? status_code) && (attempt <? max_retries)%nat
            then _request_from send max_retries (S attempt) remaining'
            else Raise http_error
          else json
      | TimedOut e =>
          if (attempt =? max_retries)%nat then Raise e
          else _request_from send max_retries (S attempt) remaining'
      | OtherFailure e => Raise e
      end
  end.

(** [USPTOClient._request] *)
Definition _request (send : nat -> HttpOutcome) (max_retries : nat) : Res JsonValue :=
  _request_from send max_retries 1 max_retries.

End UsptoClient.

(* ===================================================================== *)
(** * api/gazette_scraper.py: fetching one week                           *)
(* ===================================================================== *)

Module GazetteScraper.
Import PyStr Calendar Models.
Local Open Scope Z_scope.

(** [ALT_URLS], formatted with the week text. *)
Definition ALT_URLS (week : string) : list string :=
  ["https://patentsgazette.uspto.gov/week" +:+ week +:+ "/OG/Designs.html";
   "https://www.uspto.gov/web/patents/patog/week" +:+ week +:+ "/OG/html/Designs.html"].

(** The outcome of fetching one URL: a response, with its status code and
    the outcome of [_parse_gazette_page] on its text; a
    [requests.exceptions.RequestException] raised by [session.get]; or any
    other exception. *)
Inductive PageOutcome :=
| Page (status_code : Z) (parsed : Res (list Patent))
| RequestFailed (e : Exn)
| OtherFailure (e : Exn).

(** The [for url_template in self.ALT_URLS] loop of [scrape_week].  An
    error status makes [raise_for_status] raise [HTTPError], which is a
    [RequestException] and is caught like a 404 is skipped. *)
Fixpoint scrape_urls (get : string -> PageOutcome) (urls : list string)
  : Res (list Patent) :=
  match urls with
  | [] => Ok []
  | url :: rest =>
      match get url with
      | Page status_code parsed =>
          if status_code =? 404 then scrape_urls get rest
          else if (400 <=? status_code) && (status_code <? 600)
          then scrape_urls get rest
          else parsed
      | RequestFailed _ => scrape_urls get rest
      | OtherFailure e => Raise e
      end
  end.

(** [GazetteScraper.scrape_week], for a week number of one or two digits
    (an ISO week), where [str(week_num).zfill(2)] is the two-digit text. *)
Definition scrape_week (get : string -> PageOutcome) (week_num : Z)
  : Res (list Patent) :=
  scrape_urls get (ALT_URLS (pad2 week_num)).

End GazetteScraper.

(* ===================================================================== *)
(** * service.py: the AI analysis batch                                   *)
(* ===================================================================== *)

Module AiService.
Import PyStr Calendar Models Db Analyzer.
Local Open Scope Z_scope.

(** [AiAnalysisResult] *)
Record AiAnalysisResult := {
  analyzed : list (string * AnalysisResult);
  skipped : Z;
  ai_errors : list string;
  ai_duration_seconds : Q
}.

(** What one call of [run_ai_analysis] reads from outside the store:
    [config.ai.enabled] and [config.ai.model]; the list returned by
    [load_product_images]; [image_fetcher.fetch_patent_image], which
    catches the exceptions of its strategies and returns [None] when all of
    them fail; [json.loads] and [json.dumps] (the latter on the dict of the
    nine fields of a result); the outcome of the k-th API attempt for the
    i-th patent of the batch; and the clock readings.  The construction of
    the analyzer and of the image fetcher has no outcome of its own
    here. *)
Record AiEnvironment := {
  ai_enabled : bool;
  ai_model : string;
  product_images : list (string * string);
  fetch_patent_image : Patent -> option string;
  json_loads : string -> option JsonValue;
  json_dumps : AnalysisResult -> string;
  create : nat -> nat -> CreateOutcome;
  parse_now : nat -> datetime;
  final_now : nat -> datetime;
  ai_start_time : Q;
  ai_end_time : Q
}.

(** [_analyze_single_patent], for the i-th patent of the batch. *)
Definition _analyze_single_patent (env : AiEnvironment) (i : nat) (patent : Patent)
    (db : Database) : AnalysisResult * Database :=
  let patent_image := fetch_patent_image env patent in
  let analysis :=
    analyze (ai_model env) (json_loads env) (create env i) (parse_now env i)
            (final_now env i) patent_image (product_images env) in
  (analysis,
   update_ai_analysis db (patent_number patent) (json_dumps env analysis)).

(** The [for i, patent in enumerate(patents)] loop.  An [AnalysisResult]
    object is true, so the branch that counts a skipped patent is not
    taken; and no statement of the [try] block raises on the values of the
    model, so the [except] clause, which would append an error, is not
    entered. *)
Fixpoint analyze_loop (env : AiEnvironment) (i : nat) (patents : list Patent)
    (db : Database) (result : AiAnalysisResult) : AiAnalysisResult * Database :=
  match patents with
  | [] => (result, db)
  | patent :: rest =>
      let '(analysis, db') := _analyze_single_patent env i patent db in
      analyze_loop env (S i) rest db'
        {| analyzed := analyzed result ++ [(patent_number patent, analysis)];
           skipped := skipped result;
           ai_errors := ai_errors result;
           ai_duration_seconds := ai_duration_seconds result |}
  end.

(** [[db.get_patent(pn) for pn in patent_numbers]], then the entries that
    are not [None]. *)
Fixpoint get_listed_patents (db : Database) (patent_numbers : list string)
  : Res (list Patent) :=
  match patent_numbers with
  | [] => Ok []
  | pn :: rest =>
      match get_patent db pn with
      | Raise e => Raise e
      | Ok found =>
          match get_listed_patents db rest with
          | Raise e => Raise e
          | Ok ps => Ok (match found with Some p => p :: ps | None => ps end)
          end
      end
  end.

(** [run_ai_analysis] (with [progress_callback=None]).  It raises only
    when a stored row does not decode. *)
Definition run_ai_analysis (env : AiEnvironment) (db : Database)
    (patent_numbers : option (list string)) : Res (AiAnalysisResult * Database) :=
  let result :=
    {| analyzed := []; skipped := 0; ai_errors := []; ai_duration_seconds := 0%Q |} in
  let start_time := ai_start_time env in
  if negb (ai_enabled env) then
    Ok ({| analyzed := analyzed result; skipped := skipped result;
           ai_errors := ai_errors result
                        ++ ["AI analysis is not enabled in configuration"%string];
           ai_duration_seconds := ai_duration_seconds result |}, db)
  else
    match product_images env with
    | [] =>
        Ok ({| analyzed := analyzed result; skipped := skipped result;
               ai_errors :=
                 ai_errors result
                 ++ ["No product images found. Add images to the product images directory."%string];
               ai_duration_seconds := ai_duration_seconds result |}, db)
    | _ :: _ =>
        let selected :=
          match patent_numbers with
          | Some (pn :: pns) => get_listed_patents db (pn :: pns)
          | _ => get_patents_without_ai_analysis db
          end in
        match selected with
        | Raise e => Raise e
        | Ok [] =>
            Ok ({| analyzed := analyzed result; skipped := skipped result;
                   ai_errors := ai_errors result;
                   ai_duration_seconds := (ai_end_time env - start_time)%Q |}, db)
        | Ok patents =>
            let '(result, db') := analyze_loop env 0 patents db result in
            Ok ({| analyzed := analyzed result; skipped := skipped result;
                   ai_errors := ai_errors result;
                   ai_duration_seconds := (ai_end_time env - start_time)%Q |}, db')
        end
    end.

End AiService.

(* ===================================================================== *)
(** * Sample data (the values used by the test suite)                     *)
(* ===================================================================== *)

Module Samples.
Import PyStr Calendar Models Config Db Service Analyzer.
Local Open Scope Z_scope.

Definition mkdate (y m d : Z) : date := {| year := y; month := m; day := d |}.

Definition midnight (d : date) : datetime :=
  {| dt_date := d; hour := 0; minute := 0; second := 0; microsecond := 0 |}.

(** [make_patent] of the tests: a patent with the dataclass defaults. *)
Definition make_patent (number title : string) (issued : date)
    (us_class : string) : Patent :=
  {| patent_number := number;
     title := title;
     issue_date := issued;
     application_number := EmptyString;
     filing_date := None;
     inventors := [];
     assignee := EmptyString;
     classification_us := us_class;
     classification_cpc := EmptyString;
     classification_locarno := EmptyString;
     image_url := None;
     abstract := None;
     status := "new";
     first_seen := midnight (mkdate 2026 2 24);
     notified_at := None;
     notes := None |}.

(** [make_config] of [test_service.py], with both sources enabled. *)
Definition test_criteria : list SearchCriteriaConfig :=
  [{| name := "Test"; us_classes := ["D16/300"%string]; cpc_classes := [];
      keywords := ["eyeglasses"%string]; assignee_exclude := [] |}].

Definition test_config : Config :=
  {| api := {| rate_limit_per_minute := 50; timeout_seconds := 30;
               Config.max_retries := 3; api_key := "test-key" |};
     search_criteria := test_criteria;
     initial_lookback_days := 90;
     sources := {| uspto_api := true; official_gazette := true |} |}.

(** The same configuration with [rate_limit_per_minute: 0]. *)
Definition zero_rate_config : Config :=
  {| api := {| rate_limit_per_minute := 0; timeout_seconds := 30;
               Config.max_retries := 3; api_key := "test-key" |};
     search_criteria := test_criteria;
     initial_lookback_days := 90;
     sources := {| uspto_api := true; official_gazette := true |} |}.

(** The same configuration with [initial_lookback_days: 1000000]. *)
Definition far_lookback_config : Config :=
  {| api := {| rate_limit_per_minute := 50; timeout_seconds := 30;
               Config.max_retries := 3; api_key := "test-key" |};
     search_criteria := test_criteria;
     initial_lookback_days := 1000000;
     sources := {| uspto_api := true; official_gazette := true |} |}.

(** A classification with a tab inside a value, and texts with whitespace
    around a value. *)
Definition tab : ascii := ascii_of_nat 9.
Definition newline : ascii := ascii_of_nat 10.

Definition class_with_tab : string := "D16" +:+ String tab "/300".

Definition class_in_whitespace : string :=
  String tab (" D16/300 " +:+ String newline EmptyString).

Definition prefix_in_whitespace : string :=
  String newline ("D16" +:+ String tab EmptyString).

Definition eyeglasses_frame : Patent :=
  make_patent "D1012345" "Eyeglasses Frame" (mkdate 2026 2 18) "D16/300".

Definition sunglasses : Patent :=
  make_patent "D1012346" "Folding Eyeglasses" (mkdate 2026 2 18) "D16/301".

Definition unrelated_widget : Patent :=
  make_patent "D9999999" "Unrelated Widget" (mkdate 2026 2 18) "D99/999".

Definition api_down : Exn :=
  {| exn_class := RuntimeError; exn_str := "API down" |}.

Definition test_clock : ScanClock :=
  {| scan_start_time := 0%Q;
     api_clock := {| api_start_time := 0%Q;
                     api_today_from := mkdate 2026 2 24;
                     api_today_to := mkdate 2026 2 24;
                     api_now := midnight (mkdate 2026 2 24);
                     api_end_time := 1%Q |};
     gazette_clock := {| gaz_start_time := 1%Q;
                         gaz_now := midnight (mkdate 2026 2 24);
                         gaz_end_time := 2%Q |};
     scan_end_time := 2%Q |}.

(** Source A (the API) raises, source B (the gazette) returns two
    eyeglasses patents. *)
Definition sources_api_down : Sources :=
  {| search_design_patents := fun _ _ _ => Raise api_down;
     scrape_current_week := Ok [eyeglasses_frame; sunglasses] |}.

(** Source B (the gazette) raises, source A returns the two patents. *)
Definition gazette_down : Exn :=
  {| exn_class := OtherException "ParserError"; exn_str := "malformed page" |}.

Definition sources_gazette_down : Sources :=
  {| search_design_patents := fun _ _ _ => Ok [eyeglasses_frame; sunglasses];
     scrape_current_week := Raise gazette_down |}.

(** A logged run. *)
Definition sample_run : SearchRun :=
  {| run_at := midnight (mkdate 2026 2 20);
     source := "api";
     query_params := EmptyString;
     results_count := 5;
     new_matches_count := 2;
     run_error := None;
     duration_seconds := 1%Q |}.

(** The API returns a matching and a non-matching patent. *)
Definition sources_mixed : Sources :=
  {| search_design_patents := fun _ _ _ => Ok [eyeglasses_frame; unrelated_widget];
     scrape_current_week := Ok [] |}.

(** The result and the store of a scan that returned. *)
Definition returned (r : Res (ScanResult * Database)) : bool :=
  match r with Ok _ => true | Raise _ => false end.

Definition result_of (r : Res (ScanResult * Database)) : ScanResult :=
  match r with
  | Ok (res, _) => res
  | Raise _ => {| alerts := []; total_fetched := 0; new_matches := 0; errors := [];
                  scan_duration_seconds := 0%Q |}
  end.

Definition store_of (r : Res (ScanResult * Database)) : Database :=
  match r with Ok (_, db) => db | Raise _ => empty_db end.

(** The scan of the partial-failure example. *)
Definition scan_api_down : Res (ScanResult * Database) :=
  run_scan test_config empty_db sources_api_down test_clock None None.

(** A first and a second scan of the same window over the same output. *)
Definition first_scan : Res (ScanResult * Database) :=
  run_scan test_config empty_db sources_mixed test_clock
           (Some (mkdate 2026 1 1)) (Some (mkdate 2026 2 24)).

Definition second_scan : Res (ScanResult * Database) :=
  run_scan test_config (store_of first_scan) sources_mixed test_clock
           (Some (mkdate 2026 1 1)) (Some (mkdate 2026 2 24)).

(** The same two scans without window arguments, as the command line
    runs them: each works out its own window. *)
Definition first_scan_default : Res (ScanResult * Database) :=
  run_scan test_config empty_db sources_mixed test_clock None None.

Definition second_scan_default : Res (ScanResult * Database) :=
  run_scan test_config (store_of first_scan_default) sources_mixed test_clock None None.

(** The partial-failure example under a rate limit of 0, and under a
    look-back that reaches before the year 1. *)
Definition scan_zero_rate : Res (ScanResult * Database) :=
  run_scan zero_rate_config empty_db sources_api_down test_clock None None.

Definition scan_far_lookback : Res (ScanResult * Database) :=
  run_scan far_lookback_config empty_db sources_api_down test_clock None None.

(** A decoder that knows one text, the JSON number 72, as [json.loads]
    decodes it. *)
Definition loads_72 (text : string) : option JsonValue :=
  if String.eqb text "72" then Some (JInt 72) else None.

(** A decoder on which every text fails. *)
Definition loads_nothing (text : string) : option JsonValue := None.

(** The exception [_data_to_result] raises on a decoded number. *)
Definition int_has_no_get : Exn :=
  {| exn_class := AttributeError;
     exn_str := "'int' object has no attribute 'get'" |}.


(** A store that tracks one patent. *)
Definition tracked_frame : Database :=
  snd (insert_patent empty_db eyeglasses_frame None).

(** An AI batch over that store: analysis enabled, one product image, no
    patent drawing found, and a reply of the API that is not JSON. *)
Definition sample_ai_env : AiService.AiEnvironment :=
  {| AiService.ai_enabled := true;
     AiService.ai_model := "claude-sonnet-4-20250514";
     AiService.product_images := [("ours.png"%string, "bytes"%string)];
     AiService.fetch_patent_image := fun _ => None;
     AiService.json_loads := loads_nothing;
     AiService.json_dumps := fun a => Analyzer.risk_level a;
     AiService.create := fun _ _ => Replied "I cannot analyze this image.";
     AiService.parse_now := fun _ => midnight (mkdate 2026 2 24);
     AiService.final_now := fun _ => midnight (mkdate 2026 2 24);
     AiService.ai_start_time := 0%Q;
     AiService.ai_end_time := 1%Q |}.

Definition first_batch : Res (AiService.AiAnalysisResult * Database) :=
  AiService.run_ai_analysis sample_ai_env tracked_frame None.

Definition batch_returned (r : Res (AiService.AiAnalysisResult * Database)) : bool :=
  match r with Ok _ => true | Raise _ => false end.

Definition batch_result_of (r : Res (AiService.AiAnalysisResult * Database))
  : AiService.AiAnalysisResult :=
  match r with
  | Ok (res, _) => res
  | Raise _ => {| AiService.analyzed := []; AiService.skipped := 0;
                  AiService.ai_errors := []; AiService.ai_duration_seconds := 0%Q |}
  end.

Definition batch_store_of (r : Res (AiService.AiAnalysisResult * Database)) : Database :=
  match r with Ok (_, db) => db | Raise _ => empty_db end.

End Samples.

(* ===================================================================== *)
(** * Predicates used in the statements                                   *)
(* ===================================================================== *)

Module Statements.
Import PyStr Calendar Models Config Matcher Db Service.

(** The lower-case ASCII letters, and upper-casing as arithmetic on the
    character codes. *)
Definition is_lower_letter (c : ascii) : bool :=
  let n := nat_of_ascii c in (97 <=? n)%nat && (n <=? 122)%nat.

Definition to_upper (c : ascii) : ascii :=
  if is_lower_letter c then ascii_of_nat (nat_of_ascii c - 32) else c.

Fixpoint upper_case (s : string) : string :=
  match s with
  | EmptyString => EmptyString
  | String c s' => String (to_upper c) (upper_case s')
  end.

Fixpoint remove_spaces (s : string) : string :=
  match s with
  | EmptyString => EmptyString
  | String c s' =>
      if Ascii.eqb c " " then remove_spaces s' else String c (remove_spaces s')
  end.

(** The normalization of the class check as the specification words it:
    upper-casing and removing whitespace, all of it and wherever it is. *)
Fixpoint remove_whitespace (s : string) : string :=
  match s with
  | EmptyString => EmptyString
  | String c s' =>
      if py_isspace c then remove_whitespace s' else String c (remove_whitespace s')
  end.

Definition spec_normalize (x : string) : string := upper_case (remove_whitespace x).

(** The class check over that normalization: both sides non-empty, and a
    semicolon-delimited value that starts with the prefix. *)
Definition spec_class_matches (patent_classification target_class : string) : bool :=
  negb (is_empty patent_classification) && negb (is_empty target_class) &&
  existsb (fun v => startswith (spec_normalize v) (spec_normalize target_class))
          (split ";" patent_classification).

(** The claim that the class check of the code is that check. *)
Definition class_check_removes_whitespace : Prop :=
  forall patent_classification target_class,
    _class_matches patent_classification target_class
    = spec_class_matches patent_classification target_class.

(** The texts whose whitespace characters are all spaces. *)
Definition only_spaces (s : string) : bool :=
  all_chars (fun ch => negb (py_isspace ch) || Ascii.eqb ch " ") s.

Definition first_char (s : string) : option ascii :=
  match s with EmptyString => None | String c _ => Some c end.

Fixpoint last_char (s : string) : option ascii :=
  match s with
  | EmptyString => None
  | String c EmptyString => Some c
  | String _ s' => last_char s'
  end.

(** What a stored row of the [patents] table holds of the derived fields:
    no column for the months remaining or the urgency, only columns of the
    schema, and a [pgr_deadline] column that is the ISO text of the stored
    issue date shifted by nine months. *)
Definition patents_row_ok (row : Row) : Prop :=
  row !! "pgr_months_remaining" = None /\
  row !! "urgency" = None /\
  (forall col, is_Some (row !! col) -> In col patents_columns) /\
  exists issued : date,
    row !! "issue_date" = Some (SqlText (date_isoformat issued)) /\
    row !! "pgr_deadline"
      = Some (SqlText (date_isoformat (date_add issued (relativedelta_months 9)))).

(** A row of [search_runs] or [notifications] has none of the three. *)
Definition no_derived_columns (row : Row) : Prop :=
  row !! "pgr_deadline" = None /\
  row !! "pgr_months_remaining" = None /\
  row !! "urgency" = None.

Definition store_ok (db : Database) : Prop :=
  (forall row, In row (patents db) -> patents_row_ok row) /\
  (forall row, In row (search_runs db) -> no_derived_columns row) /\
  (forall row, In row (notifications db) -> no_derived_columns row).

(** The reading of "never persisted" for all three derived fields: no
    stored patent row has a value under any of the three names. *)
Definition derived_never_persisted : Prop :=
  forall ops row col,
    In row (patents (apply_ops empty_db ops)) ->
    In col ["pgr_deadline"; "pgr_months_remaining"; "urgency"]%string ->
    row !! col = None.

(** The keywords argument of the API query: [all_keywords if all_keywords
    else None]. *)
Definition api_keywords (config : Config) : option (list string) :=
  let all_keywords := flat_map keywords (search_criteria config) in
  match all_keywords with [] => None | _ => Some all_keywords end.

(** What one source contributes, by the outcome of its fetch. *)
Definition candidates_of (out : Res (list Patent)) : list Patent :=
  match out with Ok patents => patents | Raise _ => [] end.

Definition fetched_of (out : Res (list Patent)) : Z :=
  match out with Ok patents => Z.of_nat (List.length patents) | Raise _ => 0%Z end.

Definition run_error_of (out : Res (list Patent)) : option string :=
  match out with Ok _ => None | Raise e => Some (exn_str e) end.

Definition error_of (label : string) (out : Res (list Patent)) : option string :=
  match out with Ok _ => None | Raise e => Some (label +:+ exn_str e) end.

(** The alerts and the store at the end of one source's [try] block. *)
Definition after_try (criteria_list : list SearchCriteriaConfig) (db : Database)
    (out : Res (list Patent)) : list Alert * Database :=
  match out with
  | Ok patents => scan_loop criteria_list patents db []
  | Raise _ => ([], db)
  end.

(** The statements of [_search_api] before its [try] block, as one
    outcome: the window of the search, or the exception of the client's
    constructor, of [get_last_run_date] or of the date subtraction. *)
Definition api_window (config : Config) (db : Database) (clk : ApiClock)
    (date_from date_to : option date) : Res (date * date) :=
  match USPTOClient_init (api_key (api config)) (rate_limit_per_minute (api config))
                         (timeout_seconds (api config)) (max_retries (api config)) with
  | Raise e => Raise e
  | Ok _ =>
      let date_to := match date_to with Some d => d | None => api_today_to clk end in
      match date_from with
      | Some d => Ok (d, date_to)
      | None =>
          match get_last_run_date db "api" with
          | Raise e => Raise e
          | Ok (Some last_run) => Ok (last_run, date_to)
          | Ok None =>
              match date_sub_days (api_today_from clk) (initial_lookback_days config) with
              | Raise e => Raise e
              | Ok d => Ok (d, date_to)
              end
          end
      end
  end.

(** The candidates the two sources hand to one scan of the window
    [date_from, date_to]. *)
Definition fetched_candidates (config : Config) (srcs : Sources)
    (date_from date_to : date) : list Patent :=
  (if uspto_api (sources config)
   then candidates_of (search_design_patents srcs date_from date_to (api_keywords config))
   else [])
  ++
  (if official_gazette (sources config)
   then candidates_of (scrape_current_week srcs)
   else []).

(** The candidates the two sources hand to one scan, whatever its window
    arguments are: those of the API for the window the scan fixes, then
    those of the gazette. *)
Definition scan_candidates (config : Config) (db : Database) (srcs : Sources)
    (clk : ScanClock) (date_from date_to : option date) : list Patent :=
  (if uspto_api (sources config)
   then match api_window config db (api_clock clk) date_from date_to with
        | Ok (a, b) =>
            candidates_of (search_design_patents srcs a b (api_keywords config))
        | Raise _ => []
        end
   else [])
  ++
  (if official_gazette (sources config)
   then candidates_of (scrape_current_week srcs)
   else []).

(** The idempotence claim with its parenthesis read literally: on the
    second scan every fetched candidate is already tracked, hence skipped
    by the existence check. *)
Definition rescan_skips_every_candidate : Prop :=
  forall config db srcs clk1 clk2 date_from date_to r1 db1 r2 db2,
    run_scan config db srcs clk1 (Some date_from) (Some date_to) = Ok (r1, db1) ->
    run_scan config db1 srcs clk2 (Some date_from) (Some date_to) = Ok (r2, db2) ->
    new_matches r2 = 0%Z /\
    get_patent_count db2 = get_patent_count db1 /\
    forall p, In p (fetched_candidates config srcs date_from date_to) ->
              patent_exists db1 (patent_number p) = true.

(** The run rows of a store are ISO texts of datetimes, as every row
    written by [log_search_run] is. *)
Definition runs_wf (db : Database) : Prop :=
  forall row, In row (search_runs db) ->
    exists t : datetime,
      valid_datetime t = true /\
      row !! "run_at" = Some (SqlText (datetime_isoformat t)).

(** The partial-failure claim read for every invocation with both sources
    enabled: the API fetch raises whatever window it is called with, the
    gazette returns, and the scan returns with one error and one more
    logged run per source. *)
Definition failure_isolated_in_every_scan : Prop :=
  forall config db srcs clk date_from date_to e ps,
    uspto_api (sources config) = true ->
    official_gazette (sources config) = true ->
    runs_wf db ->
    (forall a b kw, search_design_patents srcs a b kw = Raise e) ->
    scrape_current_week srcs = Ok ps ->
    exists res db',
      run_scan config db srcs clk date_from date_to = Ok (res, db') /\
      List.length (errors res) = 1%nat /\
      List.length (search_runs db') = (List.length (search_runs db) + 2)%nat.

End Statements.

(* ===================================================================== *)
(** * Predicates used in the further statements                           *)
(* ===================================================================== *)

Module Properties.
Import PyStr Calendar Models Config Matcher Db Service Analyzer AiService.
Local Open Scope Z_scope.

(** The dates on which [toordinal] is monotone: the month and the day are
    in range (the year is any integer). *)
Definition in_range (d : date) : Prop :=
  1 <= month d <= 12 /\ 1 <= day d <= days_in_month (year d) (month d).

(** The [relativedelta()] the constructor starts from. *)
Definition zero_delta : relativedelta := {| years := 0; months := 0; days := 0 |}.

(** The patent numbers of the stored rows, in table order. *)
Definition patent_numbers (db : Database) : list string :=
  map (fun row => text_of (row !! "patent_number")) (patents db).

(** Every stored row has a text in its [patent_number] column, and no two
    rows have the same. *)
Definition keyed (db : Database) : Prop :=
  NoDup (patent_numbers db) /\
  forall row, In row (patents db) ->
    exists pn, row !! "patent_number" = Some (SqlText pn).

(** What an [UPDATE patents SET col = v WHERE patent_number = pn] may
    change: the column [col] of the row of [pn], when there is one, and
    nothing else. *)
Definition updates_only (db db' : Database) (pn col : string) (v : SqlValue) : Prop :=
  get_patent_count db' = get_patent_count db /\
  search_runs db' = search_runs db /\
  notifications db' = notifications db /\
  (forall s, patent_exists db' s = patent_exists db s) /\
  get_patent_row db' pn = (<[col := v]> <$> get_patent_row db pn) /\
  (forall s, s <> pn -> get_patent_row db' s = get_patent_row db s) /\
  (patent_exists db pn = false -> db' = db).

(** The patent numbers of a list of alerts. *)
Definition alert_numbers (l : list Alert) : list string :=
  map (fun a => patent_number (alert_patent a)) l.

(** What a pass over candidates adds on the way from the store [db] to the
    store [db']: the alerts [new], one per patent added, each for a number
    that was not tracked and with the reasons of the matcher, and nothing
    else is added to the patents table. *)
Definition adds (criteria_list : list SearchCriteriaConfig) (db db' : Database)
    (new : list Alert) : Prop :=
  get_patent_count db' = get_patent_count db + Z.of_nat (List.length new) /\
  NoDup (alert_numbers new) /\
  (forall a, In a new ->
     patent_exists db (patent_number (alert_patent a)) = false /\
     matched_criteria a = match_ criteria_list (alert_patent a) /\
     matched_criteria a <> []) /\
  (forall s, patent_exists db' s = true <->
             patent_exists db s = true \/ In s (alert_numbers new)).

(** What processing the candidates [ps] of one source does on the way from
    the store [db] to the store [db']: it adds the alerts [new] in the
    sense of [adds], every alert is for one of the candidates, and every
    candidate that matches a rule is tracked afterwards. *)
Definition processed (criteria_list : list SearchCriteriaConfig) (ps : list Patent)
    (db db' : Database) (new : list Alert) : Prop :=
  adds criteria_list db db' new /\
  (forall a, In a new -> In (alert_patent a) ps) /\
  (forall p, In p ps -> match_ criteria_list p <> [] ->
             patent_exists db' (patent_number p) = true).

(** The outcomes of an attempt after which [_call_api] tries again: a
    rate-limit error, or a status error of 500 or above on an attempt
    before the last. *)
Definition retried (attempt : nat) (o : CreateOutcome) : bool :=
  match o with
  | Replied _ => false
  | Failed e =>
      match exn_class e with
      | RateLimitError => true
      | APIStatusError status_code =>
          (500 <=? status_code) && (attempt <? max_retries)%nat
      | _ => false
      end
  end.

(** The exception raised when the attempts are used up. *)
Definition retries_exhausted : Exn :=
  {| exn_class := RuntimeError;
     exn_str := "Anthropic API call failed after all retries" |}.

(** The values an [AnalysisResult] is documented to hold. *)
Definition sanitized (r : AnalysisResult) : Prop :=
  0 <= similarity_score r <= 100 /\
  In (risk_level r) ["high"; "medium"; "low"; "none"]%string /\
  In (recommendation r) ["flag"; "monitor"; "dismiss"]%string.

(** The outcomes of fetching a gazette URL after which [scrape_week] goes
    on to the next URL: a 404, another error status, or a
    [RequestException]. *)
Definition passed_over (o : GazetteScraper.PageOutcome) : bool :=
  match o with
  | GazetteScraper.Page status_code _ =>
      (status_code =? 404) || ((400 <=? status_code) && (status_code <? 600))
  | GazetteScraper.RequestFailed _ => true
  | GazetteScraper.OtherFailure _ => false
  end.

(** The responses of the patent API with status 429. *)
Definition rate_limited (o : UsptoClient.HttpOutcome) : bool :=
  match o with
  | UsptoClient.Response status_code _ _ => status_code =? 429
  | _ => false
  end.

(** Where an exception raised by [_request] on attempt [k] of
    [max_retries] comes from. *)
Definition raised_by (max_retries k : nat) (o : UsptoClient.HttpOutcome) (e : Exn)
  : Prop :=
  match o with
  | UsptoClient.Response status_code http_error json =>
      status_code <> 429 /\ status_code <> 404 /\
      if (400 <=? status_code) && (status_code <? 600)
      then e = http_error /\ (status_code < 500 \/ (max_retries <= k)%nat)
      else json = Raise e
  | UsptoClient.TimedOut e' => e = e' /\ k = max_retries
  | UsptoClient.OtherFailure e' => e = e'
  end.

(** The patents whose dates the store can write and read back: the dates
    are values of [date] and [datetime] objects. *)
Definition storable (p : Patent) : Prop :=
  valid_date (issue_date p) = true /\
  (forall d, filing_date p = Some d -> valid_date d = true) /\
  valid_datetime (first_seen p) = true.

Definition set_status (p : Patent) (s : string) : Patent :=
  {| patent_number := patent_number p; title := title p;
     issue_date := issue_date p; application_number := application_number p;
     filing_date := filing_date p; inventors := inventors p;
     assignee := assignee p; classification_us := classification_us p;
     classification_cpc := classification_cpc p;
     classification_locarno := classification_locarno p;
     image_url := image_url p; abstract := abstract p;
     status := s;
     first_seen := first_seen p; notified_at := notified_at p;
     notes := notes p |}.

Definition set_notified_at (p : Patent) (t : option datetime) : Patent :=
  {| patent_number := patent_number p; title := title p;
     issue_date := issue_date p; application_number := application_number p;
     filing_date := filing_date p; inventors := inventors p;
     assignee := assignee p; classification_us := classification_us p;
     classification_cpc := classification_cpc p;
     classification_locarno := classification_locarno p;
     image_url := image_url p; abstract := abstract p;
     status := status p;
     first_seen := first_seen p; notified_at := t;
     notes := notes p |}.

(** The status read back for a stored status: the empty text reads as
    "new". *)
Definition status_read_back (s : string) : string :=
  if is_empty s then "new"%string else s.

(** A patent as [get_patent] returns it after [insert_patent]: the insert
    does not write [notified_at]. *)
Definition as_stored (p : Patent) : Patent :=
  set_notified_at (set_status p (status_read_back (status p))) None.

(** The result of a batch that analyzed nothing and reported nothing. *)
Definition empty_batch (duration : Q) : AiAnalysisResult :=
  {| analyzed := []; skipped := 0; ai_errors := []; ai_duration_seconds := duration |}.

(** The batch passed its two guards: AI analysis is enabled and there is a
    product image to compare with. *)
Definition ready (env : AiEnvironment) : Prop :=
  ai_enabled env = true /\ product_images env <> [].

End Properties.

(* ===================================================================== *)
(** * Facts about the string methods and the class check                  *)
(* ===================================================================== *)

Section MatcherFacts.
Import PyStr Matcher.

Lemma startswith_empty (s : string) : startswith s EmptyString = true.
Proof. destruct s; reflexivity. Qed.

Lemma startswith_refl (s : string) : startswith s s = true.
Proof.
  unfold startswith. induction s as [|c s IH]; simpl; [reflexivity|].
  destruct (ascii_dec c c); [exact IH | congruence].
Qed.

Lemma split_nonempty (sep : ascii) (s : string) : split sep s <> [].
Proof.
  induction s as [|c s IH]; simpl; [discriminate|].
  destruct (Ascii.eqb c sep); [discriminate|].
  destruct (split sep s); discriminate.
Qed.

Lemma lstrip_all_space (s : string) :
  all_chars py_isspace s = true -> lstrip s = EmptyString.
Proof.
  induction s as [|c s IH]; simpl; [reflexivity|].
  intros H. apply andb_prop in H as [Hc Hs]. rewrite Hc. auto.
Qed.

Lemma strip_all_space (s : string) :
  all_chars py_isspace s = true -> strip s = EmptyString.
Proof. intros H. unfold strip. rewrite lstrip_all_space; auto. Qed.

Lemma normalize_all_space (s : string) :
  all_chars py_isspace s = true -> normalize s = EmptyString.
Proof. intros H. unfold normalize. rewrite strip_all_space; auto. Qed.

Lemma existsb_const_true {A} (l : list A) (f : A -> bool) :
  l <> [] -> (forall x, f x = true) -> existsb f l = true.
Proof.
  destruct l as [|a l]; [congruence|]. intros _ Hf. simpl. rewrite Hf. reflexivity.
Qed.

Lemma is_empty_false (s : string) : s <> EmptyString -> is_empty s = false.
Proof. destruct s; [congruence | reflexivity]. Qed.

Lemma upper_char_idempotent (c : ascii) : upper_char (upper_char c) = upper_char c.
Proof. destruct c as [[] [] [] [] [] [] [] []]; reflexivity. Qed.

Lemma upper_char_space (c : ascii) :
  Ascii.eqb (upper_char c) " " = Ascii.eqb c " ".
Proof. destruct c as [[] [] [] [] [] [] [] []]; reflexivity. Qed.

(** The normalized form contains no space. *)
Lemma normalize_no_space (x : string) :
  all_chars (fun c => negb (Ascii.eqb c " ")) (normalize x) = true.
Proof.
  unfold normalize. generalize (upper (strip x)). intros s.
  induction s as [|c s IH]; simpl; [reflexivity|].
  destruct (Ascii.eqb c " ") eqn:E; simpl; [exact IH|].
  rewrite E. simpl. exact IH.
Qed.

(** The normalized form is upper-cased. *)
Lemma normalize_upper (x : string) : upper (normalize x) = normalize x.
Proof.
  unfold normalize, upper. generalize (strip x). intros s.
  induction s as [|c s IH]; simpl; [reflexivity|].
  destruct (Ascii.eqb (upper_char c) " ") eqn:E; simpl; [exact IH|].
  rewrite upper_char_idempotent. f_equal. exact IH.
Qed.

(** The unfolding of the class check: both sides non-empty, and some
    semicolon-delimited value whose normal form starts with the normal form
    of the prefix. *)
Lemma class_matches_unfold (c t : string) :
  _class_matches c t =
  negb (is_empty c) && negb (is_empty t) &&
  existsb (fun v => startswith (normalize v) (normalize t)) (split ";" c).
Proof.
  unfold _class_matches.
  destruct (is_empty c); simpl; [reflexivity|].
  destruct (is_empty t); simpl; [reflexivity|].
  induction (split ";" c) as [|v vs IH]; simpl; [reflexivity|].
  rewrite IH. reflexivity.
Qed.

Lemma class_matches_value (c t : string) :
  t <> EmptyString -> In t (split ";" c) -> _class_matches c t = true.
Proof.
  intros Ht Hin. rewrite class_matches_unfold.
  assert (Hc : is_empty c = false).
  { destruct c; [|reflexivity]. simpl in Hin. destruct Hin as [E|[]]. congruence. }
  rewrite Hc, (is_empty_false t Ht). simpl.
  apply existsb_exists. exists t. split; [exact Hin | apply startswith_refl].
Qed.

(** ** The normal form, character by character *)

Lemma replace_space_cons (c : ascii) (s : string) :
  replace_char " " EmptyString (String c s) =
  if Ascii.eqb c " " then replace_char " " EmptyString s
  else String c (replace_char " " EmptyString s).
Proof. cbn [replace_char]. destruct (Ascii.eqb c " "); reflexivity. Qed.

Lemma space_is_whitespace (c : ascii) : Ascii.eqb c " " = true -> py_isspace c = true.
Proof. intros H. apply Ascii.eqb_eq in H. subst c. reflexivity. Qed.

Lemma whitespace_upper_char (c : ascii) : py_isspace (upper_char c) = py_isspace c.
Proof. destruct c as [[] [] [] [] [] [] [] []]; reflexivity. Qed.

Lemma upper_char_not_lower (c : ascii) :
  Statements.is_lower_letter (upper_char c) = false.
Proof. destruct c as [[] [] [] [] [] [] [] []]; reflexivity. Qed.

Lemma upper_char_fixed (c : ascii) :
  Statements.is_lower_letter c = false -> upper_char c = c.
Proof. destruct c as [[] [] [] [] [] [] [] []]; (reflexivity || discriminate). Qed.

Lemma replace_space_upper (s : string) :
  replace_char " " EmptyString (upper s) = upper (replace_char " " EmptyString s).
Proof.
  unfold upper. induction s as [|c s IH]; [reflexivity|].
  cbn [map_chars]. rewrite !replace_space_cons, upper_char_space.
  destruct (Ascii.eqb c " "); [exact IH|]. cbn [map_chars]. now rewrite IH.
Qed.

Lemma all_chars_replace_space (P : ascii -> bool) (s : string) :
  all_chars P s = true -> all_chars P (replace_char " " EmptyString s) = true.
Proof.
  induction s as [|c s IH]; [reflexivity|].
  cbn [all_chars]. intros H. apply andb_prop in H as [Hc Hs].
  rewrite replace_space_cons. destruct (Ascii.eqb c " "); [auto|].
  cbn [all_chars]. now rewrite Hc, IH.
Qed.

(** The normalized form has no lower-case letter. *)
Lemma normalize_no_lower (x : string) :
  all_chars (fun c => negb (Statements.is_lower_letter c)) (normalize x) = true.
Proof.
  unfold normalize. apply all_chars_replace_space. unfold upper.
  induction (strip x) as [|c s IH]; [reflexivity|].
  cbn [map_chars all_chars]. now rewrite upper_char_not_lower, IH.
Qed.

Lemma first_char_lstrip (s : string) (c : ascii) :
  Statements.first_char (lstrip s) = Some c -> py_isspace c = false.
Proof.
  induction s as [|d s IH]; [discriminate|]. cbn [lstrip].
  destruct (py_isspace d) eqn:E; [exact IH|].
  cbn [Statements.first_char]. intros H. inversion H; subst. exact E.
Qed.

Lemma first_char_rstrip (s : string) (c : ascii) :
  Statements.first_char (rstrip s) = Some c -> Statements.first_char s = Some c.
Proof.
  destruct s as [|d s]; [discriminate|]. cbn [rstrip].
  destruct (py_isspace d && is_empty (rstrip s)); [discriminate|]. auto.
Qed.

Lemma last_char_cons (d : ascii) (s : string) :
  Statements.last_char (String d s) =
  match Statements.last_char s with Some c => Some c | None => Some d end.
Proof. destruct s as [|e s]; [reflexivity|]. cbn [Statements.last_char].
  destruct s as [|f s]; [reflexivity|].
  destruct (Statements.last_char (String f s)) eqn:E; [reflexivity|].
  exfalso. revert E. clear. revert f. induction s as [|g s IH]; intros f; [discriminate|].
  cbn [Statements.last_char]. apply IH.
Qed.

Lemma last_char_none (s : string) : Statements.last_char s = None -> s = EmptyString.
Proof.
  destruct s as [|d s]; [reflexivity|]. rewrite last_char_cons.
  destruct (Statements.last_char s); discriminate.
Qed.

Lemma last_char_rstrip (s : string) (c : ascii) :
  Statements.last_char (rstrip s) = Some c -> py_isspace c = false.
Proof.
  induction s as [|d s IH]; [discriminate|]. cbn [rstrip].
  destruct (py_isspace d && is_empty (rstrip s)) eqn:E; [discriminate|].
  rewrite last_char_cons.
  destruct (Statements.last_char (rstrip s)) as [c'|] eqn:L.
  - intros H. inversion H; subst. apply IH. reflexivity.
  - apply last_char_none in L. rewrite L in E. cbn [is_empty] in E.
    rewrite andb_true_r in E. intros H. inversion H; subst. exact E.
Qed.

Lemma first_char_upper (s : string) :
  Statements.first_char (upper s) = option_map upper_char (Statements.first_char s).
Proof. destruct s; reflexivity. Qed.

Lemma last_char_upper (s : string) :
  Statements.last_char (upper s) = option_map upper_char (Statements.last_char s).
Proof.
  unfold upper. induction s as [|d s IH]; [reflexivity|].
  cbn [map_chars]. rewrite !last_char_cons, IH.
  destruct (Statements.last_char s); reflexivity.
Qed.

Lemma first_char_replace_space (s : string) (c : ascii) :
  (forall d, Statements.first_char s = Some d -> py_isspace d = false) ->
  Statements.first_char (replace_char " " EmptyString s) = Some c ->
  Statements.first_char s = Some c.
Proof.
  destruct s as [|d s]; [discriminate|]. intros H. rewrite replace_space_cons.
  destruct (Ascii.eqb d " ") eqn:E; [|auto].
  apply space_is_whitespace in E. rewrite (H d eq_refl) in E. discriminate.
Qed.

Lemma last_char_replace_space (s : string) (c : ascii) :
  Statements.last_char (replace_char " " EmptyString s) = Some c ->
  (forall d, Statements.last_char s = Some d -> py_isspace d = false) ->
  Statements.last_char s = Some c.
Proof.
  induction s as [|d s IH]; [discriminate|]. rewrite replace_space_cons, last_char_cons.
  destruct (Statements.last_char s) as [l|] eqn:L.
  - intros H Hl.
    assert (Hs : Statements.last_char (replace_char " " EmptyString s) = Some c).
    { destruct (Ascii.eqb d " "); [exact H|].
      rewrite last_char_cons in H.
      destruct (Statements.last_char (replace_char " " EmptyString s)) as [l'|] eqn:L';
        [exact H|].
      exfalso. apply last_char_none in L'.
      assert (Hsp : forall t l0, Statements.last_char t = Some l0 ->
                replace_char " " EmptyString t = EmptyString -> Ascii.eqb l0 " " = true).
      { clear. induction t as [|e t IHt]; [discriminate|]. intros l0.
        rewrite last_char_cons, replace_space_cons.
        destruct (Ascii.eqb e " ") eqn:Ee; [|discriminate].
        destruct (Statements.last_char t) as [l1|] eqn:Lt.
        - intros H1 H2. inversion H1; subst. apply (IHt l0 eq_refl H2).
        - intros H1 _. inversion H1; subst. exact Ee. }
      pose proof (Hsp s l L L') as Hsl.
      apply space_is_whitespace in Hsl. rewrite (Hl l eq_refl) in Hsl. discriminate. }
    apply (IH Hs). exact Hl.
  - apply last_char_none in L. subst s. cbn [replace_char]. intros H Hl.
    destruct (Ascii.eqb d " ") eqn:E; [discriminate|]. exact H.
Qed.

(** The normalized form has no whitespace at either end. *)
Lemma normalize_edges (x : string) (c : ascii) :
  Statements.first_char (normalize x) = Some c \/
  Statements.last_char (normalize x) = Some c ->
  py_isspace c = false.
Proof.
  unfold normalize, strip.
  assert (Hf : forall d, Statements.first_char (upper (rstrip (lstrip x))) = Some d ->
                         py_isspace d = false).
  { intros d. rewrite first_char_upper.
    destruct (Statements.first_char (rstrip (lstrip x))) as [e|] eqn:E; [|discriminate].
    cbn [option_map]. intros H. inversion H; subst.
    rewrite whitespace_upper_char.
    apply first_char_rstrip in E. apply (first_char_lstrip _ _ E). }
  assert (Hl : forall d, Statements.last_char (upper (rstrip (lstrip x))) = Some d ->
                         py_isspace d = false).
  { intros d. rewrite last_char_upper.
    destruct (Statements.last_char (rstrip (lstrip x))) as [e|] eqn:E; [|discriminate].
    cbn [option_map]. intros H. inversion H; subst.
    rewrite whitespace_upper_char. apply (last_char_rstrip _ _ E). }
  intros [H|H].
  - apply Hf. apply first_char_replace_space; assumption.
  - apply Hl. apply last_char_replace_space; assumption.
Qed.

(** ** The normal form in the words of the steps *)

Lemma upper_char_to_upper (c : ascii) : upper_char c = Statements.to_upper c.
Proof. destruct c as [[] [] [] [] [] [] [] []]; reflexivity. Qed.

Lemma upper_upper_case (s : string) : upper s = Statements.upper_case s.
Proof.
  unfold upper. induction s as [|c s IH]; [reflexivity|].
  cbn [map_chars Statements.upper_case]. now rewrite upper_char_to_upper, IH.
Qed.

Lemma replace_space_remove_spaces (s : string) :
  replace_char " " EmptyString s = Statements.remove_spaces s.
Proof.
  induction s as [|c s IH]; [reflexivity|].
  rewrite replace_space_cons. cbn [Statements.remove_spaces]. now rewrite IH.
Qed.

Lemma lstrip_splits (s : string) :
  exists l, s = (l +:+ lstrip s)%string /\ all_chars py_isspace l = true.
Proof.
  induction s as [|c s IH]; [exists EmptyString; split; reflexivity|].
  cbn [lstrip]. destruct (py_isspace c) eqn:E.
  - destruct IH as (l & Hl & Hw). exists (String c l). split.
    + change (String c l +:+ lstrip s)%string with (String c (l +:+ lstrip s)).
      now rewrite <- Hl.
    + cbn [all_chars]. now rewrite E, Hw.
  - exists EmptyString. split; reflexivity.
Qed.

Lemma rstrip_splits (s : string) :
  exists r, s = (rstrip s +:+ r)%string /\ all_chars py_isspace r = true.
Proof.
  induction s as [|c s IH]; [exists EmptyString; split; reflexivity|].
  destruct IH as (r & Hr & Hw). cbn [rstrip].
  destruct (py_isspace c) eqn:E; cbn [andb].
  - destruct (rstrip s) as [|d t] eqn:R; cbn [is_empty].
    + exists (String c s). split; [reflexivity|].
      cbn [all_chars]. rewrite E. rewrite Hr. exact Hw.
    + exists r. split; [|exact Hw].
      change (String c (String d t) +:+ r)%string with (String c (String d t +:+ r)).
      now rewrite <- Hr.
  - exists r. split; [|exact Hw].
    change (String c (rstrip s) +:+ r)%string with (String c (rstrip s +:+ r)).
    now rewrite <- Hr.
Qed.

(** The three steps of the normalization: the value without the
    whitespace around it, upper-cased, without its spaces. *)
Lemma normalize_steps (x : string) :
  exists l m r,
    x = (l +:+ m +:+ r)%string /\
    all_chars py_isspace l = true /\
    all_chars py_isspace r = true /\
    (forall ch, Statements.first_char m = Some ch \/ Statements.last_char m = Some ch ->
                py_isspace ch = false) /\
    normalize x = Statements.remove_spaces (Statements.upper_case m).
Proof.
  destruct (lstrip_splits x) as (l & Hl & Hlw).
  destruct (rstrip_splits (lstrip x)) as (r & Hr & Hrw).
  exists l, (strip x), r. unfold strip at 1.
  split; [rewrite <- Hr; exact Hl|]. split; [exact Hlw|]. split; [exact Hrw|].
  split.
  - unfold strip. intros ch [H|H].
    + apply first_char_rstrip in H. apply (first_char_lstrip _ _ H).
    + apply (last_char_rstrip _ _ H).
  - unfold normalize. now rewrite replace_space_remove_spaces, upper_upper_case.
Qed.

(** ** Agreement with the wording of the specification *)

Lemma only_spaces_cons (c : ascii) (s : string) :
  Statements.only_spaces (String c s) = true ->
  py_isspace c = Ascii.eqb c " " /\ Statements.only_spaces s = true.
Proof.
  unfold Statements.only_spaces. cbn [all_chars]. intros H.
  apply andb_prop in H as [Hc Hs]. split; [|exact Hs].
  destruct (Ascii.eqb c " ") eqn:E; [now apply space_is_whitespace|].
  rewrite orb_false_r in Hc. now apply negb_true_iff in Hc.
Qed.

Lemma remove_whitespace_only_spaces (s : string) :
  Statements.only_spaces s = true ->
  Statements.remove_whitespace s = replace_char " " EmptyString s.
Proof.
  induction s as [|c s IH]; [reflexivity|]. intros H.
  apply only_spaces_cons in H as [Hc Hs].
  cbn [Statements.remove_whitespace]. rewrite replace_space_cons, Hc.
  destruct (Ascii.eqb c " "); now rewrite IH.
Qed.

Lemma only_spaces_lstrip (s : string) :
  Statements.only_spaces s = true ->
  Statements.only_spaces (lstrip s) = true /\
  replace_char " " EmptyString (lstrip s) = replace_char " " EmptyString s.
Proof.
  induction s as [|c s IH]; [auto|]. intros H.
  pose proof (only_spaces_cons _ _ H) as [Hc Hs]. cbn [lstrip].
  destruct (py_isspace c) eqn:E; [|auto].
  rewrite replace_space_cons, <- Hc. apply IH, Hs.
Qed.

Lemma replace_space_rstrip (s : string) :
  Statements.only_spaces s = true ->
  replace_char " " EmptyString (rstrip s) = replace_char " " EmptyString s.
Proof.
  induction s as [|c s IH]; [reflexivity|]. intros H.
  apply only_spaces_cons in H as [Hc Hs]. specialize (IH Hs). cbn [rstrip].
  rewrite replace_space_cons, <- Hc.
  destruct (py_isspace c) eqn:E; cbn [andb].
  - destruct (rstrip s) as [|d r] eqn:R; cbn [is_empty].
    + rewrite <- IH. reflexivity.
    + rewrite replace_space_cons, <- Hc. exact IH.
  - rewrite replace_space_cons, <- Hc. now rewrite IH.
Qed.

Lemma normalize_only_spaces (x : string) :
  Statements.only_spaces x = true -> normalize x = Statements.spec_normalize x.
Proof.
  intros H. unfold normalize, Statements.spec_normalize, strip.
  destruct (only_spaces_lstrip x H) as [Hl El].
  rewrite replace_space_upper, (replace_space_rstrip _ Hl), El.
  now rewrite remove_whitespace_only_spaces, upper_upper_case.
Qed.

Lemma split_all_chars (P : ascii -> bool) (sep : ascii) (s : string) (v : string) :
  all_chars P s = true -> In v (split sep s) -> all_chars P v = true.
Proof.
  revert v. induction s as [|c s IH]; intros v.
  - intros _ [<-|[]]. reflexivity.
  - cbn [all_chars split]. intros H. apply andb_prop in H as [Hc Hs].
    destruct (Ascii.eqb c sep).
    + intros [<-|Hv]; [reflexivity | now apply IH].
    + destruct (split sep s) as [|y ys] eqn:E.
      * intros [<-|[]]. cbn [all_chars]. now rewrite Hc.
      * intros [<-|Hv].
        -- cbn [all_chars]. rewrite Hc. apply IH; [exact Hs | now left].
        -- apply IH; [exact Hs | now right].
Qed.

Lemma existsb_ext_in {A} (f g : A -> bool) (l : list A) :
  (forall x, In x l -> f x = g x) -> existsb f l = existsb g l.
Proof.
  induction l as [|a l IH]; [reflexivity|]. intros H. cbn [existsb].
  rewrite (H a (or_introl eq_refl)), IH; [reflexivity|].
  intros x Hx. apply H. now right.
Qed.

(** On texts whose whitespace is spaces only, the class check is the check
    of the specification. *)
Lemma class_matches_only_spaces (c t : string) :
  Statements.only_spaces c = true -> Statements.only_spaces t = true ->
  _class_matches c t = Statements.spec_class_matches c t.
Proof.
  intros Hc Ht. rewrite class_matches_unfold. unfold Statements.spec_class_matches.
  f_equal. rewrite (normalize_only_spaces t Ht).
  apply existsb_ext_in. intros v Hv.
  rewrite normalize_only_spaces; [reflexivity|].
  apply (split_all_chars _ ";" c v Hc Hv).
Qed.

(** A text without whitespace and without lower-case letters is its own
    normal form. *)
Lemma normalize_clean (x : string) :
  all_chars (fun ch => negb (py_isspace ch) && negb (Statements.is_lower_letter ch)) x
    = true ->
  normalize x = x.
Proof.
  intros H.
  assert (Ho : Statements.only_spaces x = true).
  { unfold Statements.only_spaces. induction x as [|c x IH]; [reflexivity|].
    cbn [all_chars] in *. apply andb_prop in H as [Hc Hx].
    apply andb_prop in Hc as [Hc _]. rewrite Hc. cbn [orb andb]. now apply IH. }
  rewrite (normalize_only_spaces x Ho). unfold Statements.spec_normalize.
  induction x as [|c x IH]; [reflexivity|].
  cbn [all_chars] in H. apply andb_prop in H as [Hc Hx].
  apply andb_prop in Hc as [Hw Hl].
  apply only_spaces_cons in Ho as [_ Ho].
  cbn [Statements.remove_whitespace]. apply negb_true_iff in Hw. rewrite Hw.
  cbn [Statements.upper_case]. apply negb_true_iff in Hl.
  rewrite <- upper_char_to_upper, (upper_char_fixed c Hl).
  now rewrite IH.
Qed.

End MatcherFacts.

(** C4 as stated fails where it says that the normalization removes
    whitespace: the code strips whitespace at the two ends of a value and
    then removes the space characters only, so a tab inside a value stays.
    For the classification "D16<TAB>/300" and the prefix "D16/3" the check
    of the code answers False, the check over the normalization of the
    claim answers True. *)
Lemma class_check_keeps_inner_tab : ~ Statements.class_check_removes_whitespace.
Proof.
  intros H. specialize (H Samples.class_with_tab "D16/3"%string).
  vm_compute in H. discriminate H.
Qed.

(** C4, amended.  The class check normalizes the configured prefix and
    every semicolon-delimited value of the classification and tests
    [startswith].  The normal form of a value is the value without the
    whitespace around it, upper-cased, without its space characters; so it
    has no whitespace at either end, no space character and no lower-case
    letter, and a text that is free of whitespace and lower-case letters is
    its own normal form; whitespace other than spaces inside a value is
    kept.  On texts whose whitespace is spaces only the check is the one
    over upper-casing and removing whitespace.  "D16/300" matches the prefixes "D16/300", "D16/3" and
    "D16" but not "D26"; "G02C 1/00; G02C 5/00" matches "G02C 5"; case and
    whitespace around a value make no difference; an empty classification
    matches no prefix, the empty prefix included, and an empty prefix
    matches nothing; a prefix equal to one of the values matches. *)
Theorem class_matches_prefix_semantics :
  (forall c t : string,
      Matcher._class_matches c t =
      negb (PyStr.is_empty c) && negb (PyStr.is_empty t) &&
      existsb (fun v => PyStr.startswith (Matcher.normalize v) (Matcher.normalize t))
              (PyStr.split ";" c))
  /\ (forall x : string,
         exists l m r,
           x = (l +:+ m +:+ r)%string /\
           PyStr.all_chars PyStr.py_isspace l = true /\
           PyStr.all_chars PyStr.py_isspace r = true /\
           (forall ch, Statements.first_char m = Some ch \/
                       Statements.last_char m = Some ch ->
                       PyStr.py_isspace ch = false) /\
           Matcher.normalize x = Statements.remove_spaces (Statements.upper_case m))
  /\ (forall x : string,
         PyStr.all_chars (fun ch => negb (Ascii.eqb ch " ")) (Matcher.normalize x) = true /\
         PyStr.all_chars (fun ch => negb (Statements.is_lower_letter ch))
                         (Matcher.normalize x) = true /\
         (forall ch, Statements.first_char (Matcher.normalize x) = Some ch \/
                     Statements.last_char (Matcher.normalize x) = Some ch ->
                     PyStr.py_isspace ch = false))
  /\ (forall x : string,
         PyStr.all_chars (fun ch => negb (PyStr.py_isspace ch)
                                    && negb (Statements.is_lower_letter ch)) x = true ->
         Matcher.normalize x = x)
  /\ (forall c t : string,
         Statements.only_spaces c = true -> Statements.only_spaces t = true ->
         Matcher._class_matches c t = Statements.spec_class_matches c t)
  /\ (Matcher.normalize Samples.class_with_tab = Samples.class_with_tab /\
      Matcher._class_matches Samples.class_with_tab "D16/3" = false /\
      Matcher._class_matches Samples.class_with_tab "D16" = true)
  /\ Matcher._class_matches "D16/300" "D16/300" = true
  /\ Matcher._class_matches "D16/300" "D16/3" = true
  /\ Matcher._class_matches "D16/300" "D16" = true
  /\ Matcher._class_matches "D16/300" "D26" = false
  /\ Matcher._class_matches "G02C 1/00; G02C 5/00" "G02C 5" = true
  /\ (Matcher._class_matches "d16/300" "D16/3" = true /\
      Matcher._class_matches "D16/300" "d16/3" = true /\
      Matcher._class_matches Samples.class_in_whitespace "D16/3" = true /\
      Matcher._class_matches "D16/300" Samples.prefix_in_whitespace = true /\
      Matcher.normalize " g02c 5/00 " = "G02C5/00"%string)
  /\ (forall t : string, Matcher._class_matches EmptyString t = false)
  /\ (forall c : string, Matcher._class_matches c EmptyString = false)
  /\ (forall c t : string,
         t <> EmptyString -> In t (PyStr.split ";" c) ->
         Matcher._class_matches c t = true).
Proof.
  split; [exact class_matches_unfold|].
  split; [exact normalize_steps|].
  split; [intros x; split; [apply normalize_no_space|];
          split; [apply normalize_no_lower | apply normalize_edges]|].
  split; [exact normalize_clean|].
  split; [exact class_matches_only_spaces|].
  split; [repeat split; vm_compute; reflexivity|].
  do 5 (split; [reflexivity|]).
  split; [repeat split; vm_compute; reflexivity|].
  split; [intros t; reflexivity|].
  split; [|exact class_matches_value].
  intros c. unfold Matcher._class_matches. destruct (PyStr.is_empty c); reflexivity.
Qed.

Lemma class_matches_prefix_semantics_witness :
  ("D16/300"%string <> EmptyString /\
   In "D16/300"%string (PyStr.split ";" "D16/300") /\
   Matcher._class_matches "D16/300" "D16/300" = true) /\
  (Statements.only_spaces "G02C 1/00; G02C 5/00" = true /\
   Statements.only_spaces "g02c 5" = true /\
   Matcher._class_matches "G02C 1/00; G02C 5/00" "g02c 5"
   = Statements.spec_class_matches "G02C 1/00; G02C 5/00" "g02c 5").
Proof.
  assert (H1 : "D16/300"%string <> EmptyString) by discriminate.
  assert (H2 : In "D16/300"%string (PyStr.split ";" "D16/300")) by (simpl; auto).
  assert (H3 : Statements.only_spaces "G02C 1/00; G02C 5/00" = true) by reflexivity.
  assert (H4 : Statements.only_spaces "g02c 5" = true) by reflexivity.
  destruct class_matches_prefix_semantics
    as (_ & _ & _ & _ & Hs & _ & _ & _ & _ & _ & _ & _ & _ & _ & H).
  split; [split; [exact H1|]; split; [exact H2 | exact (H _ _ H1 H2)]|].
  split; [exact H3|]. split; [exact H4 | exact (Hs _ _ H3 H4)].
Defined.

(** C10.  A configured prefix that is a non-empty string made only of
    whitespace normalizes to the empty string, and the class check then
    returns True for every patent whose classification is non-empty: the
    emptiness guard looks at the prefix before normalization. *)
Theorem whitespace_prefix_matches_every_class (c t : string) :
  t <> EmptyString ->
  PyStr.all_chars PyStr.py_isspace t = true ->
  c <> EmptyString ->
  Matcher.normalize t = EmptyString /\ Matcher._class_matches c t = true.
Proof.
  intros Ht Hsp Hc.
  pose proof (normalize_all_space t Hsp) as Hn.
  split; [exact Hn|].
  unfold Matcher._class_matches.
  rewrite (is_empty_false c Hc), (is_empty_false t Ht). simpl.
  rewrite Hn. apply existsb_const_true.
  - intros E. apply map_eq_nil in E. exact (split_nonempty _ _ E).
  - intros x. apply startswith_empty.
Qed.

Lemma whitespace_prefix_matches_every_class_witness :
  Matcher.normalize " " = EmptyString /\ Matcher._class_matches "D99/999" " " = true.
Proof.
  apply (whitespace_prefix_matches_every_class "D99/999" " ");
    [discriminate | reflexivity | discriminate].
Defined.

(* ===================================================================== *)
(** * Facts about dates and the PGR deadline                              *)
(* ===================================================================== *)

Section CalendarFacts.
Import Calendar Models.
Local Open Scope Z_scope.

Ltac unbool :=
  repeat match goal with
  | H : (_ && _)%bool = true |- _ => apply andb_prop in H; destruct H
  | H : (_ <=? _) = true |- _ => apply Z.leb_le in H
  | H : (_ <? _) = true |- _ => apply Z.ltb_lt in H
  | H : (_ =? _) = true |- _ => apply Z.eqb_eq in H
  | H : (_ <=? _) = false |- _ => apply Z.leb_gt in H
  | H : (_ <? _) = false |- _ => apply Z.ltb_ge in H
  | H : (_ =? _) = false |- _ => apply Z.eqb_neq in H
  end.

Lemma valid_date_bounds (d : date) :
  valid_date d = true ->
  1 <= year d <= 9999 /\ 1 <= month d <= 12 /\
  1 <= day d <= days_in_month (year d) (month d).
Proof. unfold valid_date. intros H. unbool. lia. Qed.

Lemma days_in_month_bounds (y m : Z) : 28 <= days_in_month y m <= 31.
Proof.
  unfold days_in_month.
  repeat match goal with |- context [if ?b then _ else _] => destruct b end; lia.
Qed.

Lemma set_months_zero :
  _set_months {| years := 0; months := 0; days := 0 |} 0 =
  {| years := 0; months := 0; days := 0 |}.
Proof. reflexivity. Qed.

Lemma date_add_zero (d : date) :
  valid_date d = true -> date_add d {| years := 0; months := 0; days := 0 |} = d.
Proof.
  intros H. apply valid_date_bounds in H. unfold date_add. simpl.
  rewrite Z.add_0_r, Z.min_r by lia. destruct d; reflexivity.
Qed.

Lemma date_ltb_asym (a b : date) : date_ltb a b = true -> date_ltb b a = false.
Proof.
  unfold date_ltb. intros H.
  destruct (year b <? year a) eqn:E1, (year b =? year a) eqn:E2,
           (month b <? month a) eqn:E3, (month b =? month a) eqn:E4,
           (day b <? day a) eqn:E5; simpl; try reflexivity; exfalso;
  destruct (year a <? year b) eqn:F1, (year a =? year b) eqn:F2,
           (month a <? month b) eqn:F3, (month a =? month b) eqn:F4,
           (day a <? day b) eqn:F5; simpl in H; try discriminate; unbool; lia.
Qed.

Lemma adjust_months_eq fuel dt1 dt2 compare increment m :
  adjust_months fuel dt1 dt2 compare increment m =
  if compare dt1 (date_add dt2 (_set_months {| years := 0; months := 0; days := 0 |} m))
  then match fuel with
       | O => None
       | S fuel' => adjust_months fuel' dt1 dt2 compare increment (m + increment)
       end
  else Some m.
Proof. destruct fuel; reflexivity. Qed.

(** The correction loop stops at the latest when the month count reaches
    zero: counting down ... *)
Lemma adjust_months_down (dt1 dt2 : date) :
  valid_date dt2 = true -> date_ltb dt1 dt2 = false ->
  forall fuel m, 0 <= m -> (Z.to_nat m <= fuel)%nat ->
  exists k, adjust_months fuel dt1 dt2 date_ltb (-1) m = Some k.
Proof.
  intros Hv Hlt. induction fuel as [|fuel IH]; intros m Hm Hf;
    rewrite adjust_months_eq.
  - assert (m = 0) by lia. subst m.
    rewrite set_months_zero, date_add_zero, Hlt by exact Hv. eauto.
  - destruct (Z.eq_dec m 0) as [->|Hne].
    + rewrite set_months_zero, date_add_zero, Hlt by exact Hv. eauto.
    + match goal with |- context [if ?b then _ else _] => destruct b end;
        [apply IH; lia | eauto].
Qed.

(** ... and counting up. *)
Lemma adjust_months_up (dt1 dt2 : date) :
  valid_date dt2 = true -> date_ltb dt1 dt2 = true ->
  forall fuel m, m <= 0 -> (Z.to_nat (- m) <= fuel)%nat ->
  exists k, adjust_months fuel dt1 dt2 date_gtb 1 m = Some k.
Proof.
  intros Hv Hlt. pose proof (date_ltb_asym _ _ Hlt) as Hgt.
  induction fuel as [|fuel IH]; intros m Hm Hf; rewrite adjust_months_eq.
  - assert (m = 0) by lia. subst m.
    rewrite set_months_zero, date_add_zero by exact Hv.
    unfold date_gtb. rewrite Hgt. eauto.
  - destruct (Z.eq_dec m 0) as [->|Hne].
    + rewrite set_months_zero, date_add_zero by exact Hv.
      unfold date_gtb. rewrite Hgt. eauto.
    + match goal with |- context [if ?b then _ else _] => destruct b end;
        [apply IH; lia | eauto].
Qed.

(** [relativedelta(dt1, dt2)] returns for every pair of dates: the fuel of
    the model is always enough. *)
Lemma relativedelta_between_total (dt1 dt2 : date) :
  1 <= month dt1 <= 12 -> valid_date dt2 = true ->
  exists rd, relativedelta_between dt1 dt2 = Some rd.
Proof.
  intros B1 H2. unfold relativedelta_between.
  pose proof (valid_date_bounds _ H2) as B2.
  set (m0 := (year dt1 - year dt2) * 12 + (month dt1 - month dt2)).
  destruct (date_ltb dt1 dt2) eqn:E.
  - assert (Hm : m0 <= 0).
    { unfold date_ltb in E. subst m0.
      destruct (year dt1 <? year dt2) eqn:F1; [unbool; lia|].
      destruct (year dt1 =? year dt2) eqn:F2; [|discriminate].
      destruct (month dt1 <? month dt2) eqn:F3; [unbool; lia|].
      destruct (month dt1 =? month dt2) eqn:F4; [|discriminate].
      unbool; lia. }
    destruct (adjust_months_up dt1 dt2 H2 E (S (Z.to_nat (Z.abs m0))) m0 Hm) as [k Hk];
      [lia|]. rewrite Hk. eauto.
  - assert (Hm : 0 <= m0).
    { unfold date_ltb in E. subst m0.
      destruct (year dt1 <? year dt2) eqn:F1; [discriminate|].
      destruct (year dt1 =? year dt2) eqn:F2; [|unbool; lia].
      destruct (month dt1 <? month dt2) eqn:F3; [discriminate|].
      unbool; lia. }
    destruct (adjust_months_down dt1 dt2 H2 E (S (Z.to_nat (Z.abs m0))) m0 Hm) as [k Hk];
      [lia|]. rewrite Hk. eauto.
Qed.

(** The shift by nine months: the month count advances by exactly nine and
    the day is the issue day clamped to the length of the target month. *)
Lemma add_nine_months (d : date) :
  1 <= month d <= 12 -> 1 <= day d ->
  let r := date_add d (relativedelta_months 9) in
  year r * 12 + month r = year d * 12 + month d + 9 /\
  1 <= month r <= 12 /\
  day r = Z.min (day d) (days_in_month (year r) (month r)) /\
  1 <= day r <= days_in_month (year r) (month r).
Proof.
  intros Hm Hd. unfold date_add, relativedelta_months. simpl.
  pose proof (days_in_month_bounds (year d + 0 + 1) (month d + 9 - 12)) as B1.
  pose proof (days_in_month_bounds (year d + 0) (month d + 9)) as B2.
  destruct (12 <? month d + 9) eqn:E; simpl.
  - unbool. repeat split; lia.
  - destruct (month d + 9 <? 1) eqn:E2; simpl; unbool; repeat split; lia.
Qed.

(** [pgr_months_remaining] returns a value for every issue date and every
    today. *)
Lemma pgr_months_remaining_total (p : Patent) (today : date) :
  valid_date (issue_date p) = true -> valid_date today = true ->
  exists q, pgr_months_remaining p today = Some q.
Proof.
  intros Hi Ht. apply valid_date_bounds in Hi.
  destruct (add_nine_months (issue_date p)) as (_ & B & _); [lia | lia |].
  destruct (relativedelta_between_total (pgr_deadline p) today B Ht) as [rd Hrd].
  unfold pgr_months_remaining. rewrite Hrd. eauto.
Qed.

(** The value differs from the month distance of the specification by the
    whole years of the difference, which the code does not read. *)
Lemma pgr_months_remaining_ignores_years (p : Patent) (today : date) delta :
  relativedelta_between (pgr_deadline p) today = Some delta ->
  exists q s,
    pgr_months_remaining p today = Some q /\
    spec_months_remaining p today = Some s /\
    (s == q + inject_Z (12 * years delta))%Q.
Proof.
  intros H. unfold pgr_months_remaining, spec_months_remaining. rewrite H.
  eexists. eexists. split; [reflexivity|]. split; [reflexivity|].
  rewrite inject_Z_plus. ring.
Qed.

(** The buckets of [urgency]. *)
Lemma urgency_of_buckets (q : Q) :
  ((q <= 0)%Q -> urgency_of q = "expired"%string) /\
  ((0 < q)%Q -> (q < 3)%Q -> urgency_of q = "high"%string) /\
  ((3 <= q)%Q -> (q < 6)%Q -> urgency_of q = "medium"%string) /\
  ((6 <= q)%Q -> urgency_of q = "low"%string).
Proof.
  unfold urgency_of.
  destruct (Qle_bool q 0) eqn:E0; destruct (Qle_bool 3 q) eqn:E3;
    destruct (Qle_bool 6 q) eqn:E6; simpl;
    repeat match goal with
    | H : Qle_bool _ _ = true |- _ => apply Qle_bool_iff in H
    | H : Qle_bool _ _ = false |- _ =>
        apply not_true_iff_false in H; rewrite Qle_bool_iff in H
    end;
    repeat split; intros; try reflexivity; exfalso; lra.
Qed.

(** The examples of the specification for the deadline 2026-10-15. *)
Example urgency_examples :
  let p := Samples.make_patent "D1012345" "Eyeglasses Frame"
                               (Samples.mkdate 2026 1 15) EmptyString in
  urgency p (Samples.mkdate 2026 8 15) = Some "high"%string /\
  urgency p (Samples.mkdate 2026 6 15) = Some "medium"%string /\
  urgency p (Samples.mkdate 2026 2 15) = Some "low"%string /\
  urgency p (Samples.mkdate 2026 10 16) = Some "expired"%string.
Proof. vm_compute. repeat split; reflexivity. Qed.

End CalendarFacts.

(** C6.  The PGR deadline is the issue date shifted forward by exactly nine
    calendar months, the day clamped to the last valid day of the target
    month when it overflows: 2026-01-15 gives 2026-10-15 and 2026-05-31
    gives 2027-02-28. *)
Theorem pgr_deadline_nine_months_clamped :
  (forall p : Models.Patent,
      Calendar.valid_date (Models.issue_date p) = true ->
      let d := Models.issue_date p in
      let r := Models.pgr_deadline p in
      (Calendar.year r * 12 + Calendar.month r
         = Calendar.year d * 12 + Calendar.month d + 9)%Z /\
      (1 <= Calendar.month r <= 12)%Z /\
      Calendar.day r =
        Z.min (Calendar.day d)
              (Calendar.days_in_month (Calendar.year r) (Calendar.month r)) /\
      (1 <= Calendar.day r
         <= Calendar.days_in_month (Calendar.year r) (Calendar.month r))%Z /\
      ((Calendar.day d
          <= Calendar.days_in_month (Calendar.year r) (Calendar.month r))%Z ->
       Calendar.day r = Calendar.day d))
  /\ Models.pgr_deadline
       (Samples.make_patent "D1012345" "Eyeglasses Frame"
                            (Samples.mkdate 2026 1 15) EmptyString)
     = Samples.mkdate 2026 10 15
  /\ Models.pgr_deadline
       (Samples.make_patent "D1012345" "Eyeglasses Frame"
                            (Samples.mkdate 2026 5 31) EmptyString)
     = Samples.mkdate 2027 2 28.
Proof.
  split; [|split; reflexivity].
  intros p Hv d r. subst d r. unfold Models.pgr_deadline.
  apply valid_date_bounds in Hv.
  destruct (add_nine_months (Models.issue_date p)) as (A & B & C & D); [lia | lia |].
  cbv zeta in A, B, C, D.
  split; [exact A|]. split; [exact B|]. split; [exact C|]. split; [exact D|].
  intros H. rewrite C. apply Z.min_l. exact H.
Qed.

Lemma pgr_deadline_nine_months_clamped_witness :
  Calendar.day
    (Models.pgr_deadline
       (Samples.make_patent "D1012345" "Eyeglasses Frame"
                            (Samples.mkdate 2026 5 31) EmptyString))
  = Z.min 31 (Calendar.days_in_month 2027 2).
Proof.
  destruct pgr_deadline_nine_months_clamped as [H _].
  specialize (H (Samples.make_patent "D1012345" "Eyeglasses Frame"
                                     (Samples.mkdate 2026 5 31) EmptyString)
                eq_refl).
  destruct H as (_ & _ & H & _). exact H.
Defined.

(** C5 (the code departs from the claim).  The months remaining are the
    signed calendar-month delta from today to the deadline plus the day
    delta over 30, negative once the deadline has passed.  At issue date
    2026-01-15 (deadline 2026-10-15) and today 2027-10-15 the difference is
    one year, no month, no day; the code reads only the month and day
    fields and returns 0, where the month delta is -12.  The bucket is
    still "expired". *)
Theorem pgr_months_remaining_drops_whole_years :
  let p := Samples.make_patent "D1012345" "Eyeglasses Frame"
                               (Samples.mkdate 2026 1 15) EmptyString in
  let today := Samples.mkdate 2027 10 15 in
  Models.pgr_deadline p = Samples.mkdate 2026 10 15 /\
  Calendar.date_ltb (Models.pgr_deadline p) today = true /\
  Calendar.relativedelta_between (Models.pgr_deadline p) today
    = Some {| Calendar.years := -1; Calendar.months := 0; Calendar.days := 0 |} /\
  (exists q, Models.pgr_months_remaining p today = Some q /\ (q == 0)%Q) /\
  (exists s, Models.spec_months_remaining p today = Some s /\ (s == -12)%Q) /\
  Models.urgency p today = Some "expired"%string.
Proof.
  cbv zeta. split; [reflexivity|]. split; [reflexivity|]. split; [reflexivity|].
  split; [eexists; split; [vm_compute; reflexivity | reflexivity]|].
  split; [eexists; split; [vm_compute; reflexivity | reflexivity]|].
  reflexivity.
Qed.

(* ===================================================================== *)
(** * Facts about the tracking store                                      *)
(* ===================================================================== *)

Section DbFacts.
Import PyStr Calendar Models Db.

(** Replace the values of a literal row by variables, so that lookups in
    it compute on the column names alone. *)
Ltac abstract_values :=
  repeat match goal with
  | |- context [@pair string SqlValue ?k ?v] =>
      progress (tryif is_var v then fail
                else (let x := fresh "v" in generalize v; intro x))
  end.

Lemma patent_row_lookup_number id p mc :
  patent_row id p mc !! "patent_number" = Some (SqlText (patent_number p)).
Proof.
  unfold patent_row.
  set (x := SqlText (patent_number p)). clearbody x.
  abstract_values. vm_compute. reflexivity.
Qed.

Lemma patent_row_number id p mc s :
  col_is (patent_row id p mc) "patent_number" s = String.eqb (patent_number p) s.
Proof. unfold col_is. rewrite patent_row_lookup_number. reflexivity. Qed.

Lemma patent_row_first_seen id p mc :
  patent_row id p mc !! "first_seen_at"
  = Some (SqlText (datetime_isoformat (first_seen p))).
Proof.
  unfold patent_row.
  set (fs := SqlText (datetime_isoformat (first_seen p))). clearbody fs.
  abstract_values. vm_compute. reflexivity.
Qed.

Lemma patent_row_issue_date id p mc :
  patent_row id p mc !! "issue_date" = Some (SqlText (date_isoformat (issue_date p))).
Proof.
  unfold patent_row.
  set (x := SqlText (date_isoformat (issue_date p))). clearbody x.
  abstract_values. vm_compute. reflexivity.
Qed.

Lemma patent_row_pgr_deadline id p mc :
  patent_row id p mc !! "pgr_deadline"
  = Some (SqlText (date_isoformat (pgr_deadline p))).
Proof.
  unfold patent_row.
  set (x := SqlText (date_isoformat (pgr_deadline p))). clearbody x.
  abstract_values. vm_compute. reflexivity.
Qed.

Lemma patent_row_no_derived id p mc :
  patent_row id p mc !! "pgr_months_remaining" = None /\
  patent_row id p mc !! "urgency" = None.
Proof. unfold patent_row. abstract_values. split; vm_compute; reflexivity. Qed.

Lemma patent_row_columns id p mc col :
  is_Some (patent_row id p mc !! col) -> In col patents_columns.
Proof.
  unfold patent_row. abstract_values. intros [x Hx].
  apply elem_of_list_to_map_2 in Hx.
  repeat (apply elem_of_cons in Hx as [Hx|Hx];
          [inversion Hx; subst; simpl; tauto|]).
  inversion Hx.
Qed.

Lemma search_run_row_no_derived id run :
  search_run_row id run !! "pgr_deadline" = None /\
  search_run_row id run !! "pgr_months_remaining" = None /\
  search_run_row id run !! "urgency" = None.
Proof.
  unfold search_run_row. abstract_values. repeat split; vm_compute; reflexivity.
Qed.

Lemma col_is_insert_other (row : Row) col v s :
  col <> "patent_number"%string ->
  col_is (<[col := v]> row) "patent_number" s = col_is row "patent_number" s.
Proof. intros Hne. unfold col_is. rewrite lookup_insert_ne by exact Hne. reflexivity. Qed.

Lemma patent_exists_update db pn col v s :
  col <> "patent_number"%string ->
  patent_exists (update_patents db pn col v) s = patent_exists db s.
Proof.
  intros Hne. unfold patent_exists, update_patents. simpl.
  induction (patents db) as [|row rows IH]; simpl; [reflexivity|].
  rewrite IH. f_equal.
  destruct (col_is row "patent_number" pn); [apply col_is_insert_other; exact Hne | reflexivity].
Qed.

Lemma insert_patent_existing db p mc :
  patent_exists db (patent_number p) = true -> insert_patent db p mc = (false, db).
Proof. intros H. unfold insert_patent. rewrite H. reflexivity. Qed.

Lemma patent_exists_after_insert db p mc :
  patent_exists (snd (insert_patent db p mc)) (patent_number p) = true.
Proof.
  unfold insert_patent.
  destruct (patent_exists db (patent_number p)) eqn:E; simpl; [exact E|].
  unfold patent_exists. cbn [snd patents]. rewrite existsb_app. cbn [existsb].
  rewrite patent_row_number, String.eqb_refl. apply orb_true_iff. right. reflexivity.
Qed.

Lemma patent_exists_insert_mono db p mc s :
  patent_exists db s = true -> patent_exists (snd (insert_patent db p mc)) s = true.
Proof.
  intros H. unfold insert_patent.
  destruct (patent_exists db (patent_number p)); simpl; [exact H|].
  unfold patent_exists in *. simpl. rewrite existsb_app, H. reflexivity.
Qed.

(** No write operation removes a patent from the store. *)
Lemma patent_exists_apply_op db op s :
  patent_exists db s = true -> patent_exists (apply_op db op) s = true.
Proof.
  intros H. destruct op; simpl.
  - apply patent_exists_insert_mono; exact H.
  - unfold update_patent_status. rewrite patent_exists_update; [exact H | discriminate].
  - unfold mark_notified. rewrite patent_exists_update; [exact H | discriminate].
  - unfold update_ai_analysis. rewrite patent_exists_update; [exact H | discriminate].
  - exact H.
  - exact H.
Qed.

Lemma patent_exists_apply_ops ops db s :
  patent_exists db s = true -> patent_exists (apply_ops db ops) s = true.
Proof.
  revert db. induction ops as [|op ops IH]; intros db H; simpl; [exact H|].
  apply IH, patent_exists_apply_op, H.
Qed.

Lemma successful_inserts_tracked pn ops db :
  patent_exists db pn = true -> successful_inserts pn db ops = 0%nat.
Proof.
  revert db. induction ops as [|op ops IH]; intros db H; simpl; [reflexivity|].
  rewrite (IH _ (patent_exists_apply_op db op pn H)).
  destruct op as [p mc| | | | |]; try reflexivity.
  destruct (String.eqb (patent_number p) pn) eqn:E; [|reflexivity].
  apply String.eqb_eq in E. subst pn.
  rewrite insert_patent_existing by exact H. reflexivity.
Qed.

Lemma successful_inserts_le_1 pn ops db :
  (successful_inserts pn db ops <= 1)%nat.
Proof.
  revert db. induction ops as [|op ops IH]; intros db; simpl; [lia|].
  destruct op as [p mc| | | | |]; try apply IH.
  destruct (String.eqb (patent_number p) pn) eqn:E; simpl; [|apply IH].
  destruct (fst (insert_patent db p mc)) eqn:F; [|apply IH].
  apply String.eqb_eq in E. subst pn.
  rewrite successful_inserts_tracked; [lia|].
  apply patent_exists_after_insert.
Qed.

Lemma find_app_last {A} (f : A -> bool) (l : list A) (x : A) :
  existsb f l = false -> f x = true -> List.find f (l ++ [x]) = Some x.
Proof.
  induction l as [|a l IH]; simpl; intros H Hx; [rewrite Hx; reflexivity|].
  apply orb_false_iff in H as [Ha Hl]. rewrite Ha. apply IH; assumption.
Qed.

End DbFacts.

(** C3.  insert_patent succeeds at most once per patent number: once a
    patent with the number has been offered to the store, any later attempt
    for the same number, after whatever other writes, returns False without
    raising and leaves the whole store unchanged; the stored record keeps
    the first_seen of the first insert; and over any history of writes at
    most one insert of a given number returns True. *)
Theorem insert_patent_at_most_once :
  (forall db p mc ops p' mc',
      Models.patent_number p' = Models.patent_number p ->
      let db1 := Db.apply_ops (snd (Db.insert_patent db p mc)) ops in
      Db.insert_patent db1 p' mc' = (false, db1))
  /\ (forall db p mc p' mc',
         Db.patent_exists db (Models.patent_number p) = false ->
         Models.patent_number p' = Models.patent_number p ->
         let db1 := snd (Db.insert_patent db p mc) in
         let db2 := snd (Db.insert_patent db1 p' mc') in
         fst (Db.insert_patent db p mc) = true /\
         fst (Db.insert_patent db1 p' mc') = false /\
         db2 = db1 /\
         exists row,
           Db.get_patent_row db1 (Models.patent_number p) = Some row /\
           Db.get_patent_row db2 (Models.patent_number p) = Some row /\
           row !! "first_seen_at"
             = Some (Db.SqlText (Calendar.datetime_isoformat (Models.first_seen p))))
  /\ (forall pn db ops, (Db.successful_inserts pn db ops <= 1)%nat).
Proof.
  split; [|split].
  - intros db p mc ops p' mc' Hpn db1. apply insert_patent_existing.
    rewrite Hpn. subst db1. apply patent_exists_apply_ops, patent_exists_after_insert.
  - intros db p mc p' mc' Hnew Hpn db1 db2.
    assert (H2 : Db.insert_patent db1 p' mc' = (false, db1)).
    { apply insert_patent_existing. rewrite Hpn. apply patent_exists_after_insert. }
    subst db2. rewrite H2. simpl.
    assert (H1 : Db.insert_patent db p mc =
                 (true, {| Db.patents := Db.patents db ++
                             [Db.patent_row (Z.of_nat (List.length (Db.patents db)) + 1) p mc];
                           Db.search_runs := Db.search_runs db;
                           Db.notifications := Db.notifications db |})).
    { unfold Db.insert_patent. rewrite Hnew. reflexivity. }
    subst db1. rewrite H1. simpl.
    split; [reflexivity|]. split; [reflexivity|]. split; [reflexivity|].
    eexists. unfold Db.get_patent_row. simpl.
    rewrite find_app_last;
      [ split; [reflexivity|]; split; [reflexivity|]; apply patent_row_first_seen
      | exact Hnew
      | rewrite patent_row_number; apply String.eqb_refl ].
  - intros pn db ops. apply successful_inserts_le_1.
Qed.

Lemma insert_patent_at_most_once_witness :
  Db.insert_patent (snd (Db.insert_patent Db.empty_db Samples.eyeglasses_frame None))
                   Samples.eyeglasses_frame None
  = (false, snd (Db.insert_patent Db.empty_db Samples.eyeglasses_frame None))
  /\ fst (Db.insert_patent Db.empty_db Samples.eyeglasses_frame None) = true.
Proof.
  destruct insert_patent_at_most_once as (H1 & H2 & _).
  split.
  - exact (H1 Db.empty_db Samples.eyeglasses_frame None [] Samples.eyeglasses_frame None
              eq_refl).
  - destruct (H2 Db.empty_db Samples.eyeglasses_frame None Samples.eyeglasses_frame None
                 eq_refl eq_refl) as (A & _).
    exact A.
Defined.

(* ===================================================================== *)
(** * What the store holds of the derived fields                          *)
(* ===================================================================== *)

Section StoreInvariant.
Import PyStr Calendar Models Db Statements.

Ltac abstract_row_values :=
  repeat match goal with
  | |- context [@pair string SqlValue ?k ?v] =>
      progress (tryif is_var v then fail
                else (let x := fresh "v" in generalize v; intro x))
  end.

Lemma patent_row_ok id p mc : patents_row_ok (patent_row id p mc).
Proof.
  destruct (patent_row_no_derived id p mc) as [A B].
  split; [exact A|]. split; [exact B|].
  split; [intros col; apply patent_row_columns|].
  exists (issue_date p). split; [apply patent_row_issue_date|].
  apply patent_row_pgr_deadline.
Qed.

Lemma patents_row_ok_update (row : Row) col v :
  In col ["status"; "notified_at"; "ai_analysis"]%string ->
  patents_row_ok row -> patents_row_ok (<[col := v]> row).
Proof.
  intros Hcol (A & B & C & issued & D & E).
  assert (Hin : In col patents_columns).
  { simpl in Hcol. unfold patents_columns.
    destruct Hcol as [<-|[<-|[<-|[]]]]; simpl; tauto. }
  assert (Hne : forall c, In c ["pgr_months_remaining"; "urgency"; "issue_date";
                               "pgr_deadline"]%string -> col <> c).
  { intros c Hc ->. simpl in Hcol, Hc.
    destruct Hcol as [X|[X|[X|[]]]]; destruct Hc as [Y|[Y|[Y|[Y|[]]]]];
      rewrite <- X in Y; discriminate Y. }
  split; [rewrite lookup_insert_ne; [exact A | apply Hne; simpl; tauto]|].
  split; [rewrite lookup_insert_ne; [exact B | apply Hne; simpl; tauto]|].
  split.
  - intros c Hc. destruct (decide (col = c)) as [<-|Hn]; [exact Hin|].
    rewrite lookup_insert_ne in Hc by exact Hn. apply C, Hc.
  - exists issued. split.
    + rewrite lookup_insert_ne; [exact D | apply Hne; simpl; tauto].
    + rewrite lookup_insert_ne; [exact E | apply Hne; simpl; tauto].
Qed.

Lemma store_ok_update db pn col v :
  In col ["status"; "notified_at"; "ai_analysis"]%string ->
  store_ok db -> store_ok (update_patents db pn col v).
Proof.
  intros Hcol (P & R & N). split; [|split; assumption].
  intros row Hrow. simpl in Hrow. apply in_map_iff in Hrow as (row0 & <- & Hin).
  destruct (col_is row0 "patent_number" pn); [|apply P, Hin].
  apply patents_row_ok_update; [exact Hcol | apply P, Hin].
Qed.

Lemma store_ok_apply_op db op : store_ok db -> store_ok (apply_op db op).
Proof.
  intros Hok. destruct op as [p mc|pn st|now pn|pn js|run|now pid ty rc st er]; simpl.
  - unfold insert_patent. destruct (patent_exists db (patent_number p)); [exact Hok|].
    destruct Hok as (P & R & N). split; [|split; assumption].
    simpl. intros row Hrow. apply in_app_iff in Hrow as [Hrow|[<-|[]]];
      [apply P, Hrow | apply patent_row_ok].
  - apply store_ok_update; [simpl; tauto | exact Hok].
  - apply store_ok_update; [simpl; tauto | exact Hok].
  - apply store_ok_update; [simpl; tauto | exact Hok].
  - destruct Hok as (P & R & N). split; [exact P|]. split; [|exact N].
    simpl. intros row Hrow. apply in_app_iff in Hrow as [Hrow|[<-|[]]];
      [apply R, Hrow | apply search_run_row_no_derived].
  - destruct Hok as (P & R & N). split; [exact P|]. split; [exact R|].
    simpl. intros row Hrow. apply in_app_iff in Hrow as [Hrow|[<-|[]]];
      [apply N, Hrow|].
    unfold no_derived_columns. abstract_row_values.
    repeat split; vm_compute; reflexivity.
Qed.

Lemma store_ok_apply_ops ops db : store_ok db -> store_ok (apply_ops db ops).
Proof.
  revert db. induction ops as [|op ops IH]; intros db H; simpl; [exact H|].
  apply IH, store_ok_apply_op, H.
Qed.

Lemma store_ok_empty : store_ok empty_db.
Proof. unfold store_ok. simpl. split; [|split]; intros r []. Qed.

End StoreInvariant.

(** C7 as stated fails: the patents table has a pgr_deadline column and
    insert_patent fills it.  After one insert of the patent issued on
    2026-02-18 the stored row holds "2026-11-18" under that name. *)
Lemma pgr_deadline_is_persisted : ~ Statements.derived_never_persisted.
Proof.
  intros H.
  specialize (H [Db.OpInsertPatent Samples.eyeglasses_frame None]
                (Db.patent_row 1 Samples.eyeglasses_frame None)
                "pgr_deadline"%string).
  assert (E : Db.patent_row 1 Samples.eyeglasses_frame None !! "pgr_deadline"
              = Some (Db.SqlText "2026-11-18")).
  { rewrite patent_row_pgr_deadline. reflexivity. }
  rewrite E in H. discriminate H.
  - left. reflexivity.
  - simpl. tauto.
Qed.

(** C7, amended.  In every store reached by write operations: no row of
    any table has a value under the names pgr_months_remaining or urgency
    (they exist only as computed properties), a patent row has only columns
    of the schema, and its pgr_deadline column, written by insert_patent
    and changed by no operation, is the ISO text of the stored issue date
    shifted by nine months, that is, of the value the property recomputes;
    the run and notification rows have none of the three. *)
Theorem derived_fields_persistence :
  forall ops,
    (forall row, In row (Db.patents (Db.apply_ops Db.empty_db ops)) ->
       row !! "pgr_months_remaining" = None /\
       row !! "urgency" = None /\
       (forall col, is_Some (row !! col) -> In col Db.patents_columns) /\
       exists issued : Calendar.date,
         row !! "issue_date" = Some (Db.SqlText (Calendar.date_isoformat issued)) /\
         row !! "pgr_deadline"
           = Some (Db.SqlText
                     (Calendar.date_isoformat
                        (Calendar.date_add issued (Calendar.relativedelta_months 9)))))
    /\ (forall row,
          In row (Db.search_runs (Db.apply_ops Db.empty_db ops)) \/
          In row (Db.notifications (Db.apply_ops Db.empty_db ops)) ->
          row !! "pgr_deadline" = None /\
          row !! "pgr_months_remaining" = None /\
          row !! "urgency" = None).
Proof.
  intros ops.
  destruct (store_ok_apply_ops ops Db.empty_db store_ok_empty) as (P & R & N).
  split; [exact P|]. intros row [H|H]; [apply R, H | apply N, H].
Qed.

Lemma derived_fields_persistence_witness :
  (let row := <["status" := Db.SqlText "flagged"]>
                (Db.patent_row 1 Samples.eyeglasses_frame None) in
   row !! "pgr_months_remaining" = None /\ row !! "urgency" = None) /\
  Db.search_run_row 1 Samples.sample_run !! "pgr_deadline" = None.
Proof.
  split.
  - intros row.
    destruct (derived_fields_persistence
                [Db.OpInsertPatent Samples.eyeglasses_frame None;
                 Db.OpUpdatePatentStatus "D1012345" "flagged"]) as [H _].
    destruct (H row) as (A & B & _); [|split; assumption].
    left. reflexivity.
  - destruct (derived_fields_persistence [Db.OpLogSearchRun Samples.sample_run])
      as [_ H].
    destruct (H (Db.search_run_row 1 Samples.sample_run)) as (A & _); [|exact A].
    left. left. reflexivity.
Defined.

(* ===================================================================== *)
(** * Facts about ISO texts and the run log                               *)
(* ===================================================================== *)

Section RunLogFacts.
Import PyStr Calendar Models Db Statements.
Local Open Scope Z_scope.

Lemma digit_value_digit (n : Z) : digit_value (digit n) = Some (n mod 10).
Proof.
  unfold digit_value, digit.
  pose proof (Z.mod_pos_bound n 10 eq_refl) as B.
  rewrite nat_ascii_embedding by lia.
  destruct (Nat.leb_spec 48 (48 + Z.to_nat (n mod 10))); [|lia].
  destruct (Nat.leb_spec (48 + Z.to_nat (n mod 10)) 57); [|lia].
  simpl. f_equal. lia.
Qed.

Lemma four_digits (y : Z) :
  0 <= y <= 9999 ->
  (y / 1000) mod 10 * 1000 + (y / 100) mod 10 * 100 + (y / 10) mod 10 * 10 + y mod 10 = y.
Proof. intros H. Z.to_euclidean_division_equations. lia. Qed.

Lemma two_digits (m : Z) : 0 <= m <= 99 -> (m / 10) mod 10 * 10 + m mod 10 = m.
Proof. intros H. Z.to_euclidean_division_equations. lia. Qed.

(** Reading back the date of an ISO text. *)
Lemma parse_date_isoformat (d : date) (rest : string) :
  valid_date d = true ->
  parse_date_prefix (date_isoformat d +:+ rest) = Some (d, rest).
Proof.
  intros Hv. pose proof (valid_date_bounds d Hv) as (By & Bm & Bd).
  pose proof (days_in_month_bounds (year d) (month d)) as Bdim.
  unfold parse_date_prefix, date_isoformat, pad4, pad2.
  cbv beta iota delta [String.append]. rewrite !digit_value_digit.
  rewrite four_digits, !two_digits by lia.
  replace {| year := year d; month := month d; day := day d |} with d
    by (destruct d; reflexivity).
  rewrite Hv. reflexivity.
Qed.

Lemma datetime_fromisoformat_isoformat (t : datetime) :
  valid_datetime t = true ->
  datetime_fromisoformat_date (datetime_isoformat t) = Ok (dt_date t).
Proof.
  intros Hv. unfold valid_datetime in Hv.
  assert (Hd : valid_date (dt_date t) = true).
  { do 8 (apply andb_prop in Hv as [Hv _]). exact Hv. }
  unfold datetime_fromisoformat_date, datetime_isoformat.
  rewrite parse_date_isoformat by exact Hd. reflexivity.
Qed.

Lemma latest_run_at_in rows acc t :
  fold_left (fun best row =>
               let t := text_of (row !! "run_at") in
               match best with
               | None => Some t
               | Some b => if String.ltb b t then Some t else Some b
               end) rows acc = Some t ->
  acc = Some t \/ exists row : Row, In row rows /\ t = text_of (row !! "run_at").
Proof.
  revert acc. induction rows as [|row rows IH]; intros acc H; simpl in H; [left; exact H|].
  apply IH in H as [H|(r & Hr & E)].
  - destruct acc as [b|].
    + destruct (String.ltb b (text_of (row !! "run_at"))).
      * right. exists row. split; [left; reflexivity | congruence].
      * left. exact H.
    + right. exists row. split; [left; reflexivity | congruence].
  - right. exists r. split; [right; exact Hr | exact E].
Qed.

(** On a store whose run rows were written by [log_search_run],
    [get_last_run_date] returns and does not raise. *)
Lemma get_last_run_date_ok db src :
  runs_wf db -> exists o, get_last_run_date db src = Ok o.
Proof.
  intros Hwf. unfold get_last_run_date.
  destruct (latest_run_at _) as [t|] eqn:E; [|eauto].
  unfold latest_run_at in E. apply latest_run_at_in in E as [E|(row & Hin & ->)];
    [discriminate|].
  apply filter_In in Hin as [Hin _].
  destruct (Hwf row Hin) as (t0 & Hv & Hrow). rewrite Hrow.
  unfold text_of. rewrite datetime_fromisoformat_isoformat by exact Hv. eauto.
Qed.

Lemma search_run_row_run_at id run :
  search_run_row id run !! "run_at" = Some (SqlText (datetime_isoformat (run_at run))).
Proof.
  unfold search_run_row.
  set (x := SqlText (datetime_isoformat (run_at run))). clearbody x.
  repeat match goal with
  | |- context [@pair string SqlValue ?k ?v] =>
      progress (tryif is_var v then fail
                else (let y := fresh "v" in generalize v; intro y))
  end.
  vm_compute. reflexivity.
Qed.

Lemma search_run_row_fields id run :
  search_run_row id run !! "source" = Some (SqlText (source run)) /\
  search_run_row id run !! "error" = Some (sql_text_opt (run_error run)) /\
  search_run_row id run !! "results_count" = Some (SqlInt (results_count run)) /\
  search_run_row id run !! "new_matches_count" = Some (SqlInt (new_matches_count run)).
Proof.
  unfold search_run_row.
  set (a := SqlText (source run)). set (b := sql_text_opt (run_error run)).
  set (c := SqlInt (results_count run)). set (d := SqlInt (new_matches_count run)).
  clearbody a b c d.
  repeat match goal with
  | |- context [@pair string SqlValue ?k ?v] =>
      progress (tryif is_var v then fail
                else (let y := fresh "v" in generalize v; intro y))
  end.
  repeat split; vm_compute; reflexivity.
Qed.

Lemma runs_wf_log db run :
  valid_datetime (run_at run) = true -> runs_wf db -> runs_wf (log_search_run db run).
Proof.
  intros Hv Hwf row Hin. simpl in Hin. apply in_app_iff in Hin as [Hin|[<-|[]]].
  - apply Hwf, Hin.
  - exists (run_at run). split; [exact Hv | apply search_run_row_run_at].
Qed.

End RunLogFacts.

(* ===================================================================== *)
(** * Facts about the scan                                                *)
(* ===================================================================== *)

Section ScanFacts.
Import PyStr Calendar Models Config Matcher Db Service Statements.
Local Open Scope Z_scope.

Lemma insert_patent_logs db p mc :
  search_runs (snd (insert_patent db p mc)) = search_runs db /\
  notifications (snd (insert_patent db p mc)) = notifications db.
Proof. unfold insert_patent. destruct (patent_exists _ _); split; reflexivity. Qed.

Lemma scan_loop_cons cl p rest db acc :
  scan_loop cl (p :: rest) db acc =
  if patent_exists db (patent_number p) then scan_loop cl rest db acc
  else match match_ cl p with
       | [] => scan_loop cl rest db acc
       | m :: ms =>
           scan_loop cl rest (snd (insert_patent db p (Some (m :: ms))))
                     (acc ++ [{| alert_patent := p; matched_criteria := m :: ms |}])
       end.
Proof. reflexivity. Qed.

(** The loop only adds patents, leaves the logs alone, and afterwards every
    candidate is tracked or matches no rule. *)
Lemma scan_loop_post cl ps : forall db acc,
  search_runs (snd (scan_loop cl ps db acc)) = search_runs db /\
  notifications (snd (scan_loop cl ps db acc)) = notifications db /\
  (forall s, patent_exists db s = true ->
             patent_exists (snd (scan_loop cl ps db acc)) s = true) /\
  (forall p, In p ps ->
             patent_exists (snd (scan_loop cl ps db acc)) (patent_number p) = true \/
             match_ cl p = []).
Proof.
  induction ps as [|p rest IH]; intros db acc.
  - cbn [scan_loop snd]. repeat split; [auto | intros p []].
  - rewrite scan_loop_cons.
    destruct (patent_exists db (patent_number p)) eqn:E.
    + destruct (IH db acc) as (A & B & C & D).
      repeat split; try assumption.
      intros q [<-|Hq]; [left; apply C, E | apply D, Hq].
    + destruct (match_ cl p) as [|m ms] eqn:M.
      * destruct (IH db acc) as (A & B & C & D).
        repeat split; try assumption.
        intros q [<-|Hq]; [right; exact M | apply D, Hq].
      * set (db' := snd (insert_patent db p (Some (m :: ms)))).
        destruct (IH db' (acc ++ [{| alert_patent := p;
                                     matched_criteria := m :: ms |}]))
          as (A & B & C & D).
        destruct (insert_patent_logs db p (Some (m :: ms))) as [L1 L2].
        fold db' in L1, L2.
        split; [congruence|]. split; [congruence|]. split.
        -- intros s Hs. apply C. subst db'. apply patent_exists_insert_mono, Hs.
        -- intros q [<-|Hq]; [|apply D, Hq].
           left. apply C. subst db'. apply patent_exists_after_insert.
Qed.

(** When every candidate is tracked or matches no rule, the loop changes
    nothing and raises no alert. *)
Lemma scan_loop_fixed cl ps : forall db acc,
  (forall p, In p ps ->
             patent_exists db (patent_number p) = true \/ match_ cl p = []) ->
  scan_loop cl ps db acc = (acc, db).
Proof.
  induction ps as [|p rest IH]; intros db acc H; [reflexivity|].
  rewrite scan_loop_cons.
  assert (Hrest : forall q, In q rest ->
             patent_exists db (patent_number q) = true \/ match_ cl q = [])
    by (intros q Hq; apply H; right; exact Hq).
  destruct (H p (or_introl eq_refl)) as [E|M].
  - rewrite E. apply IH, Hrest.
  - rewrite M. destruct (patent_exists db (patent_number p)); apply IH, Hrest.
Qed.

Lemma after_try_post cl db out :
  search_runs (snd (after_try cl db out)) = search_runs db /\
  notifications (snd (after_try cl db out)) = notifications db /\
  (forall s, patent_exists db s = true ->
             patent_exists (snd (after_try cl db out)) s = true) /\
  (forall p, In p (candidates_of out) ->
             patent_exists (snd (after_try cl db out)) (patent_number p) = true \/
             match_ cl p = []).
Proof.
  destruct out as [ps|e]; cbn [after_try candidates_of].
  - apply scan_loop_post.
  - cbn [snd]. repeat split; [auto | intros p []].
Qed.

Lemma after_try_fixed cl db out :
  (forall p, In p (candidates_of out) ->
             patent_exists db (patent_number p) = true \/ match_ cl p = []) ->
  after_try cl db out = ([], db).
Proof.
  destruct out as [ps|e]; cbn [after_try candidates_of]; intros H; [|reflexivity].
  apply scan_loop_fixed, H.
Qed.

Lemma patent_exists_log db run s :
  patent_exists (log_search_run db run) s = patent_exists db s.
Proof. reflexivity. Qed.

(** One call of [_search_gazette]: the alerts and store of the [try]
    block, then exactly one logged run. *)
Lemma search_gazette_spec db cl srcs clk :
  let out := scrape_current_week srcs in
  exists run,
    _search_gazette db cl srcs clk =
      ((fst (after_try cl db out), fetched_of out,
        error_of "Gazette scrape failed: " out),
       log_search_run (snd (after_try cl db out)) run) /\
    source run = "gazette"%string /\
    run_error run = run_error_of out /\
    results_count run = fetched_of out /\
    new_matches_count run = Z.of_nat (List.length (fst (after_try cl db out))) /\
    run_at run = gaz_now clk.
Proof.
  intros out. unfold _search_gazette. fold out.
  destruct out as [ps|e]; cbn [after_try fetched_of error_of run_error_of].
  - destruct (scan_loop cl ps db []) as [al db1]. cbv beta iota zeta.
    eexists. split; [reflexivity|]. repeat split.
  - cbv beta iota zeta. eexists. split; [reflexivity|]. repeat split.
Qed.

(** One call of [_search_api]: an exception raised before the [try]
    block leaves the function; otherwise the function returns, with the
    alerts and store of the [try] block and exactly one logged run. *)
Lemma search_api_cases config db srcs clk date_from date_to :
  match api_window config db clk date_from date_to with
  | Raise e => _search_api config db srcs clk date_from date_to = Raise e
  | Ok (a, b) =>
      exists run,
        let out := search_design_patents srcs a b (api_keywords config) in
        let cl := search_criteria config in
        _search_api config db srcs clk date_from date_to =
          Ok ((fst (after_try cl db out), fetched_of out,
               error_of "API search failed: " out),
              log_search_run (snd (after_try cl db out)) run) /\
        source run = "api"%string /\
        run_error run = run_error_of out /\
        results_count run = fetched_of out /\
        new_matches_count run = Z.of_nat (List.length (fst (after_try cl db out))) /\
        run_at run = api_now clk
  end.
Proof.
  assert (Htry : forall a b,
    exists run,
      let out := search_design_patents srcs a b (api_keywords config) in
      let cl := search_criteria config in
      (let '(alerts, fetched_count, results_count, new_matches_count, run_err, error, db1) :=
         match search_design_patents srcs a b
                 (match flat_map keywords (search_criteria config) with
                  | [] => None
                  | _ :: _ => Some (flat_map keywords (search_criteria config))
                  end) with
         | Ok patents =>
             let '(alerts, db1) := scan_loop (search_criteria config) patents db [] in
             (alerts, Z.of_nat (List.length patents), Z.of_nat (List.length patents),
              Z.of_nat (List.length alerts), None, None, db1)
         | Raise e =>
             ([], 0, 0, 0, Some (exn_str e),
              Some ("API search failed: " +:+ exn_str e), db)
         end in
       Ok ((alerts, fetched_count, error),
           log_search_run db1
             {| run_at := api_now clk;
                source := "api";
                query_params :=
                  Json.dumps_str_dict
                    [("date_from", date_isoformat a); ("date_to", date_isoformat b)];
                results_count := results_count;
                new_matches_count := new_matches_count;
                run_error := run_err;
                duration_seconds := (api_end_time clk - api_start_time clk)%Q |}))
      = Ok ((fst (after_try cl db out), fetched_of out,
             error_of "API search failed: " out),
            log_search_run (snd (after_try cl db out)) run) /\
      source run = "api"%string /\
      run_error run = run_error_of out /\
      results_count run = fetched_of out /\
      new_matches_count run = Z.of_nat (List.length (fst (after_try cl db out))) /\
      run_at run = api_now clk).
  { intros a b. unfold api_keywords. cbv zeta.
    destruct (search_design_patents srcs a b _) as [ps|e];
      cbn [after_try fetched_of error_of run_error_of].
    - destruct (scan_loop (search_criteria config) ps db []) as [al db1].
      cbv beta iota zeta. eexists. split; [reflexivity|]. repeat split.
    - cbv beta iota zeta. eexists. split; [reflexivity|]. repeat split. }
  unfold api_window, _search_api. cbv zeta.
  destruct (USPTOClient_init _ _ _ _) as [client|e0]; [|reflexivity].
  destruct date_from as [d|]; [apply Htry|].
  destruct (get_last_run_date db "api") as [[d|]|e1]; [apply Htry| |reflexivity].
  destruct (date_sub_days _ _) as [d|e2]; [apply Htry | reflexivity].
Qed.

(** The statements before the [try] block return when the client can be
    built and the start of the window is given, or can be read from a run
    log written by [log_search_run], or lies a look-back away that the
    calendar can take. *)
Lemma api_window_returns config db clk date_from date_to :
  rate_limit_per_minute (api config) <> 0 ->
  Z.abs (rate_limit_per_minute (api config)) < float_limit ->
  date_from <> None \/
  (runs_wf db /\
   (get_last_run_date db "api" = Ok None ->
    Z.abs (initial_lookback_days config) <= 999999999 /\
    1 <= toordinal (api_today_from clk) - initial_lookback_days config <= max_ordinal)) ->
  exists a b,
    api_window config db clk date_from date_to = Ok (a, b) /\
    (forall a', date_from = Some a' -> a = a') /\
    (forall b', date_to = Some b' -> b = b') /\
    (date_to = None -> b = api_today_to clk).
Proof.
  intros Hrate Hfloat Hstart. unfold api_window, USPTOClient_init.
  destruct (Z.eqb_spec (rate_limit_per_minute (api config)) 0) as [E|_]; [contradiction|].
  destruct (Z.leb_spec float_limit (Z.abs (rate_limit_per_minute (api config))))
    as [Hbig|_]; [lia|].
  cbv zeta.
  assert (Hto : (forall b', date_to = Some b' ->
                   match date_to with Some d => d | None => api_today_to clk end = b') /\
                (date_to = None ->
                   match date_to with Some d => d | None => api_today_to clk end
                   = api_today_to clk)).
  { split; [intros b' ->; reflexivity | intros ->; reflexivity]. }
  destruct Hto as [Hto1 Hto2].
  destruct date_from as [d|].
  - eexists _, _. split; [reflexivity|]. split; [intros a' Ha; congruence|].
    split; assumption.
  - destruct Hstart as [Hne|[Hwf Hlook]]; [congruence|].
    destruct (get_last_run_date_ok db "api" Hwf) as [o Ho]. rewrite Ho.
    destruct o as [d|].
    + eexists _, _. split; [reflexivity|]. split; [discriminate|]. split; assumption.
    + destruct (Hlook Ho) as (Hk & Hlo & Hhi). unfold date_sub_days.
      destruct (Z.ltb_spec 999999999 (Z.abs (initial_lookback_days config))); [lia|].
      destruct (Z.leb_spec 1 (toordinal (api_today_from clk)
                              - initial_lookback_days config)); [|lia].
      destruct (Z.leb_spec (toordinal (api_today_from clk)
                            - initial_lookback_days config) max_ordinal); [|lia].
      cbn [andb]. eexists _, _. split; [reflexivity|]. split; [discriminate|].
      split; assumption.
Qed.

(** Without a client there is no window. *)
Lemma api_window_zero_rate config db clk date_from date_to :
  rate_limit_per_minute (api config) = 0 ->
  api_window config db clk date_from date_to = Raise float_division_by_zero.
Proof. intros H. unfold api_window, USPTOClient_init. rewrite H. reflexivity. Qed.

(** An explicit window is the window. *)
Lemma api_window_explicit config db clk a b a0 b0 :
  api_window config db clk (Some a) (Some b) = Ok (a0, b0) -> a0 = a /\ b0 = b.
Proof.
  unfold api_window. destruct (USPTOClient_init _ _ _ _); [|discriminate].
  cbv zeta. intros H. inversion H. split; reflexivity.
Qed.

(** A call of [_search_api] that returned got past the statements before
    its [try] block. *)
Lemma search_api_returned config db srcs clk date_from date_to r db1 :
  _search_api config db srcs clk date_from date_to = Ok (r, db1) ->
  exists a b run,
    api_window config db clk date_from date_to = Ok (a, b) /\
    let out := search_design_patents srcs a b (api_keywords config) in
    let cl := search_criteria config in
    r = (fst (after_try cl db out), fetched_of out, error_of "API search failed: " out) /\
    db1 = log_search_run (snd (after_try cl db out)) run /\
    source run = "api"%string /\
    run_error run = run_error_of out.
Proof.
  intros H. pose proof (search_api_cases config db srcs clk date_from date_to) as C.
  destruct (api_window config db clk date_from date_to) as [[a b]|e]; [|congruence].
  destruct C as (run & Heq & Hs & He & _). cbv zeta in Heq.
  rewrite Heq in H. inversion H; subst; clear H.
  exists a, b, run. split; [reflexivity|]. cbv zeta. repeat split; assumption.
Qed.

End ScanFacts.

Section ScanTheorems.
Import PyStr Calendar Models Config Matcher Db Service Statements.
Local Open Scope Z_scope.

(** Logging a run and scanning commute: the loop reads and writes the
    patents table only. *)
Lemma scan_loop_log cl run ps : forall db acc,
  scan_loop cl ps (log_search_run db run) acc =
  (fst (scan_loop cl ps db acc), log_search_run (snd (scan_loop cl ps db acc)) run).
Proof.
  induction ps as [|p rest IH]; intros db acc; [reflexivity|].
  rewrite !scan_loop_cons, patent_exists_log.
  destruct (patent_exists db (patent_number p)) eqn:E; [apply IH|].
  destruct (match_ cl p) as [|m ms]; [apply IH|].
  replace (snd (insert_patent (log_search_run db run) p (Some (m :: ms))))
    with (log_search_run (snd (insert_patent db p (Some (m :: ms)))) run).
  - apply IH.
  - unfold insert_patent. rewrite patent_exists_log, E. reflexivity.
Qed.

Lemma search_api_logs_one config db srcs clk date_from date_to r db1 :
  _search_api config db srcs clk date_from date_to = Ok (r, db1) ->
  List.length (search_runs db1) = S (List.length (search_runs db)).
Proof.
  intros H. apply search_api_returned in H as (a & b & run & _ & H). cbv zeta in H.
  destruct H as (_ & -> & _). cbn [log_search_run search_runs].
  destruct (after_try_post (search_criteria config) db
              (search_design_patents srcs a b (api_keywords config))) as (A & _).
  rewrite A, length_app. cbn [List.length]. lia.
Qed.

Lemma search_gazette_logs_one db cl srcs clk :
  List.length (search_runs (snd (_search_gazette db cl srcs clk)))
  = S (List.length (search_runs db)).
Proof.
  destruct (search_gazette_spec db cl srcs clk) as (run & Heq & _). rewrite Heq.
  cbn [snd log_search_run search_runs].
  destruct (after_try_post cl db (scrape_current_week srcs)) as (A & _).
  rewrite A, length_app. cbn [List.length]. lia.
Qed.

Lemma returned_projections (r : Res (ScanResult * Database)) :
  Samples.returned r = true -> r = Ok (Samples.result_of r, Samples.store_of r).
Proof. destruct r as [[res db']|e]; [reflexivity | discriminate]. Qed.

End ScanTheorems.

Section RescanFacts.
Import PyStr Calendar Models Config Matcher Db Service Statements.
Local Open Scope Z_scope.

(** What one call of [_search_api] that returned has done to the patents
    table, in terms of the output of its fetch. *)
Lemma search_api_patents config db srcs clk date_from date_to al f er db1 :
  _search_api config db srcs clk date_from date_to = Ok ((al, f, er), db1) ->
  exists a b,
    api_window config db clk date_from date_to = Ok (a, b) /\
    let out := search_design_patents srcs a b (api_keywords config) in
    let cl := search_criteria config in
    (forall s, patent_exists db s = true -> patent_exists db1 s = true) /\
    (forall p, In p (candidates_of out) ->
               patent_exists db1 (patent_number p) = true \/ match_ cl p = []) /\
    ((forall p, In p (candidates_of out) ->
                patent_exists db (patent_number p) = true \/ match_ cl p = []) ->
     al = [] /\ patents db1 = patents db).
Proof.
  intros H. apply search_api_returned in H as (a & b & run & W & H). cbv zeta in H.
  destruct H as (Hr & -> & _). inversion Hr; subst; clear Hr.
  exists a, b. split; [exact W|]. cbv zeta.
  set (out := search_design_patents srcs a b (api_keywords config)).
  set (cl := search_criteria config).
  destruct (after_try_post cl db out) as (_ & _ & M & P).
  split; [intros s Hs; rewrite patent_exists_log; apply M, Hs|].
  split; [intros p Hp; rewrite patent_exists_log; apply P, Hp|].
  intros Hfix. rewrite (after_try_fixed cl db out Hfix). split; reflexivity.
Qed.

(** The same for [_search_gazette]. *)
Lemma search_gazette_patents db cl srcs clk al f er db1 :
  _search_gazette db cl srcs clk = ((al, f, er), db1) ->
  let out := scrape_current_week srcs in
  (forall s, patent_exists db s = true -> patent_exists db1 s = true) /\
  (forall p, In p (candidates_of out) ->
             patent_exists db1 (patent_number p) = true \/ match_ cl p = []) /\
  ((forall p, In p (candidates_of out) ->
              patent_exists db (patent_number p) = true \/ match_ cl p = []) ->
   al = [] /\ patents db1 = patents db).
Proof.
  intros H out.
  destruct (search_gazette_spec db cl srcs clk) as (run & Heq & _).
  cbv zeta in Heq. fold out in Heq. rewrite Heq in H. inversion H; subst; clear H.
  destruct (after_try_post cl db out) as (_ & _ & M & P).
  split; [intros s Hs; rewrite patent_exists_log; apply M, Hs|].
  split; [intros p Hp; rewrite patent_exists_log; apply P, Hp|].
  intros Hfix. rewrite (after_try_fixed cl db out Hfix). split; reflexivity.
Qed.

(** After a scan, every candidate the sources handed to it is tracked or
    matches no rule, and nothing was removed. *)
Lemma run_scan_post config db srcs clk date_from date_to r db' :
  run_scan config db srcs clk date_from date_to = Ok (r, db') ->
  (forall s, patent_exists db s = true -> patent_exists db' s = true) /\
  (forall p, In p (scan_candidates config db srcs clk date_from date_to) ->
             patent_exists db' (patent_number p) = true \/
             match_ (search_criteria config) p = []).
Proof.
  unfold run_scan, scan_candidates.
  destruct (uspto_api (sources config)); destruct (official_gazette (sources config)).
  - destruct (_search_api _ _ _ _ _ _) as [[[[al f] er] db1]|e0] eqn:E; [|discriminate].
    apply search_api_patents in E as (a & b & -> & M1 & P1 & _).
    destruct (_search_gazette _ _ _ _) as [[[al2 f2] er2] db2] eqn:G.
    apply search_gazette_patents in G as (M2 & P2 & _).
    cbv beta iota zeta. intros H. inversion H; subst; clear H.
    split; [intros s Hs; apply M2, M1, Hs|].
    intros p Hp. apply in_app_iff in Hp as [Hp|Hp].
    + destruct (P1 p Hp) as [X|X]; [left; apply M2, X | right; exact X].
    + apply P2, Hp.
  - destruct (_search_api _ _ _ _ _ _) as [[[[al f] er] db1]|e0] eqn:E; [|discriminate].
    apply search_api_patents in E as (a & b & -> & M1 & P1 & _).
    cbv beta iota zeta. intros H. inversion H; subst; clear H.
    split; [exact M1|]. intros p Hp. rewrite app_nil_r in Hp. apply P1, Hp.
  - destruct (_search_gazette _ _ _ _) as [[[al2 f2] er2] db2] eqn:G.
    apply search_gazette_patents in G as (M2 & P2 & _).
    cbv beta iota zeta. intros H. inversion H; subst; clear H.
    split; [exact M2|]. intros p Hp. apply P2, Hp.
  - cbv beta iota zeta. intros H. inversion H; subst; clear H.
    split; [auto|]. intros p [].
Qed.

(** A scan over candidates that are all tracked or unmatched inserts
    nothing and reports no new match. *)
Lemma run_scan_fixed config db srcs clk date_from date_to r db' :
  (forall p, In p (scan_candidates config db srcs clk date_from date_to) ->
             patent_exists db (patent_number p) = true \/
             match_ (search_criteria config) p = []) ->
  run_scan config db srcs clk date_from date_to = Ok (r, db') ->
  new_matches r = 0 /\ alerts r = [] /\ patents db' = patents db.
Proof.
  unfold run_scan, scan_candidates. intros Hfix.
  destruct (uspto_api (sources config)); destruct (official_gazette (sources config)).
  - destruct (_search_api _ _ _ _ _ _) as [[[[al f] er] db1]|e0] eqn:E; [|discriminate].
    apply search_api_patents in E as (a & b & W & M1 & _ & F1). rewrite W in Hfix.
    destruct F1 as [-> Hp1]; [intros p Hp; apply Hfix, in_app_iff; left; exact Hp|].
    destruct (_search_gazette _ _ _ _) as [[[al2 f2] er2] db2] eqn:G.
    apply search_gazette_patents in G as (_ & _ & F2).
    destruct F2 as [-> Hp2].
    { intros p Hp. destruct (Hfix p) as [X|X];
        [apply in_app_iff; right; exact Hp | left; apply M1, X | right; exact X]. }
    cbv beta iota zeta. intros H. inversion H; subst; clear H.
    cbn [new_matches alerts]. repeat split; congruence.
  - destruct (_search_api _ _ _ _ _ _) as [[[[al f] er] db1]|e0] eqn:E; [|discriminate].
    apply search_api_patents in E as (a & b & W & _ & _ & F1). rewrite W in Hfix.
    destruct F1 as [-> Hp1]; [intros p Hp; apply Hfix; rewrite app_nil_r; exact Hp|].
    cbv beta iota zeta. intros H. inversion H; subst; clear H.
    cbn [new_matches alerts]. repeat split; congruence.
  - destruct (_search_gazette _ _ _ _) as [[[al2 f2] er2] db2] eqn:G.
    apply search_gazette_patents in G as (_ & _ & F2).
    destruct F2 as [-> Hp2]; [intros p Hp; apply Hfix; exact Hp|].
    cbv beta iota zeta. intros H. inversion H; subst; clear H.
    cbn [new_matches alerts]. repeat split; congruence.
  - cbv beta iota zeta. intros H. inversion H; subst; clear H.
    repeat split.
Qed.

(** With an explicit window the candidates of a scan that returned are
    those the sources hand out for that window. *)
Lemma scan_candidates_explicit config db srcs clk a b r db' :
  run_scan config db srcs clk (Some a) (Some b) = Ok (r, db') ->
  scan_candidates config db srcs clk (Some a) (Some b)
  = fetched_candidates config srcs a b.
Proof.
  unfold run_scan, scan_candidates, fetched_candidates.
  destruct (uspto_api (sources config)); [|reflexivity].
  destruct (_search_api _ _ _ _ _ _) as [[[[al f] er] db1]|e0] eqn:E; [|discriminate].
  apply search_api_patents in E as (a0 & b0 & W & _). intros _. rewrite W.
  apply api_window_explicit in W as [-> ->]. reflexivity.
Qed.

End RescanFacts.

(** C2 as stated fails in its parenthesis: a candidate that matched no rule
    on the first scan was not stored, so on the second scan the existence
    check does not skip it; it goes to the matcher again.  With the API
    returning a matching and a non-matching patent, the non-matching
    "D9999999" is not tracked after the first scan. *)
Lemma rescan_does_not_skip_unmatched : ~ Statements.rescan_skips_every_candidate.
Proof.
  intros H.
  assert (R1 : Samples.first_scan
               = Ok (Samples.result_of Samples.first_scan,
                     Samples.store_of Samples.first_scan))
    by (apply returned_projections; vm_compute; reflexivity).
  assert (R2 : Samples.second_scan
               = Ok (Samples.result_of Samples.second_scan,
                     Samples.store_of Samples.second_scan))
    by (apply returned_projections; vm_compute; reflexivity).
  assert (Hno : Db.patent_exists (Samples.store_of Samples.first_scan) "D9999999"
                = false) by (vm_compute; reflexivity).
  destruct (H _ _ _ _ _ _ _ _ _ _ _ R1 R2) as (_ & _ & Hall).
  specialize (Hall Samples.unrelated_widget).
  change (Models.patent_number Samples.unrelated_widget) with "D9999999"%string in Hall.
  rewrite Hno in Hall. discriminate Hall.
  right. left. reflexivity.
Qed.

(** C2, amended.  Scanning twice with the same window arguments (an
    explicit window, or the window the scan works out for itself) and the
    same source output: the second scan reports new_matches = 0 and no
    alert, performs no insert (the patents table, hence its count, is
    unchanged), because every fetched candidate is either already tracked,
    and skipped by the existence check, or matches no rule, as on the first
    scan.  With an explicit window and the same sources the output of the
    second scan is that of the first. *)
Theorem rescan_is_idempotent :
  (forall config db srcs1 srcs2 clk1 clk2 date_from date_to r1 db1 r2 db2,
      Service.run_scan config db srcs1 clk1 date_from date_to = Ok (r1, db1) ->
      Service.run_scan config db1 srcs2 clk2 date_from date_to = Ok (r2, db2) ->
      Statements.scan_candidates config db1 srcs2 clk2 date_from date_to
        = Statements.scan_candidates config db srcs1 clk1 date_from date_to ->
      Service.new_matches r2 = 0%Z /\
      Service.alerts r2 = [] /\
      Db.patents db2 = Db.patents db1 /\
      Db.get_patent_count db2 = Db.get_patent_count db1 /\
      forall p,
        In p (Statements.scan_candidates config db1 srcs2 clk2 date_from date_to) ->
        Db.patent_exists db1 (Models.patent_number p) = true \/
        Matcher.match_ (Config.search_criteria config) p = [])
  /\ (forall config db srcs clk1 clk2 a b r1 db1 r2 db2,
      Service.run_scan config db srcs clk1 (Some a) (Some b) = Ok (r1, db1) ->
      Service.run_scan config db1 srcs clk2 (Some a) (Some b) = Ok (r2, db2) ->
      Statements.scan_candidates config db1 srcs clk2 (Some a) (Some b)
        = Statements.scan_candidates config db srcs clk1 (Some a) (Some b) /\
      Service.new_matches r2 = 0%Z /\
      Service.alerts r2 = [] /\
      Db.get_patent_count db2 = Db.get_patent_count db1).
Proof.
  assert (G : forall config db srcs1 srcs2 clk1 clk2 date_from date_to r1 db1 r2 db2,
      Service.run_scan config db srcs1 clk1 date_from date_to = Ok (r1, db1) ->
      Service.run_scan config db1 srcs2 clk2 date_from date_to = Ok (r2, db2) ->
      Statements.scan_candidates config db1 srcs2 clk2 date_from date_to
        = Statements.scan_candidates config db srcs1 clk1 date_from date_to ->
      Service.new_matches r2 = 0%Z /\
      Service.alerts r2 = [] /\
      Db.patents db2 = Db.patents db1 /\
      Db.get_patent_count db2 = Db.get_patent_count db1 /\
      forall p,
        In p (Statements.scan_candidates config db1 srcs2 clk2 date_from date_to) ->
        Db.patent_exists db1 (Models.patent_number p) = true \/
        Matcher.match_ (Config.search_criteria config) p = []).
  { intros config db srcs1 srcs2 clk1 clk2 date_from date_to r1 db1 r2 db2 R1 R2 Hsame.
    destruct (run_scan_post _ _ _ _ _ _ _ _ R1) as (_ & Hpost).
    rewrite <- Hsame in Hpost.
    destruct (run_scan_fixed _ _ _ _ _ _ _ _ Hpost R2) as (A & B & C).
    split; [exact A|]. split; [exact B|]. split; [exact C|].
    split; [unfold Db.get_patent_count; rewrite C; reflexivity | exact Hpost]. }
  split; [exact G|].
  intros config db srcs clk1 clk2 a b r1 db1 r2 db2 R1 R2.
  assert (Hsame : Statements.scan_candidates config db1 srcs clk2 (Some a) (Some b)
                  = Statements.scan_candidates config db srcs clk1 (Some a) (Some b)).
  { rewrite (scan_candidates_explicit _ _ _ _ _ _ _ _ R1).
    apply (scan_candidates_explicit _ _ _ _ _ _ _ _ R2). }
  destruct (G _ _ _ _ _ _ _ _ _ _ _ _ R1 R2 Hsame) as (A & B & _ & D & _).
  split; [exact Hsame|]. split; [exact A|]. split; [exact B | exact D].
Qed.

Lemma rescan_is_idempotent_witness :
  Samples.first_scan_default
    = Ok (Samples.result_of Samples.first_scan_default,
          Samples.store_of Samples.first_scan_default) /\
  Samples.second_scan_default
    = Ok (Samples.result_of Samples.second_scan_default,
          Samples.store_of Samples.second_scan_default) /\
  Service.new_matches (Samples.result_of Samples.first_scan_default) = 1%Z /\
  Service.new_matches (Samples.result_of Samples.second_scan_default) = 0%Z /\
  Db.get_patent_count (Samples.store_of Samples.second_scan_default)
    = Db.get_patent_count (Samples.store_of Samples.first_scan_default) /\
  Service.new_matches (Samples.result_of Samples.second_scan) = 0%Z.
Proof.
  assert (E1 : Samples.first_scan_default
               = Ok (Samples.result_of Samples.first_scan_default,
                     Samples.store_of Samples.first_scan_default))
    by (apply returned_projections; vm_compute; reflexivity).
  assert (E2 : Samples.second_scan_default
               = Ok (Samples.result_of Samples.second_scan_default,
                     Samples.store_of Samples.second_scan_default))
    by (apply returned_projections; vm_compute; reflexivity).
  assert (E3 : Samples.first_scan
               = Ok (Samples.result_of Samples.first_scan,
                     Samples.store_of Samples.first_scan))
    by (apply returned_projections; vm_compute; reflexivity).
  assert (E4 : Samples.second_scan
               = Ok (Samples.result_of Samples.second_scan,
                     Samples.store_of Samples.second_scan))
    by (apply returned_projections; vm_compute; reflexivity).
  assert (Hsame :
    Statements.scan_candidates Samples.test_config
      (Samples.store_of Samples.first_scan_default) Samples.sources_mixed
      Samples.test_clock None None
    = Statements.scan_candidates Samples.test_config Db.empty_db Samples.sources_mixed
        Samples.test_clock None None)
    by (vm_compute; reflexivity).
  destruct rescan_is_idempotent as [G X].
  destruct (G _ _ _ _ _ _ _ _ _ _ _ _ E1 E2 Hsame) as (A & _ & _ & D & _).
  destruct (X _ _ _ _ _ _ _ _ _ _ _ E3 E4) as (_ & A' & _).
  split; [exact E1|]. split; [exact E2|]. split; [vm_compute; reflexivity|].
  split; [exact A|]. split; [exact D | exact A'].
Defined.

(* ===================================================================== *)
(** * Facts about response normalization                                  *)
(* ===================================================================== *)

Section AnalyzerFacts.
Import PyStr Calendar Analyzer.
Local Open Scope Z_scope.

Lemma str_in_In s l : str_in s l = true -> In s l.
Proof.
  unfold str_in. intros H. apply existsb_exists in H as (x & Hx & E).
  apply String.eqb_eq in E. subst. exact Hx.
Qed.

Lemma validated_allowed v allowed fallback :
  In fallback allowed -> In (validated v allowed fallback) allowed.
Proof.
  intros Hf. unfold validated. destruct v; try exact Hf.
  destruct (str_in s allowed) eqn:E; [apply str_in_In, E | exact Hf].
Qed.

Lemma validated_unrecognized v allowed fallback :
  (forall s, v = JString s -> ~ In s allowed) -> validated v allowed fallback = fallback.
Proof.
  intros H. unfold validated. destruct v; try reflexivity.
  destruct (str_in s allowed) eqn:E; [|reflexivity].
  exfalso. apply (H s eq_refl), str_in_In, E.
Qed.

(** Sanitization, for a decoded object whose score is absent or can be
    coerced by [int]: the score is clamped to 0..100, the risk level and
    the recommendation are in their enumerations, an absent reasoning is
    the empty string. *)
Lemma data_to_result_sanitized now (d : gmap string JsonValue) z :
  py_int (default (JInt 0) (d !! "similarity_score")) = Ok z ->
  exists r,
    _data_to_result now (JObject d) = Ok r /\
    similarity_score r = Z.max 0 (Z.min 100 z) /\
    0 <= similarity_score r <= 100 /\
    In (risk_level r) ["high"; "medium"; "low"; "none"]%string /\
    In (recommendation r) ["flag"; "monitor"; "dismiss"]%string /\
    (d !! "reasoning" = None -> reasoning r = JString EmptyString) /\
    error r = None.
Proof.
  intros H. unfold _data_to_result. rewrite H. eexists. split; [reflexivity|].
  cbn [similarity_score risk_level recommendation reasoning error].
  split; [reflexivity|]. split; [lia|].
  split; [apply validated_allowed; simpl; tauto|].
  split; [apply validated_allowed; simpl; tauto|].
  split; [intros ->; reflexivity | reflexivity].
Qed.

(** The examples of the specification: 150 clamps to 100, an unrecognized
    risk level becomes "none", an unrecognized recommendation "monitor". *)
Example data_to_result_examples now :
  exists r,
    _data_to_result now
      (JObject (<["similarity_score" := JInt 150]>
                 (<["risk_level" := JString "extreme"]>
                   (<["recommendation" := JString "sue_them"]> ∅)))) = Ok r /\
    similarity_score r = 100 /\ risk_level r = "none"%string /\
    recommendation r = "monitor"%string /\ reasoning r = JString EmptyString.
Proof. eexists. split; [vm_compute; reflexivity|]. repeat split. Qed.

Lemma take_length n s : (String.length (take n s) <= n)%nat.
Proof.
  revert s. induction n as [|n IH]; intros s; [simpl; lia|].
  destruct s as [|c s]; simpl; [lia|]. specialize (IH s). lia.
Qed.

Lemma take_prefix n s : String.prefix (take n s) s = true.
Proof.
  revert s. induction n as [|n IH]; intros s; [destruct s; reflexivity|].
  destruct s as [|c s]; simpl; [reflexivity|].
  destruct (ascii_dec c c); [apply IH | congruence].
Qed.

(** When [json.loads] fails on the candidate of every strategy, the method
    returns the parse-failure result. *)
Lemma parse_response_sentinel json_loads now text :
  json_loads (strip text) = None ->
  (forall m, search_score_object text = Some m -> json_loads m = None) ->
  (forall m, search_any_object text = Some m -> json_loads m = None) ->
  _parse_response json_loads now text = Ok (parse_failure_result now text).
Proof.
  intros H1 H2 H3. unfold _parse_response, try_candidate. rewrite H1. cbn [fmap option_fmap option_map].
  destruct (search_score_object text) as [m2|] eqn:E2;
    [rewrite (H2 m2 eq_refl); cbn [fmap option_fmap option_map]|];
    (destruct (search_any_object text) as [m3|] eqn:E3;
       [rewrite (H3 m3 eq_refl)|]; reflexivity).
Qed.

(** The two sentinel results: their fields, and the bounded excerpt. *)
Lemma sentinel_results model now text e :
  let p := parse_failure_result now text in
  let c := call_failure_result model now e in
  similarity_score p = 0 /\ risk_level p = "none"%string /\
  recommendation p = "monitor"%string /\
  reasoning p = JString ("Could not parse AI response. Raw: " +:+ take 200 text) /\
  (String.length (take 200 text) <= 200)%nat /\
  String.prefix (take 200 text) text = true /\
  error p = Some "parse_failure"%string /\
  similarity_score c = 0 /\ risk_level c = "none"%string /\
  recommendation c = "monitor"%string /\
  error c = Some (exn_str e) /\
  reasoning p <> reasoning c.
Proof.
  cbv zeta. cbn [parse_failure_result call_failure_result similarity_score
                 risk_level recommendation reasoning error].
  repeat split; try reflexivity; [apply take_length | apply take_prefix |].
  intros H. inversion H.
Qed.

(** The reply of the test suite that no strategy parses. *)
Example parse_response_invalid now :
  _parse_response Samples.loads_nothing now "I cannot analyze this image."
  = Ok (parse_failure_result now "I cannot analyze this image.").
Proof. apply parse_response_sentinel; reflexivity. Qed.

End AnalyzerFacts.

(** C8 (the code departs from the claim).  Sanitization is to hold for
    every decoded object.  For the object whose similarity_score is the
    text "85%", [int] raises ValueError inside _data_to_result: no result
    is built, and the exception leaves _parse_response, which catches only
    JSONDecodeError.  A null score raises TypeError in the same way. *)
Theorem data_to_result_raises_on_uncoercible_score :
  forall now json_loads text,
    Analyzer._data_to_result now
      (Analyzer.JObject {[ "similarity_score"%string := Analyzer.JString "85%" ]})
    = Raise {| exn_class := ValueError;
               exn_str := "invalid literal for int() with base 10: '85%'" |}
    /\ (exists e,
          Analyzer._data_to_result now
            (Analyzer.JObject {[ "similarity_score"%string := Analyzer.JNull ]})
          = Raise e /\ exn_class e = TypeError)
    /\ (json_loads (PyStr.strip text)
          = Some (Analyzer.JObject
                    {[ "similarity_score"%string := Analyzer.JString "85%" ]}) ->
        Analyzer._parse_response json_loads now text
        = Raise {| exn_class := ValueError;
                   exn_str := "invalid literal for int() with base 10: '85%'" |}).
Proof.
  intros now json_loads text.
  assert (E : Analyzer._data_to_result now
      (Analyzer.JObject {[ "similarity_score"%string := Analyzer.JString "85%" ]})
    = Raise {| exn_class := ValueError;
               exn_str := "invalid literal for int() with base 10: '85%'" |})
    by (vm_compute; reflexivity).
  split; [exact E|]. split.
  - eexists. split; [vm_compute; reflexivity | reflexivity].
  - intros H. unfold Analyzer._parse_response, Analyzer.try_candidate.
    rewrite H. cbn [fmap option_fmap option_map]. exact E.
Qed.

Lemma data_to_result_raises_on_uncoercible_score_witness :
  Analyzer._parse_response
    (fun _ => Some (Analyzer.JObject
                      {[ "similarity_score"%string := Analyzer.JString "85%" ]}))
    (Samples.midnight (Samples.mkdate 2026 2 24)) "reply"
  = Raise {| exn_class := ValueError;
             exn_str := "invalid literal for int() with base 10: '85%'" |}.
Proof.
  destruct (data_to_result_raises_on_uncoercible_score
              (Samples.midnight (Samples.mkdate 2026 2 24))
              (fun _ => Some (Analyzer.JObject
                                {[ "similarity_score"%string := Analyzer.JString "85%" ]}))
              "reply") as (_ & _ & H).
  exact (H eq_refl).
Defined.

(** C9 (the code departs from the claim).  Response normalization is never
    to raise, and a reply that is not in the expected shape is to give the
    parse-failure result.  For the reply "72" (valid JSON, a number and not
    an object) the first strategy decodes it, _data_to_result calls [get]
    on the number, and AttributeError leaves _parse_response.  analyze then
    builds its generic failure result: the error tag is the exception text,
    not "parse_failure", and the reasoning holds no excerpt of the reply. *)
Theorem parse_response_raises_on_non_object_reply :
  forall json_loads parse_now now model create patent_image product_images,
    json_loads "72"%string = Some (Analyzer.JInt 72) ->
    create 1%nat = Analyzer.Replied "72" ->
    Analyzer._parse_response json_loads parse_now "72" = Raise Samples.int_has_no_get /\
    let r := Analyzer.analyze model json_loads create parse_now now
                              patent_image product_images in
    r = Analyzer.call_failure_result model now Samples.int_has_no_get /\
    Analyzer.error r = Some "'int' object has no attribute 'get'"%string /\
    Analyzer.error r <> Some "parse_failure"%string /\
    Analyzer.reasoning r
      = Analyzer.JString "AI analysis failed: 'int' object has no attribute 'get'".
Proof.
  intros json_loads parse_now now model create img prods Hloads Hcreate.
  assert (E : Analyzer._parse_response json_loads parse_now "72"
              = Raise Samples.int_has_no_get).
  { unfold Analyzer._parse_response, Analyzer.try_candidate.
    change (PyStr.strip "72") with "72"%string. rewrite Hloads. reflexivity. }
  split; [exact E|]. cbv zeta.
  assert (R : Analyzer.analyze model json_loads create parse_now now img prods
              = Analyzer.call_failure_result model now Samples.int_has_no_get).
  { unfold Analyzer.analyze, Analyzer._call_api. cbn [Analyzer._call_api_from Analyzer.max_retries].
    rewrite Hcreate, E. reflexivity. }
  rewrite R. split; [reflexivity|]. split; [reflexivity|].
  split; [discriminate | reflexivity].
Qed.

Lemma parse_response_raises_on_non_object_reply_witness :
  Analyzer._parse_response Samples.loads_72
    (Samples.midnight (Samples.mkdate 2026 2 24)) "72"
  = Raise Samples.int_has_no_get.
Proof.
  destruct (parse_response_raises_on_non_object_reply
              Samples.loads_72 (Samples.midnight (Samples.mkdate 2026 2 24))
              (Samples.midnight (Samples.mkdate 2026 2 24)) "claude"
              (fun _ => Analyzer.Replied "72") None [] eq_refl eq_refl) as [H _].
  exact H.
Defined.

(* ===================================================================== *)
(** * Further properties of the matcher                                   *)
(* ===================================================================== *)

Section MatcherCaseFacts.
Import PyStr Models Config Matcher.

Ltac by_cases_on_char c :=
  destruct c as [[] [] [] [] [] [] [] []]; reflexivity.

Lemma upper_lower_char (c : ascii) : upper_char (lower_char c) = upper_char c.
Proof. by_cases_on_char c. Qed.

Lemma lower_upper_char (c : ascii) : lower_char (upper_char c) = lower_char c.
Proof. by_cases_on_char c. Qed.

Lemma lower_char_idempotent (c : ascii) : lower_char (lower_char c) = lower_char c.
Proof. by_cases_on_char c. Qed.

Lemma isspace_lower_char (c : ascii) : py_isspace (lower_char c) = py_isspace c.
Proof. by_cases_on_char c. Qed.

Lemma isspace_upper_char (c : ascii) : py_isspace (upper_char c) = py_isspace c.
Proof. by_cases_on_char c. Qed.

Lemma semicolon_lower_char (c : ascii) :
  Ascii.eqb (lower_char c) ";" = Ascii.eqb c ";".
Proof. by_cases_on_char c. Qed.

Lemma semicolon_upper_char (c : ascii) :
  Ascii.eqb (upper_char c) ";" = Ascii.eqb c ";".
Proof. by_cases_on_char c. Qed.

Lemma map_chars_compose (f g : ascii -> ascii) (s : string) :
  map_chars f (map_chars g s) = map_chars (fun c => f (g c)) s.
Proof. induction s as [|c s IH]; cbn [map_chars]; [reflexivity | now rewrite IH]. Qed.

Lemma map_chars_ext (f g : ascii -> ascii) (s : string) :
  (forall c, f c = g c) -> map_chars f s = map_chars g s.
Proof.
  intros H. induction s as [|c s IH]; cbn [map_chars]; [reflexivity | now rewrite H, IH].
Qed.

Lemma is_empty_map_chars (f : ascii -> ascii) (s : string) :
  is_empty (map_chars f s) = is_empty s.
Proof. destruct s; reflexivity. Qed.

Lemma upper_lower (s : string) : upper (lower s) = upper s.
Proof.
  unfold upper, lower. rewrite map_chars_compose.
  apply map_chars_ext, upper_lower_char.
Qed.

Lemma lower_upper (s : string) : lower (upper s) = lower s.
Proof.
  unfold upper, lower. rewrite map_chars_compose.
  apply map_chars_ext, lower_upper_char.
Qed.

Lemma lower_idempotent (s : string) : lower (lower s) = lower s.
Proof.
  unfold lower. rewrite map_chars_compose.
  apply map_chars_ext, lower_char_idempotent.
Qed.

Lemma upper_idempotent (s : string) : upper (upper s) = upper s.
Proof.
  unfold upper. rewrite map_chars_compose.
  apply map_chars_ext, upper_char_idempotent.
Qed.

(** A map on characters that keeps the whitespace class commutes with
    [strip]. *)
Lemma lstrip_map_chars (f : ascii -> ascii) (s : string) :
  (forall c, py_isspace (f c) = py_isspace c) ->
  lstrip (map_chars f s) = map_chars f (lstrip s).
Proof.
  intros H. induction s as [|c s IH]; cbn [map_chars lstrip]; [reflexivity|].
  rewrite H. destruct (py_isspace c); [exact IH | reflexivity].
Qed.

Lemma rstrip_map_chars (f : ascii -> ascii) (s : string) :
  (forall c, py_isspace (f c) = py_isspace c) ->
  rstrip (map_chars f s) = map_chars f (rstrip s).
Proof.
  intros H. induction s as [|c s IH]; cbn [map_chars rstrip]; [reflexivity|].
  cbv zeta. rewrite IH, H, is_empty_map_chars.
  destruct (py_isspace c && is_empty (rstrip s)); reflexivity.
Qed.

Lemma strip_map_chars (f : ascii -> ascii) (s : string) :
  (forall c, py_isspace (f c) = py_isspace c) ->
  strip (map_chars f s) = map_chars f (strip s).
Proof.
  intros H. unfold strip. now rewrite lstrip_map_chars, rstrip_map_chars.
Qed.

Lemma split_map_chars (f : ascii -> ascii) (sep : ascii) (s : string) :
  (forall c, Ascii.eqb (f c) sep = Ascii.eqb c sep) ->
  split sep (map_chars f s) = map (map_chars f) (split sep s).
Proof.
  intros H. induction s as [|c s IH]; cbn [map_chars split]; [reflexivity|].
  rewrite H, IH. destruct (Ascii.eqb c sep); [reflexivity|].
  destruct (split sep s); reflexivity.
Qed.

Lemma normalize_lower (x : string) : normalize (lower x) = normalize x.
Proof.
  unfold normalize. unfold lower at 1.
  rewrite strip_map_chars by apply isspace_lower_char.
  fold (lower (strip x)). now rewrite upper_lower.
Qed.

Lemma normalize_of_upper (x : string) : normalize (upper x) = normalize x.
Proof.
  unfold normalize. unfold upper at 2.
  rewrite strip_map_chars by apply isspace_upper_char.
  fold (upper (strip x)). now rewrite upper_idempotent.
Qed.

Lemma existsb_map_ext {A B} (f : B -> bool) (g : A -> B) (h : A -> bool) (l : list A) :
  (forall a, f (g a) = h a) -> existsb f (map g l) = existsb h l.
Proof.
  intros H. induction l as [|a l IH]; cbn [map existsb]; [reflexivity|].
  now rewrite H, IH.
Qed.

Lemma prefix_trans (a b c : string) :
  String.prefix a b = true -> String.prefix b c = true -> String.prefix a c = true.
Proof.
  revert b c. induction a as [|x a IH]; intros b c Hab Hbc; [destruct c; reflexivity|].
  destruct b as [|y b]; [discriminate|]. destruct c as [|z c]; [discriminate|].
  cbn [String.prefix] in *.
  destruct (ascii_dec x y) as [->|]; [|discriminate].
  destruct (ascii_dec y z) as [->|]; [|discriminate].
  eauto.
Qed.

Lemma contains_empty (s : string) : contains EmptyString s = true.
Proof. destruct s; reflexivity. Qed.

Lemma match_single_excluded p c : _is_excluded p c = true -> _match_single p c = [].
Proof. intros H. unfold _match_single. now rewrite H. Qed.

Lemma match_app (l1 l2 : list SearchCriteriaConfig) (p : Patent) :
  match_ (l1 ++ l2) p = match_ l1 p ++ match_ l2 p.
Proof. unfold match_. apply flat_map_app. Qed.

Lemma filter_nil_iff {A} (f : A -> bool) (l : list A) :
  List.filter f l = [] <-> existsb f l = false.
Proof.
  induction l as [|a l IH]; cbn [List.filter existsb]; [tauto|].
  destruct (f a); cbn [orb]; [split; discriminate | exact IH].
Qed.

Lemma match_single_nil_iff p c :
  _match_single p c = [] <->
  _is_excluded p c = true \/
  (existsb (fun us_class => _class_matches (classification_us p) us_class)
           (us_classes c) = false /\
   existsb (fun cpc_class => _class_matches (classification_cpc p) cpc_class)
           (cpc_classes c) = false /\
   existsb (fun keyword => _keyword_matches p keyword) (keywords c) = false).
Proof.
  unfold _match_single. destruct (_is_excluded p c).
  - split; [now left | reflexivity].
  - rewrite <- !filter_nil_iff. split.
    + intros H. right.
      apply app_eq_nil in H as [H1 H]. apply app_eq_nil in H as [H2 H3].
      apply map_eq_nil in H1, H2, H3. auto.
    + intros [H|(H1 & H2 & H3)]; [discriminate|]. now rewrite H1, H2, H3.
Qed.

Lemma class_matches_map_left (f : ascii -> ascii) (c t : string) :
  (forall x, Ascii.eqb (f x) ";" = Ascii.eqb x ";") ->
  (forall v, normalize (map_chars f v) = normalize v) ->
  _class_matches (map_chars f c) t = _class_matches c t.
Proof.
  intros Hsep Hnorm. rewrite !class_matches_unfold.
  rewrite is_empty_map_chars, (split_map_chars f) by exact Hsep.
  f_equal. apply existsb_map_ext. intros a. now rewrite Hnorm.
Qed.

Lemma class_matches_same_normal_form (c t t' : string) :
  is_empty t' = is_empty t -> normalize t' = normalize t ->
  _class_matches c t' = _class_matches c t.
Proof. intros He Hn. rewrite !class_matches_unfold. now rewrite He, Hn. Qed.

End MatcherCaseFacts.

(** X1.  The class check ignores letter case on both sides: lower-casing
    or upper-casing the patent's classification text or the configured
    class does not change the answer of [_class_matches]. *)
Theorem class_matches_case_insensitive (c t : string) :
  Matcher._class_matches (PyStr.lower c) t = Matcher._class_matches c t /\
  Matcher._class_matches c (PyStr.lower t) = Matcher._class_matches c t /\
  Matcher._class_matches (PyStr.upper c) t = Matcher._class_matches c t /\
  Matcher._class_matches c (PyStr.upper t) = Matcher._class_matches c t.
Proof.
  split; [|split; [|split]].
  - apply class_matches_map_left;
      [apply semicolon_lower_char | apply normalize_lower].
  - apply class_matches_same_normal_form;
      [apply is_empty_map_chars | apply normalize_lower].
  - apply class_matches_map_left;
      [apply semicolon_upper_char | apply normalize_of_upper].
  - apply class_matches_same_normal_form;
      [apply is_empty_map_chars | apply normalize_of_upper].
Qed.

(** X2.  When a configured class matches a classification, a configured
    class whose normal form is a prefix of its normal form matches that
    classification too, provided it is not the empty string, which matches
    nothing: shortening a configured prefix to a non-empty one only widens
    the rule. *)
Theorem class_matches_shorter_prefix (c t t' : string) :
  PyStr.startswith (Matcher.normalize t) (Matcher.normalize t') = true ->
  Matcher._class_matches c t = true ->
  Matcher._class_matches c t' = negb (PyStr.is_empty t').
Proof.
  intros Hpre. rewrite !class_matches_unfold.
  intros H. apply andb_prop in H as [H Hex]. apply andb_prop in H as [Hc _].
  rewrite Hc. cbn [andb]. destruct (PyStr.is_empty t'); [reflexivity|].
  cbn [negb andb].
  apply existsb_exists in Hex as (v & Hv & Hm).
  apply existsb_exists. exists v. split; [exact Hv|].
  unfold PyStr.startswith in *. eapply prefix_trans; eassumption.
Qed.

Lemma class_matches_shorter_prefix_witness :
  Matcher._class_matches "D16/300; D16/301" "d16" = true /\
  Matcher._class_matches "D16/300; D16/301" EmptyString = false.
Proof.
  split.
  - apply (class_matches_shorter_prefix "D16/300; D16/301" "D16/30" "d16");
      reflexivity.
  - apply (class_matches_shorter_prefix "D16/300; D16/301" "D16/30" EmptyString);
      reflexivity.
Defined.

(** X3.  An assignee exclusion takes precedence inside its rule and only
    there: when the patent's assignee is not empty and contains, ignoring
    case, one of the rule's excluded strings, the rule contributes no match
    reason whatever the patent's classes and title are, and the reasons of
    the other rules of the list are unaffected.  A patent without an
    assignee is never excluded. *)
Theorem excluded_assignee_suppresses_rule
    (p : Models.Patent) (c : Config.SearchCriteriaConfig) (e : string)
    (before after : list Config.SearchCriteriaConfig) :
  In e (Config.assignee_exclude c) ->
  Models.assignee p <> EmptyString ->
  PyStr.contains (PyStr.lower e) (PyStr.lower (Models.assignee p)) = true ->
  Matcher._is_excluded p c = true /\
  Matcher._match_single p c = [] /\
  Matcher.match_ (before ++ c :: after) p
    = Matcher.match_ before p ++ Matcher.match_ after p /\
  (forall p' c', Models.assignee p' = EmptyString ->
                 Matcher._is_excluded p' c' = false).
Proof.
  intros Hin Hne Hc.
  assert (Hex : Matcher._is_excluded p c = true).
  { unfold Matcher._is_excluded.
    destruct (Config.assignee_exclude c) as [|x xs] eqn:E; [destruct Hin|].
    rewrite (is_empty_false _ Hne).
    apply existsb_exists. exists e. split; [exact Hin | exact Hc]. }
  split; [exact Hex|]. split; [now apply match_single_excluded|]. split.
  - rewrite match_app. f_equal. unfold Matcher.match_. cbn [flat_map].
    now rewrite (match_single_excluded _ _ Hex).
  - intros p' c' H. unfold Matcher._is_excluded. rewrite H.
    destruct (Config.assignee_exclude c'); reflexivity.
Qed.

Lemma excluded_assignee_suppresses_rule_witness :
  let p := {| Models.patent_number := "D1012345"; Models.title := "Eyeglasses Frame";
              Models.issue_date := Samples.mkdate 2026 2 18;
              Models.application_number := EmptyString; Models.filing_date := None;
              Models.inventors := []; Models.assignee := "My Company Inc.";
              Models.classification_us := "D16/300";
              Models.classification_cpc := EmptyString;
              Models.classification_locarno := EmptyString;
              Models.image_url := None; Models.abstract := None;
              Models.status := "new";
              Models.first_seen := Samples.midnight (Samples.mkdate 2026 2 24);
              Models.notified_at := None; Models.notes := None |} in
  let c := {| Config.name := "Eyewear"; Config.us_classes := ["D16/300"%string];
              Config.cpc_classes := []; Config.keywords := ["eyeglasses"%string];
              Config.assignee_exclude := ["my company"%string] |} in
  Matcher._match_single p c = [] /\
  Matcher.match_ [c] (Samples.eyeglasses_frame) <> [].
Proof.
  cbv zeta. split.
  - eapply (excluded_assignee_suppresses_rule _ _ "my company" [] []);
      [left; reflexivity | discriminate | reflexivity].
  - discriminate.
Defined.

(** X4.  The keyword check ignores letter case: changing the case of the
    configured keyword, or of the patent's title and abstract, does not
    change the answer of [_keyword_matches]. *)
Theorem keyword_matches_case_insensitive (p p' : Models.Patent) (kw : string) :
  Matcher._keyword_matches p (PyStr.upper kw) = Matcher._keyword_matches p kw /\
  Matcher._keyword_matches p (PyStr.lower kw) = Matcher._keyword_matches p kw /\
  (Models.title p' = PyStr.upper (Models.title p) ->
   Models.abstract p' = PyStr.upper <$> Models.abstract p ->
   Matcher._keyword_matches p' kw = Matcher._keyword_matches p kw).
Proof.
  unfold Matcher._keyword_matches, Matcher.pattern_search.
  rewrite !lower_upper, !lower_idempotent. repeat split; try reflexivity.
  intros Ht Ha. rewrite Ht, Ha. unfold PyStr.upper at 1.
  rewrite is_empty_map_chars. fold (PyStr.upper (Models.title p)).
  rewrite lower_upper.
  destruct (Models.abstract p) as [a|]; cbn [fmap option_fmap option_map]; [|reflexivity].
  unfold PyStr.upper at 1. rewrite is_empty_map_chars. fold (PyStr.upper a).
  now rewrite lower_upper.
Qed.

Lemma keyword_matches_case_insensitive_witness :
  Matcher._keyword_matches
    (Samples.make_patent "D1012345" "EYEGLASSES FRAME" (Samples.mkdate 2026 2 18)
                         "D16/300") "eyeglasses"
  = Matcher._keyword_matches Samples.eyeglasses_frame "eyeglasses".
Proof.
  apply (keyword_matches_case_insensitive Samples.eyeglasses_frame
           (Samples.make_patent "D1012345" "EYEGLASSES FRAME"
                                (Samples.mkdate 2026 2 18) "D16/300") "eyeglasses");
    reflexivity.
Defined.

(** X5.  Two edge cases of the keyword check.  The empty keyword matches
    every patent that has a title; and no keyword, not even the empty one,
    matches a patent whose title is empty and whose abstract is missing or
    empty. *)
Theorem keyword_matches_edge_cases (p : Models.Patent) (kw : string) :
  (Models.title p <> EmptyString ->
   Matcher._keyword_matches p EmptyString = true) /\
  (Models.title p = EmptyString ->
   Models.abstract p = None \/ Models.abstract p = Some EmptyString ->
   Matcher._keyword_matches p kw = false).
Proof.
  unfold Matcher._keyword_matches, Matcher.pattern_search. split.
  - intros H. rewrite (is_empty_false _ H). cbn [negb andb PyStr.lower PyStr.map_chars].
    now rewrite contains_empty.
  - intros Ht [Ha|Ha]; rewrite Ht, Ha; reflexivity.
Qed.

Lemma keyword_matches_edge_cases_witness :
  Matcher._keyword_matches Samples.unrelated_widget EmptyString = true.
Proof.
  apply (keyword_matches_edge_cases Samples.unrelated_widget EmptyString).
  discriminate.
Defined.

(** X6.  When the matcher reports a match.  [match] returns at least one
    reason exactly when some rule of the list does not exclude the patent
    and has a US class, a CPC class or a keyword that matches it. *)
Theorem match_nonempty_iff (criteria_list : list Config.SearchCriteriaConfig)
    (p : Models.Patent) :
  Matcher.match_ criteria_list p <> [] <->
  exists c, In c criteria_list /\
    Matcher._is_excluded p c = false /\
    (existsb (fun us_class => Matcher._class_matches (Models.classification_us p) us_class)
             (Config.us_classes c) = true \/
     existsb (fun cpc_class => Matcher._class_matches (Models.classification_cpc p) cpc_class)
             (Config.cpc_classes c) = true \/
     existsb (fun keyword => Matcher._keyword_matches p keyword)
             (Config.keywords c) = true).
Proof.
  unfold Matcher.match_. induction criteria_list as [|c cl IH]; cbn [flat_map].
  - split; [congruence | intros (c & [] & _)].
  - split.
    + intros H.
      destruct (Matcher._match_single p c) as [|r rs] eqn:E.
      * cbn [app] in H. apply IH in H as (c' & Hin & H). exists c'. split; [now right | exact H].
      * exists c. split; [now left|].
        destruct (Matcher._is_excluded p c) eqn:Ex.
        { rewrite (match_single_excluded _ _ Ex) in E. discriminate. }
        split; [reflexivity|].
        destruct (existsb _ (Config.us_classes c)) eqn:E1; [now left|].
        destruct (existsb _ (Config.cpc_classes c)) eqn:E2; [now (right; left)|].
        destruct (existsb _ (Config.keywords c)) eqn:E3; [now (right; right)|].
        assert (Matcher._match_single p c = []) as E'.
        { apply match_single_nil_iff. right. auto. }
        congruence.
    + intros (c' & [->|Hin] & Hex & Hhit) Hnil.
      * apply app_eq_nil in Hnil as [Hnil _].
        apply match_single_nil_iff in Hnil as [Hnil|(H1 & H2 & H3)]; [congruence|].
        destruct Hhit as [Hh|[Hh|Hh]]; congruence.
      * apply app_eq_nil in Hnil as [_ Hnil]. revert Hnil. apply IH.
        exists c'. auto.
Qed.

(* ===================================================================== *)
(** * Further properties of the patent model                              *)
(* ===================================================================== *)

Section UrlFacts.
Import PyStr Models.

Lemma startswith_cons_char (c d : ascii) (s : string) :
  startswith (String c s) (String d EmptyString) = Ascii.eqb d c.
Proof.
  unfold startswith. cbn [String.prefix].
  destruct (ascii_dec d c) as [->|Hne].
  - rewrite Ascii.eqb_refl. now destruct s.
  - symmetry. now apply Ascii.eqb_neq.
Qed.

Lemma contains_char_cons (c d : ascii) (s : string) :
  contains (String d EmptyString) (String c s)
  = Ascii.eqb d c || contains (String d EmptyString) s.
Proof. cbn [contains]. now rewrite startswith_cons_char. Qed.

Lemma contains_char_empty (d : ascii) : contains (String d EmptyString) EmptyString = false.
Proof. reflexivity. Qed.

Lemma replace_char_removes (d : ascii) (s : string) :
  contains (String d EmptyString) (replace_char d EmptyString s) = false.
Proof.
  induction s as [|c s IH]; [reflexivity|]. cbn [replace_char].
  destruct (Ascii.eqb c d) eqn:E.
  - exact IH.
  - rewrite contains_char_cons, IH, Ascii.eqb_sym, E. reflexivity.
Qed.

Lemma replace_char_absent (d : ascii) (s : string) :
  contains (String d EmptyString) s = false -> replace_char d EmptyString s = s.
Proof.
  induction s as [|c s IH]; [reflexivity|]. rewrite contains_char_cons.
  intros H. apply orb_false_elim in H as [H1 H2]. cbn [replace_char].
  rewrite Ascii.eqb_sym, H1, IH by exact H2. reflexivity.
Qed.

End UrlFacts.

(** X7.  The link built by [uspto_url] always ends in a document number
    that begins with the letter D and contains no comma; a patent number
    that already has this shape is used unchanged. *)
Theorem uspto_url_number_shape (p : Models.Patent) :
  exists num : string,
    Models.uspto_url p
      = ("https://image-ppubs.uspto.gov/dirsearch-public/print/downloadPdf/" +:+ num)%string /\
    PyStr.startswith num "D" = true /\
    PyStr.contains "," num = false /\
    (PyStr.contains "," (Models.patent_number p) = false ->
     PyStr.startswith (Models.patent_number p) "D" = true ->
     num = Models.patent_number p).
Proof.
  unfold Models.uspto_url. cbv zeta.
  set (n := PyStr.replace_char "," EmptyString (Models.patent_number p)).
  assert (Hn : PyStr.contains "," n = false) by apply replace_char_removes.
  destruct (PyStr.startswith n "D") eqn:E.
  - exists n. repeat split; auto.
    intros Hc _. subst n. now apply replace_char_absent.
  - exists ("D" +:+ n)%string. repeat split.
    + change ("D" +:+ n)%string with (String "D" n). now rewrite startswith_cons_char.
    + change ("D" +:+ n)%string with (String "D" n).
      now rewrite contains_char_cons, Hn.
    + intros Hc Hd. subst n. rewrite replace_char_absent in E by exact Hc. congruence.
Qed.

Lemma uspto_url_number_shape_witness :
  exists num : string,
    Models.uspto_url Samples.eyeglasses_frame
      = ("https://image-ppubs.uspto.gov/dirsearch-public/print/downloadPdf/" +:+ num)%string /\
    num = "D1012345"%string.
Proof.
  destruct (uspto_url_number_shape Samples.eyeglasses_frame) as (num & H1 & _ & _ & H4).
  exists num. split; [exact H1|]. apply H4; reflexivity.
Defined.

Section OrdinalFacts.
Import Calendar Models Properties.
Local Open Scope Z_scope.

Ltac unbool :=
  repeat match goal with
  | H : (_ && _)%bool = true |- _ => apply andb_prop in H; destruct H
  | H : (_ <=? _) = true |- _ => apply Z.leb_le in H
  | H : (_ <? _) = true |- _ => apply Z.ltb_lt in H
  | H : (_ =? _) = true |- _ => apply Z.eqb_eq in H
  | H : (_ <=? _) = false |- _ => apply Z.leb_gt in H
  | H : (_ <? _) = false |- _ => apply Z.ltb_ge in H
  | H : (_ =? _) = false |- _ => apply Z.eqb_neq in H
  end.

Lemma valid_in_range (d : date) : valid_date d = true -> in_range d.
Proof. intros H. apply valid_date_bounds in H. unfold in_range. lia. Qed.

Lemma days_before_year_succ (y : Z) :
  days_before_year (y + 1) = days_before_year y + 365 + (if isleap y then 1 else 0).
Proof.
  unfold days_before_year, isleap. cbv zeta.
  replace (y + 1 - 1) with y by lia.
  destruct (y mod 4 =? 0) eqn:E4, (y mod 100 =? 0) eqn:E100, (y mod 400 =? 0) eqn:E400;
    cbn [negb andb orb]; unbool;
    Z.to_euclidean_division_equations; lia.
Qed.

Lemma days_before_year_mono (y y' : Z) :
  y <= y' -> days_before_year y <= days_before_year y'.
Proof.
  intros H. replace y' with (y + (y' - y)) by lia.
  assert (Hn : 0 <= y' - y) by lia. revert Hn. generalize (y' - y).
  apply natlike_ind.
  - rewrite Z.add_0_r. lia.
  - intros x Hx IH. replace (y + Z.succ x) with (y + x + 1) by lia.
    rewrite days_before_year_succ. destruct (isleap (y + x)); lia.
Qed.

Lemma month_cases (m : Z) :
  1 <= m <= 12 ->
  m = 1 \/ m = 2 \/ m = 3 \/ m = 4 \/ m = 5 \/ m = 6 \/
  m = 7 \/ m = 8 \/ m = 9 \/ m = 10 \/ m = 11 \/ m = 12.
Proof. lia. Qed.

Lemma days_before_month_end (y m : Z) :
  1 <= m <= 12 ->
  0 <= days_before_month y m /\
  days_before_month y m + days_in_month y m
    <= 365 + (if isleap y then 1 else 0).
Proof.
  intros H. apply month_cases in H.
  unfold days_before_month, days_in_month.
  destruct (isleap y);
    repeat (destruct H as [->|H]; [cbn; lia|]); subst m; cbn; lia.
Qed.

Lemma days_before_month_next (y m m' : Z) :
  1 <= m -> m < m' -> m' <= 12 ->
  days_before_month y m + days_in_month y m <= days_before_month y m'.
Proof.
  intros H1 H2 H3.
  assert (Hm : 1 <= m <= 12) by lia. assert (Hm' : 1 <= m' <= 12) by lia.
  apply month_cases in Hm. apply month_cases in Hm'.
  unfold days_before_month, days_in_month.
  destruct (isleap y);
    repeat (destruct Hm as [->|Hm]);
    try subst m;
    repeat (destruct Hm' as [->|Hm']);
    try subst m'; try lia; cbn; lia.
Qed.

Lemma toordinal_lt (a b : date) :
  in_range a -> in_range b -> date_ltb a b = true -> toordinal a < toordinal b.
Proof.
  intros (Ma & Da) (Mb & Db) H. unfold toordinal. unfold date_ltb in H.
  destruct (year a <? year b) eqn:E1.
  - unbool. clear H.
    pose proof (days_before_month_end (year a) (month a) Ma) as [_ Ha].
    pose proof (days_before_month_end (year b) (month b) Mb) as [Hb _].
    pose proof (days_before_year_succ (year a)) as Hs.
    pose proof (days_before_year_mono (year a + 1) (year b)) as Hmono.
    lia.
  - cbn [orb] in H. unbool.
    match goal with H : year a = year b |- _ => rename H into Hy end.
    destruct (month a <? month b) eqn:E2.
    + unbool.
      pose proof (days_before_month_next (year a) (month a) (month b)) as Hn.
      rewrite <- Hy in *. lia.
    + match goal with H : (_ || _)%bool = true |- _ => cbn [orb] in H end.
      unbool. rewrite <- Hy.
      match goal with H : month a = month b |- _ => rewrite <- H end. lia.
Qed.

Lemma date_ltb_total (a b : date) :
  date_ltb a b = false -> date_ltb b a = false -> a = b.
Proof.
  unfold date_ltb. intros H1 H2. destruct a as [ya ma da], b as [yb mb db].
  cbn [year month day] in *.
  destruct (ya <? yb) eqn:E1; [discriminate|].
  destruct (yb <? ya) eqn:E2; [discriminate|].
  cbn [orb] in *. unbool. assert (ya = yb) by lia. subst yb.
  rewrite Z.eqb_refl in *. cbn [andb] in *.
  destruct (ma <? mb) eqn:E3; [discriminate|].
  destruct (mb <? ma) eqn:E4; [discriminate|].
  cbn [orb] in *. unbool. assert (ma = mb) by lia. subst mb.
  rewrite Z.eqb_refl in *. cbn [andb] in *. unbool.
  f_equal. lia.
Qed.

Lemma toordinal_le (a b : date) :
  in_range a -> in_range b -> date_ltb b a = false -> toordinal a <= toordinal b.
Proof.
  intros Ha Hb H. destruct (date_ltb a b) eqn:E.
  - pose proof (toordinal_lt a b Ha Hb E). lia.
  - rewrite (date_ltb_total a b E H). lia.
Qed.

(** The months set by [_set_months] have the sign of the count and stay
    below twelve. *)
Lemma set_months_fields (m : Z) :
  let rd := _set_months zero_delta m in
  days rd = 0 /\ -11 <= months rd <= 11 /\
  (m <= 0 -> months rd <= 0) /\
  (0 <= m -> 0 <= months rd) /\
  (-11 <= m <= 11 -> years rd = 0 /\ months rd = m).
Proof.
  unfold _set_months, zero_delta. cbv zeta.
  destruct (11 <? Z.abs m) eqn:E; cbn [years months days]; unbool.
  - destruct (Z.sgn_spec m) as [[H1 ->]|[[H1 ->]|[H1 ->]]];
      Z.to_euclidean_division_equations; lia.
  - lia.
Qed.

Lemma date_add_months_in_range (d : date) (m : Z) :
  in_range d -> in_range (date_add d (_set_months zero_delta m)).
Proof.
  intros (Hm & Hd).
  destruct (set_months_fields m) as (H0 & Hb & _).
  unfold date_add. rewrite H0. cbn [Z.eqb].
  set (rd := _set_months zero_delta m) in *.
  destruct (months rd =? 0) eqn:E0.
  - unfold in_range. cbn [year month day].
    pose proof (days_in_month_bounds (year d + years rd) (month d)). lia.
  - destruct (12 <? month d + months rd) eqn:E1;
      [|destruct (month d + months rd <? 1) eqn:E2];
      unfold in_range; cbn [year month day]; unbool;
      match goal with |- context [days_in_month ?y ?k] =>
        pose proof (days_in_month_bounds y k) end; lia.
Qed.

(** Where the correction loop stops: counting down from a non-negative
    count it stops at a count between zero and the start, on which the
    shifted date does not pass [dt1]. *)
Lemma adjust_months_down_stop (dt1 dt2 : date) :
  forall fuel m k, 0 <= m ->
  date_ltb dt1 dt2 = false -> valid_date dt2 = true ->
  adjust_months fuel dt1 dt2 date_ltb (-1) m = Some k ->
  0 <= k <= m /\
  date_ltb dt1 (date_add dt2 (_set_months zero_delta k)) = false.
Proof.
  induction fuel as [|fuel IH]; intros m k Hm Hlt Hv; rewrite adjust_months_eq;
    fold zero_delta;
    destruct (date_ltb dt1 (date_add dt2 (_set_months zero_delta m))) eqn:E;
    try discriminate.
  - intros [= <-]. split; [lia | exact E].
  - intros H. destruct (Z.eq_dec m 0) as [->|Hne].
    { unfold zero_delta in E. rewrite set_months_zero, date_add_zero in E by exact Hv.
      congruence. }
    apply IH in H; [|lia|exact Hlt|exact Hv]. split; [lia | tauto].
  - intros [= <-]. split; [lia | exact E].
Qed.

(** ... and counting up from a non-positive count. *)
Lemma adjust_months_up_stop (dt1 dt2 : date) :
  forall fuel m k, m <= 0 ->
  date_ltb dt1 dt2 = true -> valid_date dt2 = true ->
  adjust_months fuel dt1 dt2 date_gtb 1 m = Some k ->
  m <= k <= 0 /\
  date_gtb dt1 (date_add dt2 (_set_months zero_delta k)) = false.
Proof.
  induction fuel as [|fuel IH]; intros m k Hm Hlt Hv; rewrite adjust_months_eq;
    fold zero_delta;
    destruct (date_gtb dt1 (date_add dt2 (_set_months zero_delta m))) eqn:E;
    try discriminate.
  - intros [= <-]. split; [lia | exact E].
  - intros H. destruct (Z.eq_dec m 0) as [->|Hne].
    { unfold zero_delta in E. rewrite set_months_zero, date_add_zero in E by exact Hv.
      unfold date_gtb in E. rewrite (date_ltb_asym _ _ Hlt) in E. discriminate. }
    apply IH in H; [|lia|exact Hlt|exact Hv]. split; [lia | tauto].
  - intros [= <-]. split; [lia | exact E].
Qed.

Lemma month_index_lt (a b : date) :
  in_range a -> in_range b -> date_ltb a b = true ->
  year a * 12 + month a <= year b * 12 + month b.
Proof.
  intros (Ma & _) (Mb & _). unfold date_ltb. intros H.
  destruct (year a <? year b) eqn:E1; [unbool; lia|].
  cbn [orb] in H. unbool.
  destruct (month a <? month b) eqn:E2; [unbool; lia|].
  match goal with H : (_ || _)%bool = true |- _ => cbn [orb] in H end.
  unbool. lia.
Qed.

Lemma month_index_ge (a b : date) :
  in_range a -> in_range b -> date_ltb a b = false ->
  year b * 12 + month b <= year a * 12 + month a.
Proof.
  intros Ha Hb H. destruct (date_ltb b a) eqn:E.
  - now apply month_index_lt.
  - rewrite (date_ltb_total a b H E). lia.
Qed.

(** The difference of two dates when the first is not later than the
    second: no field is positive. *)
Lemma relativedelta_between_past (dt1 dt2 : date) :
  in_range dt1 -> valid_date dt2 = true -> date_ltb dt2 dt1 = false ->
  exists rd, relativedelta_between dt1 dt2 = Some rd /\
             months rd <= 0 /\ days rd <= 0.
Proof.
  intros R1 V2 Hle. pose proof (valid_in_range _ V2) as R2.
  destruct (date_ltb dt1 dt2) eqn:E.
  - unfold relativedelta_between. rewrite E.
    set (m0 := (year dt1 - year dt2) * 12 + (month dt1 - month dt2)).
    assert (Hm : m0 <= 0).
    { pose proof (month_index_lt _ _ R1 R2 E). subst m0. lia. }
    destruct (adjust_months_up dt1 dt2 V2 E (S (Z.to_nat (Z.abs m0))) m0 Hm) as [k Hk];
      [lia|]. rewrite Hk.
    destruct (adjust_months_up_stop _ _ _ _ _ Hm E V2 Hk) as (Hb & Hstop).
    fold zero_delta. eexists. split; [reflexivity|]. cbn [months days].
    destruct (set_months_fields k) as (_ & _ & Hneg & _).
    split; [apply Hneg; lia|].
    pose proof (date_add_months_in_range dt2 k R2) as Rm.
    unfold date_gtb in Hstop.
    pose proof (toordinal_le _ _ R1 Rm Hstop). lia.
  - pose proof (date_ltb_total _ _ E Hle) as Heq. subst dt1.
    unfold relativedelta_between. rewrite E.
    replace ((year dt2 - year dt2) * 12 + (month dt2 - month dt2)) with 0 by lia.
    rewrite adjust_months_eq, set_months_zero, date_add_zero, E by exact V2.
    rewrite set_months_zero, date_add_zero by exact V2.
    eexists. split; [reflexivity|]. cbn [months days]. lia.
Qed.

(** The difference when the first date is later by at most eleven months
    on the calendar: no years, and a positive amount of months and days. *)
Lemma relativedelta_between_ahead (dt1 dt2 : date) :
  in_range dt1 -> valid_date dt2 = true -> date_ltb dt2 dt1 = true ->
  (year dt1 * 12 + month dt1) - (year dt2 * 12 + month dt2) <= 11 ->
  exists rd, relativedelta_between dt1 dt2 = Some rd /\
             years rd = 0 /\ 0 <= months rd /\ 0 <= days rd /\
             0 < months rd + days rd.
Proof.
  intros R1 V2 Hlt Hidx. pose proof (valid_in_range _ V2) as R2.
  pose proof (date_ltb_asym _ _ Hlt) as E.
  unfold relativedelta_between. rewrite E.
  set (m0 := (year dt1 - year dt2) * 12 + (month dt1 - month dt2)).
  assert (Hm : 0 <= m0).
  { pose proof (month_index_lt _ _ R2 R1 Hlt). subst m0. lia. }
  destruct (adjust_months_down dt1 dt2 V2 E (S (Z.to_nat (Z.abs m0))) m0 Hm) as [k Hk];
    [lia|]. rewrite Hk.
  destruct (adjust_months_down_stop _ _ _ _ _ Hm E V2 Hk) as (Hb & Hstop).
  fold zero_delta. eexists. split; [reflexivity|]. cbn [years months days].
  destruct (set_months_fields k) as (_ & _ & _ & _ & Hsmall).
  destruct Hsmall as [Hy Hmo]; [subst m0; lia|].
  rewrite Hy, Hmo.
  pose proof (date_add_months_in_range dt2 k R2) as Rm.
  pose proof (toordinal_le _ _ Rm R1 Hstop) as Hd.
  repeat split; try lia.
  destruct (Z.eq_dec k 0) as [->|Hk0]; [|lia].
  unfold zero_delta. rewrite set_months_zero, date_add_zero by exact V2.
  pose proof (toordinal_lt _ _ R2 R1 Hlt). lia.
Qed.

Lemma pgr_deadline_in_range (p : Patent) :
  valid_date (issue_date p) = true ->
  in_range (pgr_deadline p) /\
  year (pgr_deadline p) * 12 + month (pgr_deadline p)
    = year (issue_date p) * 12 + month (issue_date p) + 9.
Proof.
  intros H. apply valid_date_bounds in H.
  destruct (add_nine_months (issue_date p)) as (H1 & H2 & _ & H4); [lia | lia |].
  unfold in_range, pgr_deadline. split; [split; assumption | exact H1].
Qed.

Lemma months_value_sign (m d : Z) :
  (m <= 0 -> d <= 0 -> (inject_Z m + inject_Z d / 30 <= 0)%Q) /\
  (0 <= m -> 0 <= d -> 0 < m + d -> (0 < inject_Z m + inject_Z d / 30)%Q).
Proof.
  split.
  - intros Hm Hd.
    assert (inject_Z m <= 0)%Q by (change 0%Q with (inject_Z 0); now rewrite <- Zle_Qle).
    assert (inject_Z d <= 0)%Q by (change 0%Q with (inject_Z 0); now rewrite <- Zle_Qle).
    unfold Qdiv. change (/ 30)%Q with (1 # 30)%Q. lra.
  - intros Hm Hd Hs.
    assert (0 <= inject_Z m)%Q by (change 0%Q with (inject_Z 0); now rewrite <- Zle_Qle).
    assert (0 <= inject_Z d)%Q by (change 0%Q with (inject_Z 0); now rewrite <- Zle_Qle).
    assert (0 < inject_Z m + inject_Z d)%Q.
    { rewrite <- inject_Z_plus. change 0%Q with (inject_Z 0). now rewrite <- Zlt_Qlt. }
    unfold Qdiv. change (/ 30)%Q with (1 # 30)%Q.
    assert (Hz : (inject_Z d == 0 \/ 0 < inject_Z d)%Q).
    { destruct (Z.eq_dec d 0) as [->|Hne]; [left; reflexivity|].
      right. change 0%Q with (inject_Z 0). rewrite <- Zlt_Qlt. lia. }
    destruct Hz as [Hz|Hz]; [rewrite Hz in *|]; lra.
Qed.

End OrdinalFacts.

(** X8.  Once the deadline is reached the patent is expired: for every
    valid issue date and every day that is not before the PGR deadline
    (the deadline day included), [pgr_months_remaining] is at most zero and
    [urgency] is "expired". *)
Theorem urgency_expired_from_deadline (p : Models.Patent) (today : Calendar.date) :
  Calendar.valid_date (Models.issue_date p) = true ->
  Calendar.valid_date today = true ->
  Calendar.date_ltb today (Models.pgr_deadline p) = false ->
  (exists q, Models.pgr_months_remaining p today = Some q /\ (q <= 0)%Q) /\
  Models.urgency p today = Some "expired"%string.
Proof.
  intros Hi Ht Hle.
  destruct (pgr_deadline_in_range p Hi) as (R & _).
  destruct (relativedelta_between_past _ _ R Ht Hle) as (rd & Hrd & Hm & Hd).
  assert (Hq : (inject_Z (Calendar.months rd) + inject_Z (Calendar.days rd) / 30 <= 0)%Q).
  { now apply months_value_sign. }
  unfold Models.urgency, Models.pgr_months_remaining. rewrite Hrd. split.
  - eexists. split; [reflexivity | exact Hq].
  - f_equal. now apply urgency_of_buckets.
Qed.

Lemma urgency_expired_from_deadline_witness :
  Models.urgency
    (Samples.make_patent "D1012345" "Eyeglasses Frame" (Samples.mkdate 2026 1 15)
                         EmptyString)
    (Samples.mkdate 2026 10 15) = Some "expired"%string.
Proof.
  apply (urgency_expired_from_deadline
           (Samples.make_patent "D1012345" "Eyeglasses Frame"
                                (Samples.mkdate 2026 1 15) EmptyString)
           (Samples.mkdate 2026 10 15)); reflexivity.
Defined.

(** X9.  Inside the review window the patent is never expired: for every
    valid issue date and every day from the issue date up to the day
    before the PGR deadline, [pgr_months_remaining] is positive, it is the
    full month distance (the difference has no whole years to drop), and
    [urgency] is one of "high", "medium" and "low". *)
Theorem urgency_live_inside_window (p : Models.Patent) (today : Calendar.date) :
  Calendar.valid_date (Models.issue_date p) = true ->
  Calendar.valid_date today = true ->
  Calendar.date_ltb today (Models.issue_date p) = false ->
  Calendar.date_ltb today (Models.pgr_deadline p) = true ->
  exists q,
    Models.pgr_months_remaining p today = Some q /\ (0 < q)%Q /\
    Models.spec_months_remaining p today = Some q /\
    Models.urgency p today = Some (Models.urgency_of q) /\
    In (Models.urgency_of q) ["high"; "medium"; "low"]%string.
Proof.
  intros Hi Ht Hge Hlt.
  destruct (pgr_deadline_in_range p Hi) as (R & Hidx).
  pose proof (month_index_ge _ _ (valid_in_range _ Ht) (valid_in_range _ Hi) Hge) as Hix.
  destruct (relativedelta_between_ahead _ _ R Ht Hlt) as (rd & Hrd & Hy & Hm & Hd & Hpos);
    [lia|].
  assert (Hq : (0 < inject_Z (Calendar.months rd) + inject_Z (Calendar.days rd) / 30)%Q).
  { now apply months_value_sign. }
  unfold Models.urgency, Models.pgr_months_remaining, Models.spec_months_remaining.
  rewrite Hrd. eexists. split; [reflexivity|]. split; [exact Hq|].
  split; [rewrite Hy; reflexivity|]. split; [reflexivity|].
  set (q := (inject_Z (Calendar.months rd) + inject_Z (Calendar.days rd) / 30)%Q) in *.
  destruct (urgency_of_buckets q) as (_ & Hh & Hmed & Hl).
  destruct (Qlt_le_dec q 3) as [H3|H3]; [rewrite (Hh Hq H3); cbn; tauto|].
  destruct (Qlt_le_dec q 6) as [H6|H6]; [rewrite (Hmed H3 H6); cbn; tauto|].
  rewrite (Hl H6); cbn; tauto.
Qed.

Lemma urgency_live_inside_window_witness :
  exists q,
    Models.pgr_months_remaining
      (Samples.make_patent "D1012345" "Eyeglasses Frame" (Samples.mkdate 2026 1 15)
                           EmptyString)
      (Samples.mkdate 2026 8 15) = Some q /\ (0 < q)%Q.
Proof.
  destruct (urgency_live_inside_window
              (Samples.make_patent "D1012345" "Eyeglasses Frame"
                                   (Samples.mkdate 2026 1 15) EmptyString)
              (Samples.mkdate 2026 8 15)) as (q & H1 & H2 & _);
    [reflexivity | reflexivity | reflexivity | reflexivity |].
  exists q. split; assumption.
Defined.

(* ===================================================================== *)
(** * Further properties of the tracking store                            *)
(* ===================================================================== *)

Section StoreKeyFacts.
Import PyStr Calendar Models Db Properties.

Lemma col_is_true (row : Row) (col s : string) :
  col_is row col s = true <-> row !! col = Some (SqlText s).
Proof.
  unfold col_is. destruct (row !! col) as [[| | |t]|]; try (split; discriminate).
  rewrite String.eqb_eq. split; [now intros -> | now intros [= ->]].
Qed.

Lemma col_is_text (row : Row) (col s t : string) :
  row !! col = Some (SqlText t) -> col_is row col s = String.eqb t s.
Proof. intros H. unfold col_is. now rewrite H. Qed.

Lemma exists_in_numbers (rows : list Row) (pn : string) :
  (forall row, In row rows -> exists t, row !! "patent_number" = Some (SqlText t)) ->
  existsb (fun row => col_is row "patent_number" pn) rows = true <->
  In pn (map (fun row => text_of (row !! "patent_number")) rows).
Proof.
  intros Htext. rewrite existsb_exists, in_map_iff. split.
  - intros (row & Hin & Hc). exists row. split; [|exact Hin].
    apply col_is_true in Hc. now rewrite Hc.
  - intros (row & Ht & Hin). exists row. split; [exact Hin|].
    destruct (Htext row Hin) as [t Hrow]. apply col_is_true.
    rewrite Hrow in Ht. cbn [text_of] in Ht. now subst t.
Qed.

Lemma patent_exists_numbers (db : Database) (pn : string) :
  keyed db -> patent_exists db pn = true <-> In pn (patent_numbers db).
Proof. intros [_ H]. now apply exists_in_numbers. Qed.

Lemma numbers_update (db : Database) (pn col : string) (v : SqlValue) :
  col <> "patent_number"%string ->
  patent_numbers (update_patents db pn col v) = patent_numbers db.
Proof.
  intros Hne. unfold patent_numbers, update_patents. cbn [patents].
  rewrite map_map. apply map_ext. intros row.
  destruct (col_is row "patent_number" pn); [|reflexivity].
  now rewrite lookup_insert_ne by exact Hne.
Qed.

Lemma keyed_update (db : Database) (pn col : string) (v : SqlValue) :
  col <> "patent_number"%string -> keyed db -> keyed (update_patents db pn col v).
Proof.
  intros Hne [Hnd Htext]. split; [now rewrite numbers_update|].
  unfold update_patents. cbn [patents]. intros row Hin.
  apply in_map_iff in Hin as (r & <- & Hr). destruct (Htext r Hr) as [t Ht].
  exists t. destruct (col_is r "patent_number" pn); [|exact Ht].
  now rewrite lookup_insert_ne by exact Hne.
Qed.

Lemma keyed_insert (db : Database) (p : Patent) (mc : option (list string)) :
  keyed db -> keyed (snd (insert_patent db p mc)).
Proof.
  intros Hk. unfold insert_patent.
  destruct (patent_exists db (patent_number p)) eqn:E; cbn [snd]; [exact Hk|].
  destruct Hk as [Hnd Htext]. split.
  - unfold patent_numbers in *. cbn [patents]. rewrite map_app. cbn [map].
    rewrite patent_row_lookup_number. cbn [text_of].
    apply NoDup_app. split; [exact Hnd|]. split; [|apply NoDup_singleton].
    intros x Hx Hx'. apply list_elem_of_singleton in Hx'. subst x.
    apply list_elem_of_In in Hx.
    apply (exists_in_numbers _ _ Htext) in Hx.
    unfold patent_exists in E. congruence.
  - cbn [patents]. intros row Hin. apply in_app_or in Hin as [Hin|[<-|[]]].
    + now apply Htext.
    + eexists. apply patent_row_lookup_number.
Qed.

Lemma keyed_apply_op (db : Database) (op : StoreOp) : keyed db -> keyed (apply_op db op).
Proof.
  intros Hk. destruct op as [p mc| | | | |]; cbn [apply_op].
  - now apply keyed_insert.
  - now apply keyed_update.
  - now apply keyed_update.
  - now apply keyed_update.
  - exact Hk.
  - exact Hk.
Qed.

Lemma keyed_apply_ops (ops : list StoreOp) (db : Database) :
  keyed db -> keyed (apply_ops db ops).
Proof.
  revert db. induction ops as [|op ops IH]; intros db Hk; [exact Hk|].
  apply IH, keyed_apply_op, Hk.
Qed.

Lemma keyed_empty : keyed empty_db.
Proof. split; [constructor | intros row []]. Qed.

(** [find] through an update that keeps the key of every row. *)
Lemma find_update_same (rows : list Row) (pn col : string) (v : SqlValue) :
  col <> "patent_number"%string ->
  List.find (fun row => col_is row "patent_number" pn)
            (map (fun row => if col_is row "patent_number" pn
                             then <[col := v]> row else row) rows)
  = (<[col := v]> <$> List.find (fun row => col_is row "patent_number" pn) rows).
Proof.
  intros Hne. induction rows as [|row rows IH]; [reflexivity|].
  cbn [map List.find].
  destruct (col_is row "patent_number" pn) eqn:E.
  - rewrite col_is_insert_other, E by exact Hne. reflexivity.
  - rewrite E. exact IH.
Qed.

Lemma find_update_other (rows : list Row) (pn s col : string) (v : SqlValue) :
  col <> "patent_number"%string -> s <> pn ->
  List.find (fun row => col_is row "patent_number" s)
            (map (fun row => if col_is row "patent_number" pn
                             then <[col := v]> row else row) rows)
  = List.find (fun row => col_is row "patent_number" s) rows.
Proof.
  intros Hne Hs. induction rows as [|row rows IH]; [reflexivity|].
  cbn [map List.find].
  destruct (col_is row "patent_number" pn) eqn:E.
  - rewrite col_is_insert_other by exact Hne.
    destruct (col_is row "patent_number" s) eqn:F; [|exact IH].
    apply col_is_true in E, F. congruence.
  - destruct (col_is row "patent_number" s); [reflexivity | exact IH].
Qed.

Lemma map_update_absent (rows : list Row) (pn col : string) (v : SqlValue) :
  existsb (fun row => col_is row "patent_number" pn) rows = false ->
  map (fun row => if col_is row "patent_number" pn then <[col := v]> row else row) rows
  = rows.
Proof.
  induction rows as [|row rows IH]; [reflexivity|]. cbn [existsb map].
  intros H. apply orb_false_elim in H as [H1 H2]. now rewrite H1, IH.
Qed.

Lemma update_patents_only (db : Database) (pn col : string) (v : SqlValue) :
  col <> "patent_number"%string ->
  updates_only db (update_patents db pn col v) pn col v.
Proof.
  intros Hne. unfold updates_only. repeat split.
  - unfold get_patent_count, update_patents. cbn [patents]. now rewrite length_map.
  - intros s. now apply patent_exists_update.
  - unfold get_patent_row, update_patents. cbn [patents]. now apply find_update_same.
  - intros s Hs. unfold get_patent_row, update_patents. cbn [patents].
    now apply find_update_other.
  - intros H. unfold update_patents. unfold patent_exists in H.
    rewrite map_update_absent by exact H. now destruct db.
Qed.

Lemma filter_find_head {A} (f : A -> bool) (l : list A) :
  match List.filter f l with x :: _ => Some x | [] => None end = List.find f l.
Proof.
  induction l as [|a l IH]; [reflexivity|]. cbn [List.filter List.find].
  destruct (f a); [reflexivity | exact IH].
Qed.

Lemma get_ai_analysis_row (db : Database) (pn : string) :
  get_ai_analysis db pn = (get_patent_row db pn ≫= fun row => row !! "ai_analysis").
Proof.
  unfold get_ai_analysis, get_patent_row. rewrite <- filter_find_head.
  destruct (List.filter _ _); reflexivity.
Qed.

Lemma find_some_exists {A} (f : A -> bool) (l : list A) :
  existsb f l = true -> exists x, List.find f l = Some x /\ f x = true.
Proof.
  induction l as [|a l IH]; [discriminate|]. cbn [existsb List.find].
  destruct (f a) eqn:E; [eauto | exact IH].
Qed.

Lemma find_none_exists {A} (f : A -> bool) (l : list A) :
  existsb f l = false -> List.find f l = None.
Proof.
  induction l as [|a l IH]; [reflexivity|]. cbn [existsb List.find].
  destruct (f a); [discriminate | exact IH].
Qed.

Lemma ai_analysis_stored (db : Database) (pn js : string) :
  patent_exists db pn = true ->
  get_ai_analysis (update_ai_analysis db pn js) pn = Some (SqlText js).
Proof.
  intros H.
  destruct (update_patents_only db pn "ai_analysis" (SqlText js))
    as (_ & _ & _ & _ & Hsame & _); [discriminate|].
  fold (update_ai_analysis db pn js) in Hsame.
  rewrite get_ai_analysis_row, Hsame. unfold get_patent_row.
  destruct (find_some_exists _ _ H) as (row & -> & _).
  cbn [fmap option_fmap option_map mbind option_bind].
  now rewrite lookup_insert_eq.
Qed.

Lemma ai_analysis_other (db : Database) (pn js s : string) :
  s <> pn ->
  get_ai_analysis (update_ai_analysis db pn js) s = get_ai_analysis db s.
Proof.
  intros Hs.
  destruct (update_patents_only db pn "ai_analysis" (SqlText js))
    as (_ & _ & _ & _ & _ & Hother & _); [discriminate|].
  fold (update_ai_analysis db pn js) in Hother.
  now rewrite !get_ai_analysis_row, Hother.
Qed.

End StoreKeyFacts.

(** X10.  The patent number is a key of the store.  In every store reached
    from the empty one by the write operations, each row has a text in its
    [patent_number] column, no two rows have the same number, a number is
    found by [patent_exists] exactly when it is among them, and
    [get_patent_count] is the number of distinct patent numbers. *)
Theorem stored_patent_numbers_unique (ops : list Db.StoreOp) :
  let db := Db.apply_ops Db.empty_db ops in
  NoDup (Properties.patent_numbers db) /\
  (forall row, In row (Db.patents db) ->
     exists pn, row !! "patent_number" = Some (Db.SqlText pn)) /\
  (forall pn, Db.patent_exists db pn = true <-> In pn (Properties.patent_numbers db)) /\
  Db.get_patent_count db = Z.of_nat (List.length (Properties.patent_numbers db)).
Proof.
  cbv zeta. pose proof (keyed_apply_ops ops _ keyed_empty) as Hk.
  split; [apply Hk|]. split; [apply Hk|]. split.
  - intros pn. now apply patent_exists_numbers.
  - unfold Db.get_patent_count, Properties.patent_numbers. now rewrite length_map.
Qed.

(** X11.  The three updates keyed by patent number are targeted.
    [update_patent_status], [mark_notified] and [update_ai_analysis] set
    one column of the row of the given number and change nothing else: the
    count, the set of tracked numbers, the rows of the other numbers and
    the two logs stay as they were, and an update for a number that is not
    tracked leaves the store unchanged. *)
Theorem keyed_updates_are_targeted (db : Db.Database) (pn : string) :
  (forall status,
     Properties.updates_only db (Db.update_patent_status db pn status)
                             pn "status" (Db.SqlText status)) /\
  (forall now,
     Properties.updates_only db (Db.mark_notified db now pn)
                             pn "notified_at"
                             (Db.SqlText (Calendar.datetime_isoformat now))) /\
  (forall analysis_json,
     Properties.updates_only db (Db.update_ai_analysis db pn analysis_json)
                             pn "ai_analysis" (Db.SqlText analysis_json)).
Proof.
  split; [|split]; intros; apply update_patents_only; discriminate.
Qed.

(** X12.  Storing and reading back an analysis.  After
    [update_ai_analysis] for a tracked number, [get_ai_analysis] for that
    number returns the stored text; for a number that is not tracked it
    still finds no row; the analyses of the other numbers are unchanged;
    and a freshly inserted patent has a NULL analysis. *)
Theorem ai_analysis_round_trip (db : Db.Database) (pn analysis_json : string) :
  (Db.patent_exists db pn = true ->
   Db.get_ai_analysis (Db.update_ai_analysis db pn analysis_json) pn
     = Some (Db.SqlText analysis_json)) /\
  (Db.patent_exists db pn = false ->
   Db.get_ai_analysis (Db.update_ai_analysis db pn analysis_json) pn = None) /\
  (forall s, s <> pn ->
     Db.get_ai_analysis (Db.update_ai_analysis db pn analysis_json) s
       = Db.get_ai_analysis db s) /\
  (forall p mc,
     Db.patent_exists db (Models.patent_number p) = false ->
     Db.get_ai_analysis (snd (Db.insert_patent db p mc)) (Models.patent_number p)
       = Some Db.SqlNull).
Proof.
  destruct (update_patents_only db pn "ai_analysis" (Db.SqlText analysis_json))
    as (_ & _ & _ & _ & Hsame & Hother & _); [discriminate|].
  fold (Db.update_ai_analysis db pn analysis_json) in Hsame, Hother.
  rewrite !get_ai_analysis_row. repeat split.
  - intros H. rewrite Hsame. unfold Db.get_patent_row.
    destruct (find_some_exists _ _ H) as (row & -> & _).
    cbn [fmap option_fmap option_map mbind option_bind].
    now rewrite lookup_insert_eq.
  - intros H. rewrite Hsame. unfold Db.get_patent_row.
    now rewrite (find_none_exists _ _ H).
  - intros s Hs. now rewrite !get_ai_analysis_row, Hother.
  - intros p mc H. rewrite get_ai_analysis_row.
    unfold Db.get_patent_row, Db.insert_patent. rewrite H. cbn [snd Db.patents].
    rewrite find_app_last; [| exact H | now rewrite patent_row_number, String.eqb_refl].
    cbn [mbind option_bind]. unfold Db.patent_row.
    repeat match goal with
    | |- context [@pair string Db.SqlValue ?k ?v] =>
        progress (tryif is_var v then fail
                  else (let x := fresh "v" in generalize v; intro x))
    end.
    vm_compute. reflexivity.
Qed.

Lemma ai_analysis_round_trip_witness :
  Db.get_ai_analysis
    (Db.update_ai_analysis (snd (Db.insert_patent Db.empty_db Samples.eyeglasses_frame None))
                           "D1012345" "{}")
    "D1012345"
  = Some (Db.SqlText "{}").
Proof.
  apply (ai_analysis_round_trip
           (snd (Db.insert_patent Db.empty_db Samples.eyeglasses_frame None))
           "D1012345" "{}").
  vm_compute. reflexivity.
Defined.

Section RunDateFacts.
Import PyStr Calendar Models Db Service Statements Properties.

Lemma search_run_row_selected (id : Z) (run : SearchRun) (src : string) :
  col_is (search_run_row id run) "source" src && is_null (search_run_row id run !! "error")
  = String.eqb (source run) src
    && match run_error run with None => true | Some _ => false end.
Proof.
  destruct (search_run_row_fields id run) as (Hs & He & _).
  unfold col_is. rewrite Hs, He. destruct (run_error run); reflexivity.
Qed.

Lemma get_last_run_date_log (db : Database) (run : SearchRun) (src : string) :
  String.eqb (source run) src
    && match run_error run with None => true | Some _ => false end = false ->
  get_last_run_date (log_search_run db run) src = get_last_run_date db src.
Proof.
  intros H. unfold get_last_run_date, log_search_run. cbn [search_runs].
  rewrite List.filter_app. cbn [List.filter].
  rewrite search_run_row_selected, H, app_nil_r. reflexivity.
Qed.

Lemma get_last_run_date_patents (db db' : Database) (src : string) :
  search_runs db' = search_runs db ->
  get_last_run_date db' src = get_last_run_date db src.
Proof. intros H. unfold get_last_run_date. now rewrite H. Qed.

Lemma count_insert (db : Database) (p : Patent) (mc : option (list string)) :
  get_patent_count (snd (insert_patent db p mc))
  = (get_patent_count db + (if fst (insert_patent db p mc) then 1 else 0))%Z.
Proof.
  unfold insert_patent, get_patent_count.
  destruct (patent_exists db (patent_number p)); cbn [fst snd patents]; [lia|].
  rewrite length_app. cbn [List.length]. lia.
Qed.

Lemma count_apply_op (db : Database) (op : StoreOp) :
  (get_patent_count db <= get_patent_count (apply_op db op) <= get_patent_count db + 1)%Z.
Proof.
  destruct op as [p mc| | | | |]; cbn [apply_op].
  - rewrite count_insert. destruct (fst (insert_patent db p mc)); lia.
  - unfold update_patent_status, update_patents, get_patent_count. cbn [patents].
    rewrite length_map. lia.
  - unfold mark_notified, update_patents, get_patent_count. cbn [patents].
    rewrite length_map. lia.
  - unfold update_ai_analysis, update_patents, get_patent_count. cbn [patents].
    rewrite length_map. lia.
  - unfold log_search_run, get_patent_count. cbn [patents]. lia.
  - unfold log_notification, get_patent_count. cbn [patents]. lia.
Qed.

Lemma count_apply_ops (ops : list StoreOp) (db : Database) :
  (get_patent_count db <= get_patent_count (apply_ops db ops)
   <= get_patent_count db + Z.of_nat (List.length ops))%Z.
Proof.
  revert db. induction ops as [|op ops IH]; intros db; cbn [apply_ops fold_left List.length].
  - lia.
  - fold (apply_ops (apply_op db op) ops).
    pose proof (IH (apply_op db op)). pose proof (count_apply_op db op). lia.
Qed.

End RunDateFacts.

(** X13.  Only a successful run of the same source moves the start of the
    next window.  Logging a run that failed (its error is set, even to the
    empty text) or that belongs to another source leaves the answer of
    [get_last_run_date] unchanged. *)
Theorem failed_run_keeps_last_run_date (db : Db.Database) (run : Models.SearchRun)
    (src : string) :
  Models.run_error run <> None \/ Models.source run <> src ->
  Db.get_last_run_date (Db.log_search_run db run) src = Db.get_last_run_date db src.
Proof.
  intros H. apply get_last_run_date_log.
  destruct H as [H|H].
  - destruct (Models.run_error run); [apply andb_false_r | congruence].
  - apply String.eqb_neq in H. now rewrite H.
Qed.

Lemma failed_run_keeps_last_run_date_witness :
  Db.get_last_run_date
    (Db.log_search_run (Db.log_search_run Db.empty_db Samples.sample_run)
       {| Models.run_at := Samples.midnight (Samples.mkdate 2026 2 24);
          Models.source := "api"; Models.query_params := EmptyString;
          Models.results_count := 0; Models.new_matches_count := 0;
          Models.run_error := Some "API down"%string;
          Models.duration_seconds := 1%Q |}) "api"
  = Db.get_last_run_date (Db.log_search_run Db.empty_db Samples.sample_run) "api".
Proof.
  apply failed_run_keeps_last_run_date. left. discriminate.
Defined.

(** X14.  The store only grows.  No write operation removes a patent: a
    tracked number stays tracked through any sequence of operations, the
    count never decreases, each operation adds at most one patent, and an
    [insert_patent] adds one exactly when it returns True. *)
Theorem store_only_grows (db : Db.Database) (ops : list Db.StoreOp) :
  (forall pn, Db.patent_exists db pn = true ->
              Db.patent_exists (Db.apply_ops db ops) pn = true) /\
  (Db.get_patent_count db <= Db.get_patent_count (Db.apply_ops db ops)
   <= Db.get_patent_count db + Z.of_nat (List.length ops))%Z /\
  (forall p mc,
     Db.get_patent_count (snd (Db.insert_patent db p mc))
     = (Db.get_patent_count db + (if fst (Db.insert_patent db p mc) then 1 else 0))%Z).
Proof.
  split; [intros pn; apply patent_exists_apply_ops|].
  split; [apply count_apply_ops | apply count_insert].
Qed.

Lemma store_only_grows_witness :
  Db.patent_exists
    (Db.apply_ops (snd (Db.insert_patent Db.empty_db Samples.eyeglasses_frame None))
                  [Db.OpUpdatePatentStatus "D1012345" "dismissed";
                   Db.OpInsertPatent Samples.sunglasses None])
    "D1012345" = true.
Proof.
  apply (store_only_grows
           (snd (Db.insert_patent Db.empty_db Samples.eyeglasses_frame None))
           [Db.OpUpdatePatentStatus "D1012345" "dismissed";
            Db.OpInsertPatent Samples.sunglasses None]).
  vm_compute. reflexivity.
Defined.

(* ===================================================================== *)
(** * Further properties of the scan                                      *)
(* ===================================================================== *)

Section ScanAccounting.
Import PyStr Calendar Models Config Matcher Db Service Statements Properties.
Local Open Scope Z_scope.

Lemma patent_exists_insert (db : Database) (p : Patent) (mc : option (list string))
    (s : string) :
  patent_exists (snd (insert_patent db p mc)) s
  = patent_exists db s || String.eqb (patent_number p) s.
Proof.
  unfold insert_patent. destruct (patent_exists db (patent_number p)) eqn:E; cbn [snd].
  - destruct (String.eqb (patent_number p) s) eqn:F; [|now rewrite orb_false_r].
    apply String.eqb_eq in F. subst s. now rewrite E.
  - unfold patent_exists. cbn [patents]. rewrite existsb_app. cbn [existsb].
    now rewrite patent_row_number, orb_false_r.
Qed.

Lemma adds_nothing cl db : adds cl db db [].
Proof.
  unfold adds. cbn [List.length alert_numbers map]. repeat split.
  - lia.
  - constructor.
  - destruct H.
  - destruct H.
  - destruct H.
  - auto.
  - intros [H|[]]. exact H.
Qed.

Lemma adds_log cl db db' new run :
  adds cl db db' new -> adds cl db (log_search_run db' run) new.
Proof. intros H. exact H. Qed.

Lemma adds_from_log cl db db' new run :
  adds cl db db' new -> adds cl (log_search_run db run) db' new.
Proof. intros H. exact H. Qed.

Lemma adds_trans cl db db1 db2 n1 n2 :
  adds cl db db1 n1 -> adds cl db1 db2 n2 -> adds cl db db2 (n1 ++ n2).
Proof.
  intros (C1 & N1 & A1 & E1) (C2 & N2 & A2 & E2). unfold adds.
  unfold alert_numbers in *. rewrite map_app, length_app. repeat split.
  - lia.
  - apply NoDup_app. split; [exact N1|]. split; [|exact N2].
    intros s Hs1 Hs2. apply list_elem_of_In in Hs1, Hs2.
    apply in_map_iff in Hs2 as (a & <- & Ha).
    destruct (A2 a Ha) as (Hno & _).
    assert (patent_exists db1 (patent_number (alert_patent a)) = true)
      by (apply E1; now right).
    congruence.
  - apply in_app_or in H as [H|H]; [now apply A1|].
    destruct (A2 a H) as (Hno & _).
    destruct (patent_exists db (patent_number (alert_patent a))) eqn:E; [|reflexivity].
    assert (patent_exists db1 (patent_number (alert_patent a)) = true)
      by (apply E1; now left).
    congruence.
  - apply in_app_or in H as [H|H]; [now apply A1 | now apply A2].
  - apply in_app_or in H as [H|H]; [now apply A1 | now apply A2].
  - intros H. apply E2 in H as [H|H].
    + apply E1 in H as [H|H]; [now left | right; apply in_or_app; now left].
    + right. apply in_or_app. now right.
  - intros [H|H].
    + apply E2. left. apply E1. now left.
    + apply in_app_or in H as [H|H].
      * apply E2. left. apply E1. now right.
      * apply E2. now right.
Qed.

(** The loop of a source adds exactly the patents it alerts on. *)
Lemma scan_loop_adds cl ps : forall db acc,
  exists new,
    fst (scan_loop cl ps db acc) = acc ++ new /\
    adds cl db (snd (scan_loop cl ps db acc)) new.
Proof.
  induction ps as [|p rest IH]; intros db acc.
  - exists []. cbn [scan_loop fst snd]. rewrite app_nil_r. split; [reflexivity|].
    apply adds_nothing.
  - rewrite scan_loop_cons.
    destruct (patent_exists db (patent_number p)) eqn:E; [apply IH|].
    destruct (match_ cl p) as [|m ms] eqn:M; [apply IH|].
    set (a0 := {| alert_patent := p; matched_criteria := m :: ms |}).
    set (db1 := snd (insert_patent db p (Some (m :: ms)))).
    destruct (IH db1 (acc ++ [a0])) as (new & Hfst & Hadds).
    exists (a0 :: new). split; [rewrite Hfst, <- app_assoc; reflexivity|].
    change (a0 :: new) with ([a0] ++ new).
    apply adds_trans with (db1 := db1); [|exact Hadds].
    unfold adds. cbn [List.length alert_numbers map]. repeat split.
    + subst db1. rewrite count_insert. unfold insert_patent. rewrite E. cbn [fst]. lia.
    + apply NoDup_singleton.
    + destruct H as [<-|[]]. exact E.
    + destruct H as [<-|[]]. unfold a0. cbn [matched_criteria alert_patent].
      now rewrite M.
    + destruct H as [<-|[]]. discriminate.
    + subst db1. rewrite patent_exists_insert. intros H.
      apply orb_prop in H as [H|H]; [now left|].
      right. left. unfold a0. cbn [alert_patent]. now apply String.eqb_eq.
    + subst db1. rewrite patent_exists_insert. intros [H|[H|[]]].
      * now rewrite H.
      * unfold a0 in H. cbn [alert_patent] in H. subst s.
        now rewrite String.eqb_refl, orb_true_r.
Qed.

Lemma after_try_adds cl db out :
  adds cl db (snd (after_try cl db out)) (fst (after_try cl db out)).
Proof.
  destruct out as [ps|e]; cbn [after_try].
  - destruct (scan_loop_adds cl ps db []) as (new & Hfst & Hadds).
    rewrite Hfst. exact Hadds.
  - apply adds_nothing.
Qed.

(** What a call of [_search_api] that returns has done. *)
Lemma search_api_inv config db srcs clk date_from date_to al f er db1 :
  _search_api config db srcs clk date_from date_to = Ok ((al, f, er), db1) ->
  exists out run,
    al = fst (after_try (search_criteria config) db out) /\
    db1 = log_search_run (snd (after_try (search_criteria config) db out)) run /\
    f = fetched_of out /\
    er = error_of "API search failed: " out /\
    source run = "api"%string /\
    run_error run = run_error_of out /\
    exists a b, out = search_design_patents srcs a b (api_keywords config).
Proof.
  intros H. apply search_api_returned in H as (a & b & run & _ & H). cbv zeta in H.
  destruct H as (Hr & -> & Hs & He). inversion Hr; subst; clear Hr.
  exists (search_design_patents srcs a b (api_keywords config)), run.
  repeat split; try assumption. exists a, b. reflexivity.
Qed.

(** The shape of a scan that returned: each enabled source ran its pass
    and logged one run. *)
Lemma run_scan_inv config db srcs clk date_from date_to res db' :
  run_scan config db srcs clk date_from date_to = Ok (res, db') ->
  exists out_a run_a run_g,
    let cl := search_criteria config in
    let out_g := scrape_current_week srcs in
    let al_a := if uspto_api (sources config) then fst (after_try cl db out_a) else [] in
    let db_a := if uspto_api (sources config)
                then log_search_run (snd (after_try cl db out_a)) run_a else db in
    let al_g := if official_gazette (sources config)
                then fst (after_try cl db_a out_g) else [] in
    let db_g := if official_gazette (sources config)
                then log_search_run (snd (after_try cl db_a out_g)) run_g else db_a in
    db' = db_g /\
    alerts res = al_a ++ al_g /\
    new_matches res = Z.of_nat (List.length al_a) + Z.of_nat (List.length al_g) /\
    total_fetched res
      = (if uspto_api (sources config) then fetched_of out_a else 0)
        + (if official_gazette (sources config) then fetched_of out_g else 0) /\
    errors res
      = append_error
          (append_error []
             (if uspto_api (sources config)
              then error_of "API search failed: " out_a else None))
          (if official_gazette (sources config)
           then error_of "Gazette scrape failed: " out_g else None) /\
    source run_a = "api"%string /\ run_error run_a = run_error_of out_a /\
    source run_g = "gazette"%string /\ run_error run_g = run_error_of out_g /\
    (uspto_api (sources config) = true ->
     exists a b, out_a = search_design_patents srcs a b (api_keywords config)).
Proof.
  unfold run_scan.
  destruct (uspto_api (sources config)) eqn:Ua;
    destruct (official_gazette (sources config)) eqn:Ug.
  - destruct (_search_api _ _ _ _ _ _) as [[[[al f] er] db1]|e0] eqn:E; [|discriminate].
    apply search_api_inv in E as (out_a & run_a & -> & -> & -> & -> & Sa & Ea & Hout).
    destruct (search_gazette_spec
                (log_search_run (snd (after_try (search_criteria config) db out_a)) run_a)
                (search_criteria config) srcs (gazette_clock clk))
      as (run_g & Heq & Sg & Eg & _).
    cbv zeta in Heq. rewrite Heq. cbv beta iota zeta.
    intros H. inversion H; subst; clear H.
    exists out_a, run_a, run_g. cbv zeta. cbn [alerts new_matches total_fetched errors].
    repeat split; try assumption; try reflexivity; try (cbn [List.length]; lia); try (intros _; exact Hout).
  - destruct (_search_api _ _ _ _ _ _) as [[[[al f] er] db1]|e0] eqn:E; [|discriminate].
    apply search_api_inv in E as (out_a & run_a & -> & -> & -> & -> & Sa & Ea & Hout).
    cbv beta iota zeta. intros H. inversion H; subst; clear H.
    exists out_a, run_a,
      {| run_at := gaz_now (gazette_clock clk); source := "gazette";
         query_params := EmptyString; results_count := 0; new_matches_count := 0;
         run_error := run_error_of (scrape_current_week srcs);
         duration_seconds := 0%Q |}.
    cbv zeta. cbn [alerts new_matches total_fetched errors source run_error].
    rewrite app_nil_r.
    repeat split; try assumption; try reflexivity; try (cbn [List.length]; lia); try (intros _; exact Hout).
  - destruct (search_gazette_spec db (search_criteria config) srcs (gazette_clock clk))
      as (run_g & Heq & Sg & Eg & _).
    cbv zeta in Heq. rewrite Heq. cbv beta iota zeta.
    intros H. inversion H; subst; clear H.
    exists (Ok []),
      {| run_at := api_now (api_clock clk); source := "api";
         query_params := EmptyString; results_count := 0; new_matches_count := 0;
         run_error := None; duration_seconds := 0%Q |}, run_g.
    cbv zeta. cbn [alerts new_matches total_fetched errors source run_error run_error_of].
    repeat split; try assumption; try reflexivity; try (cbn [List.length]; lia); try discriminate.
  - cbv beta iota zeta. intros H. inversion H; subst; clear H.
    exists (Ok []),
      {| run_at := api_now (api_clock clk); source := "api";
         query_params := EmptyString; results_count := 0; new_matches_count := 0;
         run_error := None; duration_seconds := 0%Q |},
      {| run_at := gaz_now (gazette_clock clk); source := "gazette";
         query_params := EmptyString; results_count := 0; new_matches_count := 0;
         run_error := run_error_of (scrape_current_week srcs);
         duration_seconds := 0%Q |}.
    cbv zeta. cbn [alerts new_matches total_fetched errors source run_error run_error_of].
    repeat split; try reflexivity; try discriminate.
Qed.

Lemma run_scan_adds config db srcs clk date_from date_to res db' :
  run_scan config db srcs clk date_from date_to = Ok (res, db') ->
  new_matches res = Z.of_nat (List.length (alerts res)) /\
  adds (search_criteria config) db db' (alerts res).
Proof.
  intros H. apply run_scan_inv in H as (out_a & run_a & run_g & H). cbv zeta in H.
  destruct H as (-> & -> & Hn & _). split; [rewrite Hn, length_app; lia|].
  apply adds_trans with
    (db1 := if uspto_api (sources config)
            then log_search_run (snd (after_try (search_criteria config) db out_a)) run_a
            else db).
  - destruct (uspto_api (sources config)); [|apply adds_nothing].
    apply adds_log, after_try_adds.
  - destruct (official_gazette (sources config)); [|apply adds_nothing].
    apply adds_log, after_try_adds.
Qed.

Lemma append_error_length (errors : list string) (err : option string) :
  (List.length errors <= List.length (append_error errors err)
   <= S (List.length errors))%nat.
Proof.
  unfold append_error. destruct err as [s|]; [|lia].
  destruct (is_empty s); [lia|]. rewrite length_app. cbn [List.length]. lia.
Qed.

(** The alerts of a loop are for candidates of the loop. *)
Lemma scan_loop_alerts_from cl ps : forall db acc a,
  In a (fst (scan_loop cl ps db acc)) -> In a acc \/ In (alert_patent a) ps.
Proof.
  induction ps as [|p rest IH]; intros db acc a; [cbn [scan_loop fst]; auto|].
  rewrite scan_loop_cons.
  destruct (patent_exists db (patent_number p));
    [intros H; destruct (IH _ _ _ H); [left | right; right]; assumption|].
  destruct (match_ cl p) as [|m ms];
    [intros H; destruct (IH _ _ _ H); [left | right; right]; assumption|].
  intros H. destruct (IH _ _ _ H) as [Hacc|Hrest]; [|right; right; exact Hrest].
  apply in_app_or in Hacc as [Hacc|[<-|[]]]; [left; exact Hacc|].
  right. left. reflexivity.
Qed.

Lemma scan_processed cl ps db :
  processed cl ps db (snd (scan_loop cl ps db [])) (fst (scan_loop cl ps db [])).
Proof.
  unfold processed. split; [|split].
  - destruct (scan_loop_adds cl ps db []) as (new & Hfst & Hadds).
    rewrite Hfst. exact Hadds.
  - intros a Ha. destruct (scan_loop_alerts_from cl ps db [] a Ha) as [[]|H]. exact H.
  - intros p Hp Hm. destruct (scan_loop_post cl ps db []) as (_ & _ & _ & P).
    destruct (P p Hp) as [H|H]; [exact H | contradiction].
Qed.

Lemma processed_log cl ps db db' new run :
  processed cl ps db db' new -> processed cl ps db (log_search_run db' run) new.
Proof. intros H. exact H. Qed.

End ScanAccounting.

(** C1 as stated, for every invocation with both sources enabled, fails:
    the API client is built before the [try] block of [_search_api], and
    under [rate_limit_per_minute: 0] its constructor raises
    ZeroDivisionError.  The scan of the partial-failure example then raises
    instead of returning.  So it does when the start of the window cannot
    be fixed: under [initial_lookback_days: 1000000] the date subtraction
    raises OverflowError. *)
Lemma unbuildable_client_aborts_scan :
  ~ Statements.failure_isolated_in_every_scan /\
  Samples.scan_zero_rate = Raise Service.float_division_by_zero /\
  Samples.scan_far_lookback = Raise Calendar.date_out_of_range.
Proof.
  split; [|split; vm_compute; reflexivity].
  intros H.
  assert (Hwf : Statements.runs_wf Db.empty_db)
    by exact (fun row (Hin : In row []) => match Hin with end).
  destruct (H Samples.zero_rate_config Db.empty_db Samples.sources_api_down
              Samples.test_clock None None Samples.api_down
              [Samples.eyeglasses_frame; Samples.sunglasses]
              eq_refl eq_refl Hwf (fun _ _ _ => eq_refl) eq_refl)
    as (res & db' & Hret & _).
  assert (Hraise : Service.run_scan Samples.zero_rate_config Db.empty_db
                     Samples.sources_api_down Samples.test_clock None None
                   = Raise Service.float_division_by_zero)
    by (vm_compute; reflexivity).
  rewrite Hraise in Hret. discriminate Hret.
Qed.

(** C1, amended.  With both sources enabled, in a scan whose API source
    gets as far as its fetch (the client is built and the window fixed,
    which gives the window [a], [b]): when the fetch of one source raises
    and the other returns, run_scan returns normally.  The aggregate result
    has exactly the one error string of the failed source, the run row of
    the failed source carries the exception text, the candidates of the
    other source are processed as if it were alone (same alerts, same
    patents stored: every candidate that matches a rule is tracked
    afterwards, one alert per patent added), and the run log grows by
    exactly one row per enabled source, failed or not.  The API source gets
    as far as its fetch when the rate limit is not 0 and the start of the
    window is given, read from the run log, or a look-back away that is a
    date; when it does not, the scan raises.  Source A raising while source
    B returns two matching patents gives one error, two new matches, both
    patents tracked and two logged runs. *)
Theorem partial_failure_isolation :
  (forall config db srcs clk date_from date_to a b e ps,
      Config.uspto_api (Config.sources config) = true ->
      Config.official_gazette (Config.sources config) = true ->
      Statements.api_window config db (Service.api_clock clk) date_from date_to
        = Ok (a, b) ->
      Service.search_design_patents srcs a b (Statements.api_keywords config) = Raise e ->
      Service.scrape_current_week srcs = Ok ps ->
      exists res db' row_a row_g,
        Service.run_scan config db srcs clk date_from date_to = Ok (res, db') /\
        Service.errors res = ["API search failed: " +:+ exn_str e] /\
        Service.alerts res
          = fst (Service.scan_loop (Config.search_criteria config) ps db []) /\
        Db.patents db'
          = Db.patents (snd (Service.scan_loop (Config.search_criteria config) ps db [])) /\
        Properties.processed (Config.search_criteria config) ps db db'
                             (Service.alerts res) /\
        Service.new_matches res = Z.of_nat (List.length (Service.alerts res)) /\
        Service.total_fetched res = Z.of_nat (List.length ps) /\
        Db.search_runs db' = Db.search_runs db ++ [row_a; row_g] /\
        row_a !! "source" = Some (Db.SqlText "api") /\
        row_a !! "error" = Some (Db.SqlText (exn_str e)) /\
        row_g !! "source" = Some (Db.SqlText "gazette") /\
        row_g !! "error" = Some Db.SqlNull /\
        row_g !! "results_count" = Some (Db.SqlInt (Z.of_nat (List.length ps))) /\
        row_g !! "new_matches_count" = Some (Db.SqlInt (Service.new_matches res)))
  /\ (forall config db srcs clk date_from date_to a b e ps,
      Config.uspto_api (Config.sources config) = true ->
      Config.official_gazette (Config.sources config) = true ->
      Statements.api_window config db (Service.api_clock clk) date_from date_to
        = Ok (a, b) ->
      Service.search_design_patents srcs a b (Statements.api_keywords config) = Ok ps ->
      Service.scrape_current_week srcs = Raise e ->
      exists res db' row_a row_g,
        Service.run_scan config db srcs clk date_from date_to = Ok (res, db') /\
        Service.errors res = ["Gazette scrape failed: " +:+ exn_str e] /\
        Service.alerts res
          = fst (Service.scan_loop (Config.search_criteria config) ps db []) /\
        Db.patents db'
          = Db.patents (snd (Service.scan_loop (Config.search_criteria config) ps db [])) /\
        Properties.processed (Config.search_criteria config) ps db db'
                             (Service.alerts res) /\
        Service.new_matches res = Z.of_nat (List.length (Service.alerts res)) /\
        Service.total_fetched res = Z.of_nat (List.length ps) /\
        Db.search_runs db' = Db.search_runs db ++ [row_a; row_g] /\
        row_a !! "source" = Some (Db.SqlText "api") /\
        row_a !! "error" = Some Db.SqlNull /\
        row_a !! "results_count" = Some (Db.SqlInt (Z.of_nat (List.length ps))) /\
        row_a !! "new_matches_count" = Some (Db.SqlInt (Service.new_matches res)) /\
        row_g !! "source" = Some (Db.SqlText "gazette") /\
        row_g !! "error" = Some (Db.SqlText (exn_str e)))
  /\ (forall config db srcs clk date_from date_to res db',
      Service.run_scan config db srcs clk date_from date_to = Ok (res, db') ->
      List.length (Db.search_runs db')
      = (List.length (Db.search_runs db)
         + (if Config.uspto_api (Config.sources config) then 1 else 0)
         + (if Config.official_gazette (Config.sources config) then 1 else 0))%nat)
  /\ (forall config db clk date_from date_to,
      Config.rate_limit_per_minute (Config.api config) <> 0%Z ->
      (Z.abs (Config.rate_limit_per_minute (Config.api config))
       < Service.float_limit)%Z ->
      date_from <> None \/
      (Statements.runs_wf db /\
       (Db.get_last_run_date db "api" = Ok None ->
        (Z.abs (Config.initial_lookback_days config) <= 999999999)%Z /\
        (1 <= Calendar.toordinal (Service.api_today_from clk)
              - Config.initial_lookback_days config <= Calendar.max_ordinal)%Z)) ->
      exists a b,
        Statements.api_window config db clk date_from date_to = Ok (a, b) /\
        (forall a', date_from = Some a' -> a = a') /\
        (forall b', date_to = Some b' -> b = b') /\
        (date_to = None -> b = Service.api_today_to clk))
  /\ (forall config db srcs clk date_from date_to,
      Config.uspto_api (Config.sources config) = true ->
      (Config.rate_limit_per_minute (Config.api config) = 0%Z ->
       Service.run_scan config db srcs clk date_from date_to
       = Raise Service.float_division_by_zero) /\
      (forall e,
         Statements.api_window config db (Service.api_clock clk) date_from date_to
           = Raise e ->
         Service.run_scan config db srcs clk date_from date_to = Raise e))
  /\ (exists res db',
        Service.run_scan Samples.test_config Db.empty_db Samples.sources_api_down
                         Samples.test_clock None None = Ok (res, db') /\
        List.length (Service.errors res) = 1%nat /\
        Service.new_matches res = 2%Z /\
        Properties.alert_numbers (Service.alerts res)
          = ["D1012345"; "D1012346"]%string /\
        Db.patent_exists db' "D1012345" = true /\
        Db.patent_exists db' "D1012346" = true /\
        Db.get_patent_count db' = 2%Z /\
        List.length (Db.search_runs db') = 2%nat).
Proof.
  split; [|split; [|split; [|split; [|split]]]].
  - intros config db srcs clk date_from date_to a b e ps Hapi Hgaz Hwin Hraise Hscrape.
    unfold Service.run_scan. rewrite Hapi, Hgaz.
    pose proof (search_api_cases config db srcs (Service.api_clock clk)
                  date_from date_to) as C.
    rewrite Hwin in C. destruct C as (run_a & Heq & Hsa & Hea & _ & _ & _).
    cbv zeta in Heq. rewrite Hraise in Heq, Hea.
    cbn [Statements.after_try Statements.fetched_of Statements.error_of
         Statements.run_error_of fst snd] in Heq, Hea.
    rewrite Heq.
    destruct (search_gazette_spec (Db.log_search_run db run_a)
                (Config.search_criteria config) srcs (Service.gazette_clock clk))
      as (run_g & Heqg & Hsg & Heg & Hrg & Hng & _).
    cbv zeta in Heqg. rewrite Hscrape in Heqg, Heg, Hrg, Hng.
    cbn [Statements.after_try Statements.fetched_of Statements.error_of
         Statements.run_error_of] in Heqg, Heg, Hrg, Hng.
    rewrite scan_loop_log in Heqg, Hng. cbn [fst snd] in Heqg, Hng.
    cbv beta iota zeta. rewrite Heqg. cbv beta iota zeta.
    destruct (scan_loop_post (Config.search_criteria config) ps db []) as (A & _).
    eexists. eexists. eexists. eexists.
    split; [reflexivity|].
    cbn [Service.errors Service.alerts Service.new_matches Service.total_fetched
         Db.patents Db.search_runs Db.log_search_run app].
    split; [reflexivity|]. split; [reflexivity|]. split; [reflexivity|].
    split; [apply processed_log, processed_log, scan_processed|].
    split; [reflexivity|]. split; [reflexivity|].
    rewrite A. cbn [Db.search_runs Db.log_search_run].
    split; [rewrite <- app_assoc; reflexivity|].
    repeat split;
      match goal with
      | |- Db.search_run_row ?i ?r !! _ = _ =>
          destruct (search_run_row_fields i r) as (F1 & F2 & F3 & F4);
          rewrite ?F1, ?F2, ?F3, ?F4, ?Hsa, ?Hea, ?Hsg, ?Heg, ?Hrg, ?Hng
      end; reflexivity.
  - intros config db srcs clk date_from date_to a b e ps Hapi Hgaz Hwin Hok Hscrape.
    unfold Service.run_scan. rewrite Hapi, Hgaz.
    pose proof (search_api_cases config db srcs (Service.api_clock clk)
                  date_from date_to) as C.
    rewrite Hwin in C. destruct C as (run_a & Heq & Hsa & Hea & Hra & Hna & _).
    cbv zeta in Heq, Hna. rewrite Hok in Heq, Hea, Hra, Hna.
    cbn [Statements.after_try Statements.fetched_of Statements.error_of
         Statements.run_error_of] in Heq, Hea, Hra, Hna.
    rewrite Heq.
    set (loop := Service.scan_loop (Config.search_criteria config) ps db []) in *.
    destruct (search_gazette_spec (Db.log_search_run (snd loop) run_a)
                (Config.search_criteria config) srcs (Service.gazette_clock clk))
      as (run_g & Heqg & Hsg & Heg & _ & _ & _).
    cbv zeta in Heqg. rewrite Hscrape in Heqg, Heg.
    cbn [Statements.after_try Statements.fetched_of Statements.error_of
         Statements.run_error_of fst snd] in Heqg, Heg.
    cbv beta iota zeta. rewrite Heqg. cbv beta iota zeta.
    destruct (scan_loop_post (Config.search_criteria config) ps db []) as (A & _).
    fold loop in A.
    eexists. eexists. eexists. eexists.
    split; [reflexivity|].
    cbn [Service.errors Service.alerts Service.new_matches Service.total_fetched
         Db.patents Db.search_runs Db.log_search_run].
    rewrite !app_nil_r. cbn [app List.length].
    split; [reflexivity|]. split; [reflexivity|]. split; [reflexivity|].
    split; [apply processed_log, processed_log; subst loop; apply scan_processed|].
    split; [lia|]. split; [lia|].
    split; [rewrite <- app_assoc, A; reflexivity|].
    repeat split;
      match goal with
      | |- Db.search_run_row ?i ?r !! _ = _ =>
          destruct (search_run_row_fields i r) as (F1 & F2 & F3 & F4);
          rewrite ?F1, ?F2, ?F3, ?F4, ?Hsa, ?Hea, ?Hra, ?Hna, ?Hsg, ?Heg
      end; try reflexivity; do 2 f_equal; lia.
  - intros config db srcs clk date_from date_to res db'.
    unfold Service.run_scan.
    destruct (Config.uspto_api (Config.sources config));
      destruct (Config.official_gazette (Config.sources config)).
    + destruct (Service._search_api _ _ _ _ _ _) as [[[[al f] er] db1]|e0] eqn:E;
        [|discriminate].
      apply search_api_logs_one in E.
      pose proof (search_gazette_logs_one db1 (Config.search_criteria config) srcs
                    (Service.gazette_clock clk)) as G.
      destruct (Service._search_gazette _ _ _ _) as [[[al2 f2] er2] db2].
      cbv beta iota zeta. intros H. inversion H; subst. cbn [snd] in G. lia.
    + destruct (Service._search_api _ _ _ _ _ _) as [[[[al f] er] db1]|e0] eqn:E;
        [|discriminate].
      apply search_api_logs_one in E.
      cbv beta iota zeta. intros H. inversion H; subst. lia.
    + pose proof (search_gazette_logs_one db (Config.search_criteria config) srcs
                    (Service.gazette_clock clk)) as G.
      destruct (Service._search_gazette _ _ _ _) as [[[al2 f2] er2] db2].
      cbv beta iota zeta. intros H. inversion H; subst. cbn [snd] in G. lia.
    + cbv beta iota zeta. intros H. inversion H; subst. lia.
  - intros config db clk date_from date_to. apply api_window_returns.
  - intros config db srcs clk date_from date_to Hapi.
    assert (Hr : forall e,
      Statements.api_window config db (Service.api_clock clk) date_from date_to
        = Raise e ->
      Service.run_scan config db srcs clk date_from date_to = Raise e).
    { intros e Hw. unfold Service.run_scan. rewrite Hapi.
      pose proof (search_api_cases config db srcs (Service.api_clock clk)
                    date_from date_to) as C.
      rewrite Hw in C. rewrite C. reflexivity. }
    split; [|exact Hr].
    intros Hz. apply Hr. apply api_window_zero_rate, Hz.
  - exists (Samples.result_of Samples.scan_api_down),
           (Samples.store_of Samples.scan_api_down).
    split; [apply (returned_projections Samples.scan_api_down); vm_compute; reflexivity|].
    repeat split; vm_compute; reflexivity.
Qed.

Lemma partial_failure_isolation_witness :
  (exists res db',
     Service.run_scan Samples.test_config Db.empty_db Samples.sources_api_down
                      Samples.test_clock None None = Ok (res, db') /\
     Service.errors res = ["API search failed: API down"%string]) /\
  (exists res db',
     Service.run_scan Samples.test_config Db.empty_db Samples.sources_gazette_down
                      Samples.test_clock None None = Ok (res, db') /\
     Service.errors res = ["Gazette scrape failed: malformed page"%string]) /\
  List.length (Db.search_runs (Samples.store_of Samples.scan_api_down)) = 2%nat /\
  Samples.scan_zero_rate = Raise Service.float_division_by_zero.
Proof.
  destruct partial_failure_isolation as (HA & HB & HC & HD & HE & _).
  assert (Hwin : Statements.api_window Samples.test_config Db.empty_db
                   (Service.api_clock Samples.test_clock) None None
                 = Ok (Samples.mkdate 2025 11 26, Samples.mkdate 2026 2 24))
    by (vm_compute; reflexivity).
  split; [|split; [|split]].
  - destruct (HA Samples.test_config Db.empty_db Samples.sources_api_down
                Samples.test_clock None None _ _ Samples.api_down
                [Samples.eyeglasses_frame; Samples.sunglasses]
                eq_refl eq_refl Hwin eq_refl eq_refl)
      as (res & db' & row_a & row_g & H1 & H2 & _).
    exists res, db'. split; [exact H1 | exact H2].
  - destruct (HB Samples.test_config Db.empty_db Samples.sources_gazette_down
                Samples.test_clock None None _ _ Samples.gazette_down
                [Samples.eyeglasses_frame; Samples.sunglasses]
                eq_refl eq_refl Hwin eq_refl eq_refl)
      as (res & db' & row_a & row_g & H1 & H2 & _).
    exists res, db'. split; [exact H1 | exact H2].
  - exact (HC Samples.test_config Db.empty_db Samples.sources_api_down
              Samples.test_clock None None _ _
              (returned_projections Samples.scan_api_down eq_refl)).
  - exact (proj1 (HE Samples.zero_rate_config Db.empty_db Samples.sources_api_down
                     Samples.test_clock None None eq_refl) eq_refl).
Defined.

(** X15.  The accounting of a scan.  When [run_scan] returns, [new_matches]
    is the number of alerts, the patent count has grown by exactly that
    number, the alerts are for pairwise distinct patent numbers, each alert
    is for a number that was not tracked before the scan and carries the
    non-empty list of reasons the matcher gives for its patent, and the
    numbers tracked afterwards are exactly those tracked before and those
    alerted on.  At most one error is reported per source. *)
Theorem scan_accounting config db srcs clk date_from date_to res db' :
  Service.run_scan config db srcs clk date_from date_to = Ok (res, db') ->
  Service.new_matches res = Z.of_nat (List.length (Service.alerts res)) /\
  Db.get_patent_count db' = (Db.get_patent_count db + Service.new_matches res)%Z /\
  NoDup (Properties.alert_numbers (Service.alerts res)) /\
  (forall a, In a (Service.alerts res) ->
     Db.patent_exists db (Models.patent_number (Models.alert_patent a)) = false /\
     Db.patent_exists db' (Models.patent_number (Models.alert_patent a)) = true /\
     Models.matched_criteria a
       = Matcher.match_ (Config.search_criteria config) (Models.alert_patent a) /\
     Models.matched_criteria a <> []) /\
  (forall s, Db.patent_exists db' s = true <->
             Db.patent_exists db s = true \/
             In s (Properties.alert_numbers (Service.alerts res))) /\
  (List.length (Service.errors res) <= 2)%nat.
Proof.
  intros H. destruct (run_scan_adds _ _ _ _ _ _ _ _ H) as (Hn & Hc & Hnd & Ha & He).
  split; [exact Hn|]. split; [rewrite Hn; exact Hc|]. split; [exact Hnd|].
  split; [|split; [exact He|]].
  - intros a Hin. destruct (Ha a Hin) as (H1 & H2 & H3).
    repeat split; try assumption. apply He. right.
    unfold Properties.alert_numbers. apply in_map_iff. now exists a.
  - apply run_scan_inv in H as (out_a & run_a & run_g & H). cbv zeta in H.
    destruct H as (_ & _ & _ & _ & -> & _).
    match goal with |- (List.length (Service.append_error (Service.append_error [] ?x) ?y) <= 2)%nat =>
      pose proof (append_error_length [] x);
      pose proof (append_error_length (Service.append_error [] x) y) end.
    cbn [List.length] in *. lia.
Qed.

Lemma scan_accounting_witness :
  Service.new_matches (Samples.result_of Samples.first_scan)
    = Z.of_nat (List.length (Service.alerts (Samples.result_of Samples.first_scan))) /\
  Db.get_patent_count (Samples.store_of Samples.first_scan)
    = (Db.get_patent_count Db.empty_db
       + Service.new_matches (Samples.result_of Samples.first_scan))%Z.
Proof.
  assert (H : Samples.first_scan
              = Ok (Samples.result_of Samples.first_scan,
                    Samples.store_of Samples.first_scan))
    by (apply returned_projections; vm_compute; reflexivity).
  destruct (scan_accounting _ _ _ _ _ _ _ _ H) as (H1 & H2 & _).
  split; assumption.
Defined.

(** X16.  A scan whose API fetch failed does not move the API window.
    When [run_scan] returns and the API source is disabled or its fetch
    raised, the date [get_last_run_date] gives for the source "api" is the
    one it gave before the scan: neither the failed API run nor the gazette
    run counts as the last successful API run. *)
Theorem failed_api_scan_keeps_window config db srcs clk date_from date_to res db' :
  Service.run_scan config db srcs clk date_from date_to = Ok (res, db') ->
  Config.uspto_api (Config.sources config) = false \/
  (exists e, forall a b kw, Service.search_design_patents srcs a b kw = Raise e) ->
  Db.get_last_run_date db' "api" = Db.get_last_run_date db "api".
Proof.
  intros H Hfail. apply run_scan_inv in H as (out_a & run_a & run_g & H). cbv zeta in H.
  destruct H as (-> & _ & _ & _ & _ & Sa & Ea & Sg & Eg & Hout).
  set (cl := Config.search_criteria config) in *.
  assert (Hapi : Db.get_last_run_date
            (if Config.uspto_api (Config.sources config)
             then Db.log_search_run (snd (Statements.after_try cl db out_a)) run_a
             else db) "api" = Db.get_last_run_date db "api").
  { destruct (Config.uspto_api (Config.sources config)) eqn:Ua; [|reflexivity].
    destruct Hfail as [Hf|[e Hf]]; [discriminate|].
    destruct (Hout eq_refl) as (a & b & ->). rewrite Hf in *.
    cbn [Statements.after_try snd Statements.run_error_of] in *.
    apply get_last_run_date_log. rewrite Ea. apply andb_false_r. }
  destruct (Config.official_gazette (Config.sources config)); [|exact Hapi].
  rewrite get_last_run_date_log by (rewrite Sg; reflexivity).
  rewrite <- Hapi. apply get_last_run_date_patents.
  apply after_try_post.
Qed.

Lemma failed_api_scan_keeps_window_witness :
  Db.get_last_run_date (Samples.store_of Samples.scan_api_down) "api"
  = Db.get_last_run_date Db.empty_db "api".
Proof.
  apply (failed_api_scan_keeps_window Samples.test_config Db.empty_db
           Samples.sources_api_down Samples.test_clock None None
           (Samples.result_of Samples.scan_api_down)).
  - apply returned_projections. vm_compute. reflexivity.
  - right. exists Samples.api_down. reflexivity.
Defined.

(* ===================================================================== *)
(** * Further properties of the analyzer                                  *)
(* ===================================================================== *)

Section CallApiFacts.
Import PyStr Calendar Analyzer Properties.

Lemma call_api_from_eq (create : nat -> CreateOutcome) (attempt remaining : nat) :
  _call_api_from create attempt (S remaining) =
  match create attempt with
  | Replied text => Ok text
  | Failed e =>
      if retried attempt (create attempt)
      then _call_api_from create (S attempt) remaining
      else Raise e
  end.
Proof.
  cbn [_call_api_from]. destruct (create attempt) as [text|e]; [reflexivity|].
  cbn [retried]. destruct (exn_class e); try reflexivity.
Qed.

Lemma call_api_from_ok (create : nat -> CreateOutcome) (text : string) :
  forall remaining attempt,
  _call_api_from create attempt remaining = Ok text <->
  exists k, (attempt <= k < attempt + remaining)%nat /\
            create k = Replied text /\
            forall j, (attempt <= j < k)%nat -> retried j (create j) = true.
Proof.
  induction remaining as [|remaining IH]; intros attempt.
  - cbn [_call_api_from]. split; [discriminate | intros (k & Hk & _); lia].
  - rewrite call_api_from_eq. destruct (create attempt) as [t|e] eqn:E.
    + split.
      * intros [= ->]. exists attempt. split; [lia|]. split; [exact E | intros j Hj; lia].
      * intros (k & Hk & Hrep & Hret).
        destruct (Nat.eq_dec k attempt) as [->|Hne]; [congruence|].
        specialize (Hret attempt). rewrite E in Hret. cbn [retried] in Hret.
        discriminate Hret. lia.
    + destruct (retried attempt (Failed e)) eqn:R.
      * rewrite IH. split.
        -- intros (k & Hk & Hrep & Hret). exists k. split; [lia|]. split; [exact Hrep|].
           intros j Hj. destruct (Nat.eq_dec j attempt) as [->|Hne];
             [now rewrite E | apply Hret; lia].
        -- intros (k & Hk & Hrep & Hret).
           destruct (Nat.eq_dec k attempt) as [->|Hne]; [congruence|].
           exists k. split; [lia|]. split; [exact Hrep|]. intros j Hj. apply Hret. lia.
      * split; [discriminate|]. intros (k & Hk & Hrep & Hret).
        destruct (Nat.eq_dec k attempt) as [->|Hne]; [congruence|].
        specialize (Hret attempt). rewrite E, R in Hret. discriminate Hret. lia.
Qed.

Lemma call_api_from_ext (create create' : nat -> CreateOutcome) :
  forall remaining attempt,
  (forall k, (attempt <= k < attempt + remaining)%nat -> create k = create' k) ->
  _call_api_from create attempt remaining = _call_api_from create' attempt remaining.
Proof.
  induction remaining as [|remaining IH]; intros attempt H; [reflexivity|].
  rewrite !call_api_from_eq, <- (H attempt) by lia.
  destruct (create attempt) as [t|e]; [reflexivity|].
  destruct (retried attempt (Failed e)); [|reflexivity].
  apply IH. intros k Hk. apply H. lia.
Qed.

Lemma call_api_from_raise (create : nat -> CreateOutcome) (e : Exn) :
  forall remaining attempt,
  _call_api_from create attempt remaining = Raise e ->
  (e = retries_exhausted /\
   forall j, (attempt <= j < attempt + remaining)%nat -> retried j (create j) = true) \/
  exists k, (attempt <= k < attempt + remaining)%nat /\
            create k = Failed e /\ retried k (create k) = false.
Proof.
  induction remaining as [|remaining IH]; intros attempt.
  - cbn [_call_api_from]. intros [= <-]. left. split; [reflexivity | intros j Hj; lia].
  - rewrite call_api_from_eq. destruct (create attempt) as [t|e0] eqn:E; [discriminate|].
    destruct (retried attempt (Failed e0)) eqn:R.
    + intros H. apply IH in H as [[-> Hall]|(k & Hk & Hf & Hr)].
      * left. split; [reflexivity|]. intros j Hj.
        destruct (Nat.eq_dec j attempt) as [->|Hne]; [now rewrite E | apply Hall; lia].
      * right. exists k. split; [lia|]. now split.
    + intros [= ->]. right. exists attempt. split; [lia|]. rewrite E. now split.
Qed.

End CallApiFacts.

(** X17.  When [_call_api] returns.  It returns the text of a reply exactly
    when one of the first three attempts replied with it and every attempt
    before that one failed in a way the method retries (a rate-limit error,
    or a status error of 500 or above before the last attempt). *)
Theorem call_api_returns_first_reply (create : nat -> Analyzer.CreateOutcome)
    (text : string) :
  Analyzer._call_api create = Ok text <->
  exists k, (1 <= k <= 3)%nat /\
            create k = Analyzer.Replied text /\
            forall j, (1 <= j < k)%nat -> Properties.retried j (create j) = true.
Proof.
  unfold Analyzer._call_api. rewrite call_api_from_ok. unfold Analyzer.max_retries.
  split; intros (k & Hk & H); exists k; (split; [lia | exact H]).
Qed.

(** X18.  How [_call_api] fails, and that it stops after three attempts.
    Its result depends on the outcomes of attempts one to three only; when
    it raises, the exception is either that of an attempt whose failure is
    not retried (any other error, a status error below 500, a status error
    on the third attempt), or, when all three attempts were retried, the
    RuntimeError "Anthropic API call failed after all retries". *)
Theorem call_api_stops_after_three (create create' : nat -> Analyzer.CreateOutcome) :
  ((forall k, (1 <= k <= 3)%nat -> create k = create' k) ->
   Analyzer._call_api create = Analyzer._call_api create') /\
  (forall e, Analyzer._call_api create = Raise e ->
     (e = Properties.retries_exhausted /\
      forall j, (1 <= j <= 3)%nat -> Properties.retried j (create j) = true) \/
     exists k, (1 <= k <= 3)%nat /\ create k = Analyzer.Failed e /\
               Properties.retried k (create k) = false) /\
  ((forall k, (1 <= k <= 3)%nat ->
      exists e, create k = Analyzer.Failed e /\ exn_class e = RateLimitError) ->
   Analyzer._call_api create = Raise Properties.retries_exhausted).
Proof.
  unfold Analyzer._call_api, Analyzer.max_retries. split; [|split].
  - intros H. apply call_api_from_ext. intros k Hk. apply H. lia.
  - intros e H. apply call_api_from_raise in H as [[-> Hall]|(k & Hk & Hf)].
    + left. split; [reflexivity|]. intros j Hj. apply Hall. lia.
    + right. exists k. split; [lia | exact Hf].
  - intros H.
    destruct (H 1%nat) as (e1 & H1 & C1); [lia|].
    destruct (H 2%nat) as (e2 & H2 & C2); [lia|].
    destruct (H 3%nat) as (e3 & H3 & C3); [lia|].
    cbn [Analyzer._call_api_from]. now rewrite H1, C1, H2, C2, H3, C3.
Qed.

Lemma call_api_stops_after_three_witness :
  Analyzer._call_api
    (fun _ => Analyzer.Failed {| exn_class := RateLimitError; exn_str := "429" |})
  = Raise Properties.retries_exhausted.
Proof.
  apply (call_api_stops_after_three
           (fun _ => Analyzer.Failed {| exn_class := RateLimitError; exn_str := "429" |})
           (fun _ => Analyzer.Replied "unused")).
  intros k _. eexists. split; reflexivity.
Defined.

Section AnalyzeFacts.
Import PyStr Calendar Analyzer Properties.
Local Open Scope Z_scope.

Lemma data_to_result_ok now data r :
  _data_to_result now data = Ok r -> sanitized r /\ error r = None.
Proof.
  destruct data as [| | | | | | | |d]; try discriminate. intros H.
  destruct (py_int (default (JInt 0) (d !! "similarity_score"))) as [z|e] eqn:E.
  - destruct (data_to_result_sanitized now d z E) as (r' & Hr & _ & Hs & Hk & Hc & _ & He).
    rewrite Hr in H. injection H as <-. unfold sanitized. auto.
  - unfold _data_to_result in H. rewrite E in H. discriminate.
Qed.

Lemma sanitized_parse_failure now text : sanitized (parse_failure_result now text).
Proof. unfold sanitized. cbn. split; [lia|]. tauto. Qed.

Lemma sanitized_call_failure model now e : sanitized (call_failure_result model now e).
Proof. unfold sanitized. cbn. split; [lia|]. tauto. Qed.

Lemma try_candidate_ok json_loads now c r :
  try_candidate json_loads now c = Some (Ok r) -> sanitized r.
Proof.
  unfold try_candidate. destruct c as [text|]; [|discriminate].
  destruct (json_loads text) as [v|]; [|discriminate].
  cbn [fmap option_fmap option_map]. intros [= H]. now apply data_to_result_ok in H.
Qed.

Lemma parse_response_ok json_loads now text r :
  _parse_response json_loads now text = Ok r -> sanitized r.
Proof.
  unfold _parse_response.
  destruct (try_candidate json_loads now (Some (strip text))) as [x|] eqn:E1.
  { intros ->. now apply try_candidate_ok in E1. }
  destruct (try_candidate json_loads now (search_score_object text)) as [x|] eqn:E2.
  { intros ->. now apply try_candidate_ok in E2. }
  destruct (try_candidate json_loads now (search_any_object text)) as [x|] eqn:E3.
  { intros ->. now apply try_candidate_ok in E3. }
  intros [= <-]. apply sanitized_parse_failure.
Qed.

End AnalyzeFacts.

(** X19.  Whatever the API does, [analyze] returns a well-formed result:
    the score is between 0 and 100, the risk level and the recommendation
    are from their fixed vocabularies, the model is the configured one and
    the time stamp is the one taken at the end.  A result without an error
    comes from a reply of the API, and then records which images were
    sent. *)
Theorem analyze_result_is_sanitized model json_loads create parse_now now
    patent_image product_images :
  let r := Analyzer.analyze model json_loads create parse_now now
                            patent_image product_images in
  (0 <= Analyzer.similarity_score r <= 100)%Z /\
  In (Analyzer.risk_level r) ["high"; "medium"; "low"; "none"]%string /\
  In (Analyzer.recommendation r) ["flag"; "monitor"; "dismiss"]%string /\
  Analyzer.model_used r = model /\
  Analyzer.analyzed_at r = now /\
  (Analyzer.error r = None ->
   (exists text, Analyzer._call_api create = Ok text) /\
   Analyzer.patent_image_used r
     = match patent_image with Some _ => true | None => false end /\
   Analyzer.product_images_used r = map fst product_images).
Proof.
  cbv zeta. unfold Analyzer.analyze.
  destruct (Analyzer._call_api create) as [text|e].
  - destruct (Analyzer._parse_response json_loads parse_now text) as [r|e] eqn:P.
    + apply parse_response_ok in P as (H1 & H2 & H3).
      cbn [Analyzer.similarity_score Analyzer.risk_level Analyzer.recommendation
           Analyzer.model_used Analyzer.analyzed_at Analyzer.error
           Analyzer.patent_image_used Analyzer.product_images_used].
      repeat split; try assumption; try lia. eauto.
    + destruct (sanitized_call_failure model now e) as (H1 & H2 & H3).
      repeat split; try assumption; try lia; discriminate.
  - destruct (sanitized_call_failure model now e) as (H1 & H2 & H3).
    repeat split; try assumption; try lia; discriminate.
Qed.

Section MediaTypeFacts.
Import PyStr Analyzer.

Lemma contains_char_map_chars (f : ascii -> ascii) (d : ascii) (s : string) :
  (forall c, Ascii.eqb d (f c) = Ascii.eqb d c) ->
  contains (String d EmptyString) (map_chars f s) = contains (String d EmptyString) s.
Proof.
  intros H. induction s as [|c s IH]; [reflexivity|].
  cbn [map_chars]. now rewrite !contains_char_cons, H, IH.
Qed.

Lemma dot_upper_char (c : ascii) : Ascii.eqb "." (upper_char c) = Ascii.eqb "." c.
Proof. destruct c as [[] [] [] [] [] [] [] []]; reflexivity. Qed.

End MediaTypeFacts.

(** X20.  The media type guessed for an image is always one of the three
    the method knows (PNG, JPEG, WebP), with PNG as the fallback: bytes
    that carry none of the three signatures, under a file name without a
    dot or with an extension other than "jpg", "jpeg" and "webp", are taken
    for a PNG.  A PNG signature at the head of the bytes decides for PNG
    whatever the file name says, and the file extension is read without
    regard to case. *)
Theorem guess_media_type_is_supported (image_bytes filename : string) :
  In (Analyzer._guess_media_type image_bytes filename)
     ["image/png"; "image/jpeg"; "image/webp"]%string /\
  (PyStr.take 8 image_bytes = Analyzer.png_magic ->
   Analyzer._guess_media_type image_bytes filename = "image/png"%string) /\
  (PyStr.take 8 image_bytes <> Analyzer.png_magic ->
   PyStr.take 2 image_bytes <> Analyzer.jpeg_magic ->
   PyStr.take 4 image_bytes <> "RIFF"%string \/
   PyStr.take 4 (PyStr.drop 8 image_bytes) <> "WEBP"%string ->
   PyStr.contains "." filename = false \/
   ~ In (PyStr.rsplit_last "." (PyStr.lower filename)) ["jpg"; "jpeg"; "webp"]%string ->
   Analyzer._guess_media_type image_bytes filename = "image/png"%string) /\
  Analyzer._guess_media_type image_bytes (PyStr.upper filename)
    = Analyzer._guess_media_type image_bytes filename.
Proof.
  unfold Analyzer._guess_media_type. split; [|split; [|split]].
  - repeat match goal with |- context [if ?b then _ else _] => destruct b end;
      cbn [In]; tauto.
  - intros ->. rewrite String.eqb_refl. reflexivity.
  - intros Hpng Hjpeg Hwebp Hext.
    apply String.eqb_neq in Hpng, Hjpeg. rewrite Hpng, Hjpeg.
    assert (Hw : String.eqb (PyStr.take 4 image_bytes) "RIFF"
                 && String.eqb (PyStr.take 4 (PyStr.drop 8 image_bytes)) "WEBP" = false).
    { destruct Hwebp as [H|H]; apply String.eqb_neq in H; rewrite H;
        [reflexivity | apply andb_false_r]. }
    rewrite Hw. cbv zeta.
    destruct Hext as [Hdot|Hext]; [rewrite Hdot; reflexivity|].
    destruct (PyStr.contains "." filename); [|reflexivity].
    destruct (String.eqb_spec (PyStr.rsplit_last "." (PyStr.lower filename)) "png");
      [reflexivity|].
    destruct (String.eqb_spec (PyStr.rsplit_last "." (PyStr.lower filename)) "jpg")
      as [E|_]; [exfalso; apply Hext; rewrite E; cbn [In]; tauto|].
    destruct (String.eqb_spec (PyStr.rsplit_last "." (PyStr.lower filename)) "jpeg")
      as [E|_]; [exfalso; apply Hext; rewrite E; cbn [In]; tauto|].
    destruct (String.eqb_spec (PyStr.rsplit_last "." (PyStr.lower filename)) "webp")
      as [E|_]; [exfalso; apply Hext; rewrite E; cbn [In]; tauto|].
    reflexivity.
  - assert (H : PyStr.contains "." (PyStr.upper filename) = PyStr.contains "." filename)
      by (unfold PyStr.upper; apply contains_char_map_chars, dot_upper_char).
    cbv zeta. rewrite !H, !lower_upper. reflexivity.
Qed.

Lemma guess_media_type_is_supported_witness :
  Analyzer._guess_media_type (Analyzer.png_magic +:+ "rest of the file") "photo.JPG"
  = "image/png"%string /\
  Analyzer._guess_media_type "GIF89a" "logo.gif" = "image/png"%string /\
  Analyzer._guess_media_type "GIF89a" EmptyString = "image/png"%string.
Proof.
  split; [|split].
  - destruct (guess_media_type_is_supported (Analyzer.png_magic +:+ "rest of the file")
                                            "photo.JPG") as (_ & H & _).
    apply H. reflexivity.
  - destruct (guess_media_type_is_supported "GIF89a" "logo.gif") as (_ & _ & H & _).
    apply H; [discriminate | discriminate | left; discriminate |].
    right. vm_compute. intros [H0|[H0|[H0|[]]]]; discriminate H0.
  - destruct (guess_media_type_is_supported "GIF89a" EmptyString) as (_ & _ & H & _).
    apply H; [discriminate | discriminate | left; discriminate | left; reflexivity].
Defined.

Section ExcerptFacts.
Import PyStr Analyzer.

Lemma append_cons (c : ascii) (s t : string) : (String c s +:+ t)%string = String c (s +:+ t).
Proof. reflexivity. Qed.

Lemma append_snoc_assoc (s : string) (c : ascii) (t : string) :
  ((s +:+ String c EmptyString) +:+ t)%string = (s +:+ String c t)%string.
Proof.
  induction s as [|x s IH]; [reflexivity|]. rewrite !append_cons. now rewrite IH.
Qed.

Lemma span_brace_free_spec (s : string) :
  s = (fst (span_brace_free s) +:+ snd (span_brace_free s))%string /\
  all_chars (fun c => negb (is_brace c)) (fst (span_brace_free s)) = true.
Proof.
  induction s as [|c s [IH1 IH2]]; [split; reflexivity|].
  cbn [span_brace_free]. destruct (is_brace c) eqn:E; cbn [fst snd].
  - split; reflexivity.
  - destruct (span_brace_free s) as [run rest]. cbn [fst snd] in *.
    rewrite append_cons, <- IH1. cbn [all_chars]. now rewrite E, IH2.
Qed.

Lemma upto_close_some (s m : string) :
  upto_close s = Some m ->
  exists body post,
    s = (body +:+ "}" +:+ post)%string /\ m = (body +:+ "}")%string /\
    contains "}" body = false.
Proof.
  revert m. induction s as [|c s IH]; intros m; [discriminate|].
  cbn [upto_close]. destruct (Ascii.eqb c "}") eqn:E.
  - intros [= <-]. apply Ascii.eqb_eq in E. subst c.
    exists EmptyString, s. repeat split.
  - destruct (upto_close s) as [m'|]; [|discriminate].
    cbn [fmap option_fmap option_map]. intros [= <-].
    destruct (IH m' eq_refl) as (body & post & -> & -> & Hb).
    exists (String c body), post. repeat split.
    rewrite contains_char_cons, Hb, Ascii.eqb_sym, E. reflexivity.
Qed.

Lemma upto_close_none (s : string) :
  upto_close s = None -> contains "}" s = false.
Proof.
  induction s as [|c s IH]; [reflexivity|]. cbn [upto_close].
  destruct (Ascii.eqb c "}") eqn:E; [discriminate|].
  destruct (upto_close s); [discriminate|]. intros _.
  rewrite contains_char_cons, IH, Ascii.eqb_sym, E; reflexivity.
Qed.

Lemma contains_char_app (d : ascii) (s t : string) :
  contains (String d EmptyString) (s +:+ t)
  = contains (String d EmptyString) s || contains (String d EmptyString) t.
Proof.
  induction s as [|c s IH]; [reflexivity|].
  rewrite append_cons, !contains_char_cons, IH. now rewrite orb_assoc.
Qed.

Lemma search_score_object_some (s m : string) :
  search_score_object s = Some m ->
  exists pre run post,
    s = (pre +:+ m +:+ post)%string /\ m = ("{" +:+ run +:+ "}")%string /\
    all_chars (fun c => negb (is_brace c)) run = true /\
    contains score_key run = true.
Proof.
  induction s as [|c s IH]; [discriminate|]. cbn [search_score_object].
  assert (Hrec : search_score_object s = Some m ->
            exists pre run post,
              String c s = (pre +:+ m +:+ post)%string /\
              m = ("{" +:+ run +:+ "}")%string /\
              all_chars (fun c => negb (is_brace c)) run = true /\
              contains score_key run = true).
  { intros H. destruct (IH H) as (pre & run & post & -> & Hm & Hr & Hk).
    exists (String c pre), run, post. repeat split; assumption. }
  destruct (Ascii.eqb c "{") eqn:E; [|exact Hrec].
  destruct (span_brace_free_spec s) as [Hs Hfree].
  destruct (span_brace_free s) as [run rest]. cbn [fst snd] in *.
  destruct rest as [|c2 rest']; [exact Hrec|].
  destruct (Ascii.eqb c2 "}" && contains score_key run) eqn:F; [|exact Hrec].
  apply andb_prop in F as [F1 F2]. apply Ascii.eqb_eq in E, F1. subst c c2.
  intros [= <-]. exists EmptyString, run, rest'. repeat split; try assumption.
  rewrite Hs.
  change (String "{" (run +:+ String "}" rest')
          = String "{" ((run +:+ "}") +:+ rest'))%string.
  now rewrite append_snoc_assoc.
Qed.

Lemma search_any_object_some (s m : string) :
  search_any_object s = Some m ->
  exists pre body post,
    s = (pre +:+ m +:+ post)%string /\ m = ("{" +:+ body +:+ "}")%string /\
    contains "}" body = false.
Proof.
  induction s as [|c s IH]; [discriminate|]. cbn [search_any_object].
  assert (Hrec : search_any_object s = Some m ->
            exists pre body post,
              String c s = (pre +:+ m +:+ post)%string /\
              m = ("{" +:+ body +:+ "}")%string /\ contains "}" body = false).
  { intros H. destruct (IH H) as (pre & body & post & -> & Hm & Hb).
    exists (String c pre), body, post. repeat split; assumption. }
  destruct (Ascii.eqb c "{") eqn:E; [|exact Hrec].
  destruct (upto_close s) as [m'|] eqn:U; [|exact Hrec].
  intros [= <-]. apply Ascii.eqb_eq in E. subst c.
  destruct (upto_close_some _ _ U) as (body & post & -> & -> & Hb).
  exists EmptyString, body, post. repeat split; try assumption.
  change (String "{" (body +:+ String "}" post)
          = String "{" ((body +:+ "}") +:+ post))%string.
  now rewrite append_snoc_assoc.
Qed.

Lemma search_any_object_none (s : string) :
  search_any_object s = None ->
  forall pre mid,
    s = (pre +:+ "{" +:+ mid)%string -> contains "}" mid = false.
Proof.
  induction s as [|c s IH]; intros H pre mid Heq.
  - destruct pre; discriminate.
  - cbn [search_any_object] in H. destruct pre as [|x pre].
    + change (String c s = String "{" mid) in Heq. injection Heq as -> ->.
      rewrite Ascii.eqb_refl in H.
      destruct (upto_close mid) eqn:U; [discriminate|]. now apply upto_close_none.
    + change (String c s = String x (pre +:+ "{" +:+ mid))%string in Heq.
      injection Heq as -> ->.
      apply (IH) with (pre := pre); [|reflexivity].
      destruct (Ascii.eqb x "{"); [|exact H].
      destruct (upto_close _); [discriminate | exact H].
Qed.

End ExcerptFacts.

(** X21.  The excerpts handed to the JSON decoder are cut out of the
    reply.  The match of the second strategy is a piece of the reply that
    opens with a brace, closes with a brace, has no brace in between and
    contains the quoted key; the match of the third strategy is a piece of
    the reply from an opening brace to the first closing brace after it;
    and the third strategy finds a match whenever the reply has an opening
    brace with a closing brace somewhere after it. *)
Theorem reply_excerpts_are_pieces_of_the_reply (text m : string) :
  (Analyzer.search_score_object text = Some m ->
   exists pre run post,
     text = (pre +:+ m +:+ post)%string /\ m = ("{" +:+ run +:+ "}")%string /\
     PyStr.all_chars (fun c => negb (Analyzer.is_brace c)) run = true /\
     PyStr.contains Analyzer.score_key run = true) /\
  (Analyzer.search_any_object text = Some m ->
   exists pre body post,
     text = (pre +:+ m +:+ post)%string /\ m = ("{" +:+ body +:+ "}")%string /\
     PyStr.contains "}" body = false) /\
  (Analyzer.search_any_object text = None ->
   forall pre mid, text = (pre +:+ "{" +:+ mid)%string -> PyStr.contains "}" mid = false).
Proof.
  split; [apply search_score_object_some|].
  split; [apply search_any_object_some | apply search_any_object_none].
Qed.

Lemma reply_excerpts_are_pieces_of_the_reply_witness :
  exists pre body post,
    "Here is my analysis: {'score': 50} Thanks"%string
      = (pre +:+ "{'score': 50}" +:+ post)%string /\
    "{'score': 50}"%string = ("{" +:+ body +:+ "}")%string /\
    PyStr.contains "}" body = false.
Proof.
  apply (reply_excerpts_are_pieces_of_the_reply
           "Here is my analysis: {'score': 50} Thanks" "{'score': 50}").
  reflexivity.
Defined.

(* ===================================================================== *)
(** * Properties of the two source adapters                               *)
(* ===================================================================== *)

Section RequestFacts.
Import PyStr Analyzer UsptoClient Properties.
Local Open Scope Z_scope.

Lemma request_from_ext (send send' : nat -> HttpOutcome) (max_retries : nat) :
  forall remaining attempt,
  (forall k, (attempt <= k < attempt + remaining)%nat -> send k = send' k) ->
  _request_from send max_retries attempt remaining
  = _request_from send' max_retries attempt remaining.
Proof.
  induction remaining as [|remaining IH]; intros attempt H; [reflexivity|].
  cbn [_request_from]. rewrite <- (H attempt) by lia.
  assert (Hrec : _request_from send max_retries (S attempt) remaining
                 = _request_from send' max_retries (S attempt) remaining)
    by (apply IH; intros k Hk; apply H; lia).
  now rewrite Hrec.
Qed.

Lemma request_from_rate_limited (send : nat -> HttpOutcome) (max_retries : nat) :
  forall remaining attempt,
  (forall k, (attempt <= k < attempt + remaining)%nat -> rate_limited (send k) = true) ->
  _request_from send max_retries attempt remaining = Ok (JObject ∅).
Proof.
  induction remaining as [|remaining IH]; intros attempt H; [reflexivity|].
  cbn [_request_from]. pose proof (H attempt) as Ha.
  destruct (send attempt) as [sc err body|e|e]; cbn [rate_limited] in Ha;
    try (discriminate Ha; lia).
  rewrite Ha by lia. apply IH. intros k Hk. apply H. lia.
Qed.

Lemma request_from_raise (send : nat -> HttpOutcome) (max_retries : nat) (e : Exn) :
  forall remaining attempt,
  _request_from send max_retries attempt remaining = Raise e ->
  exists k, (attempt <= k < attempt + remaining)%nat /\
            raised_by max_retries k (send k) e.
Proof.
  induction remaining as [|remaining IH]; intros attempt; [discriminate|].
  cbn [_request_from].
  assert (Hrec : _request_from send max_retries (S attempt) remaining = Raise e ->
            exists k, (attempt <= k < attempt + S remaining)%nat /\
                      raised_by max_retries k (send k) e).
  { intros H. apply IH in H as (k & Hk & H). exists k. split; [lia | exact H]. }
  destruct (send attempt) as [sc err body|e'|e'] eqn:E.
  - destruct (sc =? 429) eqn:E1; [exact Hrec|].
    destruct (sc =? 404) eqn:E2; [discriminate|].
    apply Z.eqb_neq in E1, E2.
    destruct ((400 <=? sc) && (sc <? 600)) eqn:E3.
    + destruct ((500 <=? sc) && (attempt <? max_retries)%nat) eqn:E4; [exact Hrec|].
      intros [= ->]. exists attempt. split; [lia|]. rewrite E. cbn [raised_by].
      rewrite E3. repeat split; try assumption.
      apply andb_false_iff in E4 as [E4|E4].
      * left. apply Z.leb_gt in E4. lia.
      * apply Nat.ltb_ge in E4. now right.
    + intros H. exists attempt. split; [lia|]. rewrite E. cbn [raised_by].
      rewrite E3. repeat split; assumption.
  - destruct (attempt =? max_retries)%nat eqn:E1; [|exact Hrec].
    intros [= ->]. exists attempt. split; [lia|]. rewrite E. cbn [raised_by].
    split; [reflexivity|]. now apply Nat.eqb_eq.
  - intros [= ->]. exists attempt. split; [lia|]. rewrite E. reflexivity.
Qed.

End RequestFacts.

(** X22.  Persistent rate limiting is not reported.  When every one of the
    [max_retries] requests is answered with status 429, [_request] raises
    nothing and returns the empty dict, just as it does for a 404; with
    [max_retries] at zero it returns the empty dict without sending a
    request. *)
Theorem request_rate_limited_returns_empty
    (send : nat -> UsptoClient.HttpOutcome) (max_retries : nat) :
  (forall k, (1 <= k <= max_retries)%nat ->
             Properties.rate_limited (send k) = true) ->
  UsptoClient._request send max_retries = Ok (Analyzer.JObject ∅).
Proof.
  intros H. unfold UsptoClient._request. apply request_from_rate_limited.
  intros k Hk. apply H. lia.
Qed.

Lemma request_rate_limited_returns_empty_witness :
  UsptoClient._request
    (fun _ => UsptoClient.Response 429
                {| exn_class := OtherException "HTTPError";
                   exn_str := "429 Client Error" |}
                (Ok Analyzer.JNull)) 3
  = Ok (Analyzer.JObject ∅).
Proof.
  apply request_rate_limited_returns_empty. intros k _. reflexivity.
Defined.

(** X23.  [_request] sends at most [max_retries] requests, and every
    exception it raises is the one of its last request: its result depends
    on the outcomes of requests 1 to [max_retries] only, and when it raises
    the exception is that of a request that timed out on the last attempt,
    was answered with an error status that is not retried (a 4xx other
    than 404 and 429, or a 5xx on the last attempt), returned a body that
    does not decode, or failed with any other exception. *)
Theorem request_failure_comes_from_last_request
    (send send' : nat -> UsptoClient.HttpOutcome) (max_retries : nat) :
  ((forall k, (1 <= k <= max_retries)%nat -> send k = send' k) ->
   UsptoClient._request send max_retries = UsptoClient._request send' max_retries) /\
  (forall e, UsptoClient._request send max_retries = Raise e ->
     exists k, (1 <= k <= max_retries)%nat /\
               Properties.raised_by max_retries k (send k) e).
Proof.
  unfold UsptoClient._request. split.
  - intros H. apply request_from_ext. intros k Hk. apply H. lia.
  - intros e H. apply request_from_raise in H as (k & Hk & H).
    exists k. split; [lia | exact H].
Qed.

Lemma request_failure_comes_from_last_request_witness :
  UsptoClient._request
    (fun k => if (k <=? 3)%nat
              then UsptoClient.TimedOut {| exn_class := OtherException "Timeout";
                                          exn_str := "timed out" |}
              else UsptoClient.Response 200 {| exn_class := OtherException "HTTPError";
                                               exn_str := EmptyString |}
                                        (Ok Analyzer.JNull)) 3
  = UsptoClient._request
      (fun _ => UsptoClient.TimedOut {| exn_class := OtherException "Timeout";
                                       exn_str := "timed out" |}) 3.
Proof.
  apply request_failure_comes_from_last_request.
  intros k Hk. destruct (Nat.leb_spec k 3); [reflexivity | lia].
Defined.

Section GazetteFacts.
Import PyStr Calendar Models Config Db Service GazetteScraper Statements Properties.
Local Open Scope Z_scope.

Lemma scrape_urls_passed_over (get : string -> PageOutcome) (urls : list string) :
  (forall url, In url urls -> passed_over (get url) = true) ->
  scrape_urls get urls = Ok [].
Proof.
  induction urls as [|url urls IH]; intros H; [reflexivity|].
  cbn [scrape_urls]. pose proof (H url (or_introl eq_refl)) as Hu.
  assert (Hrec : scrape_urls get urls = Ok []) by (apply IH; intros u Hin; apply H; now right).
  destruct (get url) as [sc parsed|e|e]; cbn [passed_over] in Hu; [| exact Hrec | discriminate].
  destruct (sc =? 404); [exact Hrec|]. cbn [orb] in Hu. now rewrite Hu.
Qed.

Lemma scrape_urls_first (get : string -> PageOutcome) (before after : list string)
    (url : string) :
  (forall u, In u before -> passed_over (get u) = true) ->
  passed_over (get url) = false ->
  scrape_urls get (before ++ url :: after)
  = match get url with
    | Page _ parsed => parsed
    | RequestFailed e | OtherFailure e => Raise e
    end.
Proof.
  induction before as [|b before IH]; intros H Hu.
  - cbn [app scrape_urls]. destruct (get url) as [sc parsed|e|e]; cbn [passed_over] in Hu;
      [| discriminate | reflexivity].
    apply orb_false_elim in Hu as [H1 H2]. now rewrite H1, H2.
  - cbn [app scrape_urls]. pose proof (H b (or_introl eq_refl)) as Hb.
    assert (Hrec : scrape_urls get (before ++ url :: after)
                   = match get url with
                     | Page _ parsed => parsed
                     | RequestFailed e | OtherFailure e => Raise e
                     end) by (apply IH; [intros u Hin; apply H; now right | exact Hu]).
    destruct (get b) as [sc parsed|e|e]; cbn [passed_over] in Hb; [| exact Hrec | discriminate].
    destruct (sc =? 404); [exact Hrec|]. cbn [orb] in Hb. now rewrite Hb.
Qed.

End GazetteFacts.

(** X24.  A gazette outage is silent.  When every gazette URL of the week
    answers with a 404, with another error status, or fails with a request
    exception, [scrape_week] raises nothing and returns the empty list; a
    scan whose gazette source is this scraper then reports no error for the
    gazette, adds no patent, and logs the gazette run as a successful run
    with zero results. *)
Theorem gazette_outage_is_silent
    (get : string -> GazetteScraper.PageOutcome) (week_num : Z)
    (db : Db.Database) (criteria_list : list Config.SearchCriteriaConfig)
    (srcs : Service.Sources) (clk : Service.GazetteClock) :
  (forall url, In url (GazetteScraper.ALT_URLS (Calendar.pad2 week_num)) ->
               Properties.passed_over (get url) = true) ->
  Service.scrape_current_week srcs = GazetteScraper.scrape_week get week_num ->
  GazetteScraper.scrape_week get week_num = Ok [] /\
  exists db' row,
    Service._search_gazette db criteria_list srcs clk = (([], 0%Z, None), db') /\
    Db.patents db' = Db.patents db /\
    Db.search_runs db' = Db.search_runs db ++ [row] /\
    row !! "source" = Some (Db.SqlText "gazette") /\
    row !! "error" = Some Db.SqlNull /\
    row !! "results_count" = Some (Db.SqlInt 0).
Proof.
  intros Hskip Hsrc.
  assert (Hempty : GazetteScraper.scrape_week get week_num = Ok [])
    by (apply scrape_urls_passed_over, Hskip).
  split; [exact Hempty|].
  destruct (search_gazette_spec db criteria_list srcs clk)
    as (run & Heq & Hs & He & Hc & _).
  cbv zeta in Heq. rewrite Hsrc, Hempty in *.
  cbn [Statements.after_try Service.scan_loop fst snd Statements.fetched_of
       Statements.error_of Statements.run_error_of List.length Z.of_nat] in *.
  eexists. eexists. split; [exact Heq|]. cbn [Db.log_search_run Db.patents Db.search_runs].
  split; [reflexivity|]. split; [reflexivity|].
  destruct (search_run_row_fields (Z.of_nat (List.length (Db.search_runs db)) + 1) run)
    as (F1 & F2 & F3 & _).
  rewrite F1, F2, F3, Hs, He, Hc. repeat split.
Qed.

Lemma gazette_outage_is_silent_witness :
  GazetteScraper.scrape_week (fun _ => GazetteScraper.Page 404 (Ok [])) 8 = Ok [].
Proof.
  apply (gazette_outage_is_silent
           (fun _ => GazetteScraper.Page 404 (Ok [])) 8 Db.empty_db []
           {| Service.search_design_patents := fun _ _ _ => Ok [];
              Service.scrape_current_week :=
                GazetteScraper.scrape_week (fun _ => GazetteScraper.Page 404 (Ok [])) 8 |}
           (Service.gazette_clock Samples.test_clock)).
  - intros url _. reflexivity.
  - reflexivity.
Defined.

(** X25.  The first gazette URL that answers decides.  When the URLs tried
    before a given one were all skipped (404, error status or request
    exception) and that one answers with a page, [scrape_urls] returns the
    outcome of parsing that page, a parse failure included, whatever the
    later URLs would answer. *)
Theorem gazette_first_answer_decides
    (get : string -> GazetteScraper.PageOutcome) (before after : list string)
    (url : string) (status_code : Z) (parsed : Res (list Models.Patent)) :
  (forall u, In u before -> Properties.passed_over (get u) = true) ->
  get url = GazetteScraper.Page status_code parsed ->
  Properties.passed_over (get url) = false ->
  GazetteScraper.scrape_urls get (before ++ url :: after) = parsed.
Proof.
  intros Hb Hu Hs. rewrite (scrape_urls_first get before after url Hb Hs), Hu. reflexivity.
Qed.

Lemma gazette_first_answer_decides_witness :
  GazetteScraper.scrape_urls
    (fun u => if String.eqb u "first"
              then GazetteScraper.RequestFailed
                     {| exn_class := OtherException "ConnectionError";
                        exn_str := "unreachable" |}
              else GazetteScraper.Page 200 (Ok [Samples.eyeglasses_frame]))
    (["first"%string] ++ "second"%string :: ["third"%string])
  = Ok [Samples.eyeglasses_frame].
Proof.
  apply (gazette_first_answer_decides _ ["first"%string] ["third"%string] "second" 200).
  - intros u [<-|[]]. reflexivity.
  - reflexivity.
  - reflexivity.
Defined.

(* ===================================================================== *)
(** * Reading the store back                                              *)
(* ===================================================================== *)

Section JsonRoundTrip.
Import PyStr Json.

Lemma string_append_assoc (a b c : string) :
  ((a +:+ b) +:+ c)%string = (a +:+ (b +:+ c))%string.
Proof.
  induction a as [|x a IH]; [reflexivity|].
  change (String x ((a +:+ b) +:+ c) = String x (a +:+ (b +:+ c)))%string.
  now rewrite IH.
Qed.

Lemma string_append_nil_r (a : string) : (a +:+ EmptyString)%string = a.
Proof.
  induction a as [|x a IH]; [reflexivity|].
  change (String x (a +:+ EmptyString) = String x a)%string. now rewrite IH.
Qed.

(** The decoder reads an escaped character back. *)
Lemma loads_escape_char (c : ascii) (current : list ascii) (items : list string)
    (rest : string) :
  loads_from InString current items (escape_char c +:+ rest)
  = loads_from InString (c :: current) items rest.
Proof. destruct c as [[] [] [] [] [] [] [] []]; reflexivity. Qed.

Lemma loads_escape (s : string) : forall current items rest,
  loads_from InString current items (escape s +:+ rest)
  = loads_from InString (rev (list_ascii_of_string s) ++ current) items rest.
Proof.
  induction s as [|c s IH]; intros current items rest; [reflexivity|].
  cbn [escape list_ascii_of_string rev].
  rewrite string_append_assoc, loads_escape_char, IH, <- app_assoc. reflexivity.
Qed.

Lemma loads_dumps_str (x : string) (items : list string) (rest : string) :
  loads_from AfterOpen [] items (dumps_str x +:+ rest)
    = loads_from AfterString [] (x :: items) rest /\
  loads_from AfterComma [] items (dumps_str x +:+ rest)
    = loads_from AfterString [] (x :: items) rest.
Proof.
  unfold dumps_str.
  change (String dquote (escape x +:+ String dquote EmptyString) +:+ rest)%string
    with (String dquote ((escape x +:+ String dquote EmptyString) +:+ rest))%string.
  rewrite string_append_assoc.
  change (String dquote EmptyString +:+ rest)%string with (String dquote rest).
  assert (H : loads_from InString [] items (escape x +:+ String dquote rest)
              = loads_from AfterString [] (x :: items) rest).
  { rewrite loads_escape, app_nil_r.
    change (loads_from AfterString []
              (string_of_list_ascii (rev (rev (list_ascii_of_string x))) :: items) rest
            = loads_from AfterString [] (x :: items) rest).
    now rewrite rev_involutive, string_of_list_ascii_of_string. }
  split; exact H.
Qed.

Lemma loads_items (l : list string) : forall items,
  l <> [] ->
  loads_from AfterOpen [] items (join ", " (map dumps_str l) +:+ "]")
    = Some (rev items ++ l) /\
  loads_from AfterComma [] items (join ", " (map dumps_str l) +:+ "]")
    = Some (rev items ++ l).
Proof.
  induction l as [|x l IH]; intros items Hne; [congruence|].
  destruct l as [|y l].
  - cbn [map join]. destruct (loads_dumps_str x items "]") as [-> ->].
    cbn [loads_from rev]. split; reflexivity.
  - assert (Hj : (join ", " (map dumps_str (x :: y :: l)) +:+ "]")%string
                 = (dumps_str x +:+
                    String "," (String " " (join ", " (map dumps_str (y :: l)) +:+ "]")))%string).
    { change (join ", " (map dumps_str (x :: y :: l)))
        with (dumps_str x +:+ ", " +:+ join ", " (map dumps_str (y :: l)))%string.
      rewrite !string_append_assoc. reflexivity. }
    rewrite Hj. destruct (loads_dumps_str x items
      (String "," (String " " (join ", " (map dumps_str (y :: l)) +:+ "]")))) as [-> ->].
    destruct (IH (x :: items)) as [_ H]; [discriminate|].
    change (loads_from AfterString [] (x :: items)
              (String "," (String " " (join ", " (map dumps_str (y :: l)) +:+ "]"))))
      with (loads_from AfterComma [] (x :: items)
              (join ", " (map dumps_str (y :: l)) +:+ "]")).
    rewrite H. cbn [rev]. rewrite <- app_assoc. split; reflexivity.
Qed.

(** [json.loads(json.dumps(l)) == l] for a list of strings. *)
Lemma loads_dumps_str_list (l : list string) :
  loads_str_list (dumps_str_list l) = Some l.
Proof.
  unfold loads_str_list, dumps_str_list.
  change (loads_from AfterOpen [] [] (join ", " (map dumps_str l) +:+ "]") = Some l).
  destruct l as [|x l]; [reflexivity|].
  destruct (loads_items (x :: l) []) as [H _]; [discriminate|]. exact H.
Qed.

Lemma dumps_str_list_not_empty (l : list string) : is_empty (dumps_str_list l) = false.
Proof. reflexivity. Qed.

End JsonRoundTrip.

Section IsoRoundTrip.
Import PyStr Calendar.
Local Open Scope Z_scope.

Lemma six_digits (n : Z) :
  0 <= n <= 999999 ->
  (n / 100000) mod 10 * 100000 + (n / 10000) mod 10 * 10000
  + (n / 1000) mod 10 * 1000 + (n / 100) mod 10 * 100
  + (n / 10) mod 10 * 10 + n mod 10 = n.
Proof. intros H. Z.to_euclidean_division_equations. lia. Qed.

Lemma date_fromisoformat_isoformat (d : date) :
  valid_date d = true -> date_fromisoformat (date_isoformat d) = Ok d.
Proof.
  intros Hv. unfold date_fromisoformat.
  rewrite <- (string_append_nil_r (date_isoformat d)).
  now rewrite parse_date_isoformat.
Qed.

Lemma date_isoformat_not_empty (d : date) : is_empty (date_isoformat d) = false.
Proof. reflexivity. Qed.

Lemma datetime_isoformat_not_empty (t : datetime) : is_empty (datetime_isoformat t) = false.
Proof. reflexivity. Qed.

Lemma parse_two_digits_pad2 (n : Z) (rest : string) :
  0 <= n <= 99 -> parse_two_digits (pad2 n +:+ rest) = Some (n, rest).
Proof.
  intros H. unfold parse_two_digits, pad2.
  cbv beta iota delta [String.append]. rewrite !digit_value_digit.
  now rewrite two_digits.
Qed.

Lemma parse_fraction_pad6 (n : Z) :
  0 <= n <= 999999 -> parse_fraction (pad6 n) = Some n.
Proof.
  intros H. unfold parse_fraction, pad6, pad4, pad2.
  rewrite !digit_value_digit. now rewrite six_digits.
Qed.

Lemma valid_datetime_bounds (t : datetime) :
  valid_datetime t = true ->
  valid_date (dt_date t) = true /\ 0 <= hour t <= 23 /\ 0 <= minute t <= 59 /\
  0 <= second t <= 59 /\ 0 <= microsecond t <= 999999.
Proof.
  unfold valid_datetime. intros H.
  repeat match goal with
  | H : (_ && _)%bool = true |- _ => apply andb_prop in H; destruct H
  | H : (_ <=? _) = true |- _ => apply Z.leb_le in H
  end.
  repeat split; assumption.
Qed.

Lemma parse_time_isoformat (t : datetime) :
  valid_datetime t = true ->
  parse_time (pad2 (hour t) +:+ ":" +:+ pad2 (minute t) +:+ ":" +:+ pad2 (second t) +:+
              (if microsecond t =? 0 then EmptyString else "." +:+ pad6 (microsecond t)))
  = Some (hour t, minute t, second t, microsecond t).
Proof.
  intros Hv. apply valid_datetime_bounds in Hv as (_ & Hh & Hm & Hs & Hu).
  assert (Hstep : forall n rest, 0 <= n <= 99 ->
            parse_two_digits (pad2 n +:+ String ":" rest) = Some (n, String ":" rest))
    by (intros; now apply parse_two_digits_pad2).
  destruct (microsecond t =? 0) eqn:E.
  - apply Z.eqb_eq in E. rewrite E. unfold parse_time.
    change (":" +:+ pad2 (minute t) +:+ ":" +:+ pad2 (second t) +:+ EmptyString)%string
      with (String ":" (pad2 (minute t) +:+
                        String ":" (pad2 (second t) +:+ EmptyString)))%string.
    rewrite Hstep by lia. cbv beta iota.
    change (negb (Ascii.eqb ":" ":")) with false. cbv beta iota.
    rewrite Hstep by lia. cbv beta iota.
    change (negb (Ascii.eqb ":" ":")) with false. cbv beta iota.
    rewrite parse_two_digits_pad2 by lia. reflexivity.
  - unfold parse_time.
    change (":" +:+ pad2 (minute t) +:+ ":" +:+ pad2 (second t) +:+
            "." +:+ pad6 (microsecond t))%string
      with (String ":" (pad2 (minute t) +:+
                        String ":" (pad2 (second t) +:+
                                    String "." (pad6 (microsecond t)))))%string.
    rewrite Hstep by lia. cbv beta iota.
    change (negb (Ascii.eqb ":" ":")) with false. cbv beta iota.
    rewrite Hstep by lia. cbv beta iota.
    change (negb (Ascii.eqb ":" ":")) with false. cbv beta iota.
    rewrite parse_two_digits_pad2 by lia. cbv beta iota.
    change (negb (Ascii.eqb "." ".")) with false. cbv beta iota.
    now rewrite parse_fraction_pad6.
Qed.

(** [datetime.fromisoformat(t.isoformat()) == t] *)
Lemma datetime_fromisoformat_roundtrip (t : datetime) :
  valid_datetime t = true -> datetime_fromisoformat (datetime_isoformat t) = Ok t.
Proof.
  intros Hv. pose proof (valid_datetime_bounds t Hv) as (Hd & _).
  unfold datetime_fromisoformat, datetime_isoformat.
  rewrite parse_date_isoformat by exact Hd.
  pose proof (parse_time_isoformat t Hv) as Ht.
  set (time_text := (pad2 (hour t) +:+ ":" +:+ pad2 (minute t) +:+ ":" +:+
                     pad2 (second t) +:+ _)%string) in *.
  change ("T" +:+ time_text)%string with (String "T" time_text).
  cbv beta iota. rewrite Ht. cbv beta iota zeta.
  replace {| dt_date := dt_date t; hour := hour t; minute := minute t;
             second := second t; microsecond := microsecond t |} with t
    by (destruct t; reflexivity).
  now rewrite Hv.
Qed.

End IsoRoundTrip.

Section RowRoundTrip.
Import PyStr Calendar Models Db Properties.

Lemma patent_row_text_columns id p mc :
  patent_row id p mc !! "title" = Some (SqlText (title p)) /\
  patent_row id p mc !! "application_number" = Some (SqlText (application_number p)) /\
  patent_row id p mc !! "filing_date"
    = Some (sql_text_opt (date_isoformat <$> filing_date p)) /\
  patent_row id p mc !! "inventors" = Some (SqlText (Json.dumps_str_list (inventors p))) /\
  patent_row id p mc !! "assignee" = Some (SqlText (assignee p)) /\
  patent_row id p mc !! "classification_us" = Some (SqlText (classification_us p)) /\
  patent_row id p mc !! "classification_cpc" = Some (SqlText (classification_cpc p)) /\
  patent_row id p mc !! "classification_locarno"
    = Some (SqlText (classification_locarno p)) /\
  patent_row id p mc !! "image_url" = Some (sql_text_opt (image_url p)) /\
  patent_row id p mc !! "abstract" = Some (sql_text_opt (abstract p)) /\
  patent_row id p mc !! "status" = Some (SqlText (status p)) /\
  patent_row id p mc !! "notes" = Some (sql_text_opt (notes p)) /\
  patent_row id p mc !! "notified_at" = Some SqlNull /\
  patent_row id p mc !! "ai_analysis" = Some SqlNull.
Proof.
  unfold patent_row.
  set (a1 := SqlText (title p)). set (a2 := SqlText (application_number p)).
  set (a3 := sql_text_opt (date_isoformat <$> filing_date p)).
  set (a4 := SqlText (Json.dumps_str_list (inventors p))).
  set (a5 := SqlText (assignee p)). set (a6 := SqlText (classification_us p)).
  set (a7 := SqlText (classification_cpc p)).
  set (a8 := SqlText (classification_locarno p)).
  set (a9 := sql_text_opt (image_url p)). set (a10 := sql_text_opt (abstract p)).
  set (a11 := SqlText (status p)). set (a12 := sql_text_opt (notes p)).
  clearbody a1 a2 a3 a4 a5 a6 a7 a8 a9 a10 a11 a12.
  repeat match goal with
  | |- context [@pair string SqlValue ?k ?v] =>
      progress (tryif is_var v then fail
                else (let y := fresh "v" in generalize v; intro y))
  end.
  repeat split; vm_compute; reflexivity.
Qed.

Lemma text_or_text (s d : string) :
  text_or (Some (SqlText s)) d = if is_empty s then d else s.
Proof. reflexivity. Qed.

Lemma text_or_empty (s : string) : text_or (Some (SqlText s)) EmptyString = s.
Proof. rewrite text_or_text. now destruct s. Qed.

Lemma text_opt_sql_text_opt (o : option string) : text_opt (Some (sql_text_opt o)) = o.
Proof. now destruct o. Qed.

(** Decoding the row that [insert_patent] writes. *)
Lemma row_to_patent_patent_row id p mc :
  storable p -> _row_to_patent (patent_row id p mc) = Ok (as_stored p).
Proof.
  intros (Hi & Hf & Hs).
  destruct (patent_row_text_columns id p mc)
    as (C1 & C2 & C3 & C4 & C5 & C6 & C7 & C8 & C9 & C10 & C11 & C12 & C13 & C14).
  unfold _row_to_patent.
  rewrite patent_row_issue_date, patent_row_first_seen, patent_row_lookup_number.
  rewrite C1, C2, C3, C4, C5, C6, C7, C8, C9, C10, C11, C12, C13.
  rewrite !text_or_empty, !text_opt_sql_text_opt, text_or_text.
  cbn [text_of]. rewrite date_fromisoformat_isoformat by exact Hi.
  assert (Hfd : parse_if_set date_fromisoformat
                  (Some (sql_text_opt (date_isoformat <$> filing_date p)))
                = Ok (filing_date p)).
  { destruct (filing_date p) as [d|] eqn:E; [|reflexivity].
    cbn [fmap option_fmap option_map sql_text_opt]. unfold parse_if_set. cbn [text_opt].
    rewrite date_isoformat_not_empty, date_fromisoformat_isoformat; [reflexivity|].
    now apply Hf. }
  rewrite Hfd.
  unfold load_inventors. cbn [text_opt].
  rewrite dumps_str_list_not_empty, loads_dumps_str_list.
  rewrite datetime_fromisoformat_roundtrip by exact Hs.
  unfold parse_if_set at 1. cbn [text_opt].
  reflexivity.
Qed.

Lemma get_patent_row_after_insert db p mc :
  patent_exists db (patent_number p) = false ->
  get_patent_row (snd (insert_patent db p mc)) (patent_number p)
  = Some (patent_row (Z.of_nat (List.length (patents db)) + 1) p mc).
Proof.
  intros H. unfold get_patent_row, insert_patent. rewrite H. cbn [snd patents].
  apply find_app_last; [exact H | now rewrite patent_row_number, String.eqb_refl].
Qed.

End RowRoundTrip.

(** X26.  A patent put into the store is read back unchanged, up to two
    fields.  After [insert_patent] of a patent whose number is not yet
    tracked, [get_patent] for its number returns the patent with the same
    number, title, dates, inventors, assignee, classes, image URL, abstract,
    first-seen time and notes; the status reads back as "new" when it was
    the empty text; and [notified_at] reads back as None, because the
    insert does not write it.  A number that is not tracked gives None. *)
Theorem insert_then_get_patent (db : Db.Database) (p : Models.Patent)
    (mc : option (list string)) :
  Properties.storable p ->
  Db.patent_exists db (Models.patent_number p) = false ->
  Db.get_patent db (Models.patent_number p) = Ok None /\
  Db.get_patent (snd (Db.insert_patent db p mc)) (Models.patent_number p)
    = Ok (Some (Properties.as_stored p)).
Proof.
  intros Hs Hne. split.
  - unfold Db.get_patent, Db.get_patent_row.
    now rewrite (find_none_exists _ _ Hne).
  - unfold Db.get_patent. rewrite get_patent_row_after_insert by exact Hne.
    now rewrite row_to_patent_patent_row.
Qed.

Lemma insert_then_get_patent_witness :
  Db.get_patent (snd (Db.insert_patent Db.empty_db Samples.eyeglasses_frame None))
                "D1012345"
  = Ok (Some Samples.eyeglasses_frame).
Proof.
  apply (insert_then_get_patent Db.empty_db Samples.eyeglasses_frame None).
  - split; [reflexivity|]. split; [discriminate | reflexivity].
  - reflexivity.
Defined.

Section UpdateReadBack.
Import PyStr Calendar Models Db Properties.

Ltac other_columns :=
  repeat rewrite lookup_insert_ne by discriminate.

Lemma row_to_patent_status (row : Row) (st : string) (p : Patent) :
  _row_to_patent row = Ok p ->
  _row_to_patent (<["status" := SqlText st]> row)
  = Ok (set_status p (status_read_back st)).
Proof.
  unfold _row_to_patent. rewrite lookup_insert_eq. other_columns.
  destruct (date_fromisoformat _); [|discriminate].
  destruct (parse_if_set date_fromisoformat _); [|discriminate].
  destruct (load_inventors _); [|discriminate].
  destruct (datetime_fromisoformat _); [|discriminate].
  destruct (parse_if_set datetime_fromisoformat _); [|discriminate].
  intros [= <-]. reflexivity.
Qed.

Lemma row_to_patent_notified (row : Row) (now : datetime) (p : Patent) :
  valid_datetime now = true ->
  _row_to_patent row = Ok p ->
  _row_to_patent (<["notified_at" := SqlText (datetime_isoformat now)]> row)
  = Ok (set_notified_at p (Some now)).
Proof.
  intros Hv. unfold _row_to_patent. rewrite lookup_insert_eq. other_columns.
  destruct (date_fromisoformat _); [|discriminate].
  destruct (parse_if_set date_fromisoformat _); [|discriminate].
  destruct (load_inventors _); [|discriminate].
  destruct (datetime_fromisoformat _); [|discriminate].
  destruct (parse_if_set datetime_fromisoformat (row !! "notified_at")); [|discriminate].
  intros [= <-]. unfold parse_if_set. cbn [text_opt].
  rewrite datetime_isoformat_not_empty, datetime_fromisoformat_roundtrip by exact Hv.
  reflexivity.
Qed.

Lemma row_to_patent_analysis (row : Row) (js : string) :
  _row_to_patent (<["ai_analysis" := SqlText js]> row) = _row_to_patent row.
Proof. unfold _row_to_patent. other_columns. reflexivity. Qed.

Lemma get_patent_some (db : Database) (pn : string) (p : Patent) :
  get_patent db pn = Ok (Some p) ->
  exists row, get_patent_row db pn = Some row /\ _row_to_patent row = Ok p.
Proof.
  unfold get_patent. destruct (get_patent_row db pn) as [row|]; [|discriminate].
  destruct (_row_to_patent row) as [q|] eqn:E; [|discriminate].
  intros [= <-]. eauto.
Qed.

End UpdateReadBack.

(** X27.  What the keyed updates write is what [get_patent] reads.  For a
    tracked patent, after [update_patent_status] the patent is returned
    with the new status (the empty text reads back as "new"), after
    [mark_notified] with the notification time that was written, and after
    [update_ai_analysis] unchanged; in each case every other field is as
    before, and the patents of the other numbers are returned as before. *)
Theorem updates_are_read_back (db : Db.Database) (pn : string) (p : Models.Patent) :
  Db.get_patent db pn = Ok (Some p) ->
  (forall st,
     Db.get_patent (Db.update_patent_status db pn st) pn
       = Ok (Some (Properties.set_status p (Properties.status_read_back st))) /\
     forall s, s <> pn ->
       Db.get_patent (Db.update_patent_status db pn st) s = Db.get_patent db s) /\
  (forall now,
     Calendar.valid_datetime now = true ->
     Db.get_patent (Db.mark_notified db now pn) pn
       = Ok (Some (Properties.set_notified_at p (Some now))) /\
     forall s, s <> pn ->
       Db.get_patent (Db.mark_notified db now pn) s = Db.get_patent db s) /\
  (forall js,
     Db.get_patent (Db.update_ai_analysis db pn js) pn = Ok (Some p) /\
     forall s, s <> pn ->
       Db.get_patent (Db.update_ai_analysis db pn js) s = Db.get_patent db s).
Proof.
  intros H. apply get_patent_some in H as (row & Hrow & Hp).
  split; [|split].
  - intros st.
    destruct (update_patents_only db pn "status" (Db.SqlText st))
      as (_ & _ & _ & _ & Hsame & Hother & _); [discriminate|].
    fold (Db.update_patent_status db pn st) in Hsame, Hother.
    unfold Db.get_patent. split.
    + rewrite Hsame, Hrow. cbn [fmap option_fmap option_map].
      now rewrite (row_to_patent_status _ _ _ Hp).
    + intros s Hs. now rewrite Hother.
  - intros now Hv.
    destruct (update_patents_only db pn "notified_at"
                (Db.SqlText (Calendar.datetime_isoformat now)))
      as (_ & _ & _ & _ & Hsame & Hother & _); [discriminate|].
    fold (Db.mark_notified db now pn) in Hsame, Hother.
    unfold Db.get_patent. split.
    + rewrite Hsame, Hrow. cbn [fmap option_fmap option_map].
      now rewrite (row_to_patent_notified _ _ _ Hv Hp).
    + intros s Hs. now rewrite Hother.
  - intros js.
    destruct (update_patents_only db pn "ai_analysis" (Db.SqlText js))
      as (_ & _ & _ & _ & Hsame & Hother & _); [discriminate|].
    fold (Db.update_ai_analysis db pn js) in Hsame, Hother.
    unfold Db.get_patent. split.
    + rewrite Hsame, Hrow. cbn [fmap option_fmap option_map].
      now rewrite row_to_patent_analysis, Hp.
    + intros s Hs. now rewrite Hother.
Qed.

Lemma updates_are_read_back_witness :
  Db.get_patent (Db.update_patent_status Samples.tracked_frame "D1012345" "flagged")
                "D1012345"
  = Ok (Some (Properties.set_status Samples.eyeglasses_frame
                                    (Properties.status_read_back "flagged"))).
Proof.
  assert (H : Db.get_patent Samples.tracked_frame "D1012345"
              = Ok (Some Samples.eyeglasses_frame)).
  { pose proof (get_patent_row_after_insert Db.empty_db Samples.eyeglasses_frame None
                  eq_refl) as R.
    change (Models.patent_number Samples.eyeglasses_frame) with "D1012345"%string in R.
    unfold Db.get_patent, Samples.tracked_frame. rewrite R.
    rewrite row_to_patent_patent_row; [reflexivity|].
    split; [reflexivity|]. split; [discriminate | reflexivity]. }
  exact (proj1 (proj1 (updates_are_read_back _ _ _ H) "flagged")).
Defined.

(* ===================================================================== *)
(** * Properties of the AI analysis batch                                 *)
(* ===================================================================== *)

Section AiBatchFacts.
Import PyStr Calendar Models Db Analyzer AiService Properties.
Local Open Scope Z_scope.

Lemma row_to_patent_number (row : Row) (p : Patent) :
  _row_to_patent row = Ok p -> patent_number p = text_of (row !! "patent_number").
Proof.
  unfold _row_to_patent.
  destruct (date_fromisoformat _); [|discriminate].
  destruct (parse_if_set date_fromisoformat _); [|discriminate].
  destruct (load_inventors _); [|discriminate].
  destruct (datetime_fromisoformat _); [|discriminate].
  destruct (parse_if_set datetime_fromisoformat _); [|discriminate].
  intros [= <-]. reflexivity.
Qed.

Lemma get_patent_exists (db : Database) (pn : string) (p : Patent) :
  get_patent db pn = Ok (Some p) ->
  patent_number p = pn /\ patent_exists db pn = true.
Proof.
  intros H. apply get_patent_some in H as (row & Hrow & Hp).
  unfold get_patent_row in Hrow. apply find_some in Hrow as [Hin Hc].
  split.
  - rewrite (row_to_patent_number _ _ Hp). apply col_is_true in Hc. now rewrite Hc.
  - unfold patent_exists. apply existsb_exists. eauto.
Qed.

Lemma get_listed_patents_exist (db : Database) (pns : list string) :
  forall ps, get_listed_patents db pns = Ok ps ->
  forall p, In p ps -> In (patent_number p) pns /\
                       patent_exists db (patent_number p) = true.
Proof.
  induction pns as [|pn pns IH]; intros ps; cbn [get_listed_patents].
  - intros [= <-] p [].
  - destruct (get_patent db pn) as [found|] eqn:G; [|discriminate].
    destruct (get_listed_patents db pns) as [ps'|]; [|discriminate].
    intros [= <-] p Hin.
    assert (Hrest : In p ps' -> In (patent_number p) (pn :: pns) /\
                                patent_exists db (patent_number p) = true).
    { intros Hp. destruct (IH ps' eq_refl p Hp). split; [now right | assumption]. }
    destruct found as [q|]; [|now apply Hrest].
    destruct Hin as [<-|Hin]; [|now apply Hrest].
    apply get_patent_exists in G as [-> G]. split; [now left | exact G].
Qed.

Lemma insert_desc_in (col : string) (row r : Row) (sorted : list Row) :
  In r (insert_desc col row sorted) <-> r = row \/ In r sorted.
Proof.
  induction sorted as [|x sorted IH]; cbn [insert_desc].
  - cbn [In]. intuition.
  - destruct (String.ltb _ _); cbn [In]; [rewrite IH|]; intuition.
Qed.

Lemma order_by_desc_in (col : string) (r : Row) (rows : list Row) :
  In r (order_by_desc col rows) <-> In r rows.
Proof.
  unfold order_by_desc. induction rows as [|x rows IH]; cbn [fold_right]; [reflexivity|].
  rewrite insert_desc_in, IH. cbn [In]. intuition.
Qed.

Lemma rows_to_patents_in (rows : list Row) :
  forall ps, rows_to_patents rows = Ok ps ->
  (forall p, In p ps -> exists row, In row rows /\ _row_to_patent row = Ok p) /\
  (forall row, In row rows -> exists p, In p ps /\ _row_to_patent row = Ok p).
Proof.
  induction rows as [|row rows IH]; intros ps; cbn [rows_to_patents].
  - intros [= <-]. split; [intros p [] | intros r []].
  - destruct (_row_to_patent row) as [q|] eqn:E; [|discriminate].
    destruct (rows_to_patents rows) as [ps'|]; [|discriminate].
    intros [= <-]. destruct (IH ps' eq_refl) as [H1 H2]. split.
    + intros p [<-|Hp]; [exists row; split; [now left | exact E]|].
      destruct (H1 p Hp) as (r & Hr & Hrp). exists r. split; [now right | exact Hrp].
    + intros r [<-|Hr]; [exists q; split; [now left | exact E]|].
      destruct (H2 r Hr) as (p & Hp & Hrp). exists p. split; [now right | exact Hrp].
Qed.

(** The patents selected by the default batch are tracked, and every row
    without an analysis is among them. *)
Lemma unanalyzed_selected (db : Database) (ps : list Patent) :
  keyed db -> get_patents_without_ai_analysis db = Ok ps ->
  (forall p, In p ps -> patent_exists db (patent_number p) = true) /\
  (forall row, In row (patents db) -> is_null (row !! "ai_analysis") = true ->
     exists p, In p ps /\ col_is row "patent_number" (patent_number p) = true).
Proof.
  intros [_ Htext] H. unfold get_patents_without_ai_analysis in H.
  apply rows_to_patents_in in H as [H1 H2]. split.
  - intros p Hp. destruct (H1 p Hp) as (row & Hrow & Hrp).
    apply order_by_desc_in, filter_In in Hrow as [Hrow _].
    destruct (Htext row Hrow) as [t Ht].
    rewrite (row_to_patent_number _ _ Hrp), Ht. cbn [text_of].
    unfold patent_exists. apply existsb_exists. exists row. split; [exact Hrow|].
    now apply col_is_true.
  - intros row Hrow Hnull.
    destruct (H2 row) as (p & Hp & Hrp).
    { apply order_by_desc_in, filter_In. now split. }
    exists p. split; [exact Hp|]. destruct (Htext row Hrow) as [t Ht].
    rewrite (row_to_patent_number _ _ Hrp), Ht. cbn [text_of]. now apply col_is_true.
Qed.

Lemma analyze_sanitized (env : AiEnvironment) (i : nat) (o : option string) :
  let a := analyze (ai_model env) (json_loads env) (create env i) (parse_now env i)
                   (final_now env i) o (product_images env) in
  sanitized a /\ model_used a = ai_model env.
Proof.
  cbv zeta. unfold analyze.
  destruct (_call_api (create env i)) as [text|e].
  - destruct (_parse_response (json_loads env) (parse_now env i) text) as [r|e] eqn:P.
    + apply parse_response_ok in P. split; [exact P | reflexivity].
    + split; [apply sanitized_call_failure | reflexivity].
  - split; [apply sanitized_call_failure | reflexivity].
Qed.

(** What the loop of the batch does: one analysis per patent, in order,
    each stored under the number of its patent. *)
Lemma analyze_loop_spec (env : AiEnvironment) (ps : list Patent) :
  forall i db result,
  (forall p, In p ps -> patent_exists db (patent_number p) = true) ->
  exists new,
    let r := fst (analyze_loop env i ps db result) in
    let db' := snd (analyze_loop env i ps db result) in
    analyzed r = analyzed result ++ new /\
    skipped r = skipped result /\
    ai_errors r = ai_errors result /\
    map fst new = map patent_number ps /\
    (forall pn a, In (pn, a) new -> sanitized a /\ model_used a = ai_model env) /\
    (forall pn, In pn (map fst new) ->
       exists a, In (pn, a) new /\
                 get_ai_analysis db' pn = Some (SqlText (json_dumps env a))) /\
    (forall s, ~ In s (map fst new) -> get_ai_analysis db' s = get_ai_analysis db s) /\
    (forall s, patent_exists db' s = patent_exists db s) /\
    get_patent_count db' = get_patent_count db /\
    search_runs db' = search_runs db /\
    notifications db' = notifications db.
Proof.
  induction ps as [|p rest IH]; intros i db result Hex.
  - exists []. cbn [analyze_loop fst snd map]. rewrite app_nil_r.
    repeat split; try reflexivity; intros; try contradiction.
  - cbn [analyze_loop]. unfold _analyze_single_patent. cbv zeta.
    set (a0 := analyze (ai_model env) (json_loads env) (create env i) (parse_now env i)
                       (final_now env i) (fetch_patent_image env p) (product_images env)).
    set (db1 := update_ai_analysis db (patent_number p) (json_dumps env a0)).
    set (result1 := {| analyzed := analyzed result ++ [(patent_number p, a0)];
                       skipped := skipped result; ai_errors := ai_errors result;
                       ai_duration_seconds := ai_duration_seconds result |}).
    destruct (update_patents_only db (patent_number p) "ai_analysis"
                (SqlText (json_dumps env a0)))
      as (U1 & U2 & U3 & U4 & _); [discriminate|].
    fold (update_ai_analysis db (patent_number p) (json_dumps env a0)) in U1, U2, U3, U4.
    fold db1 in U1, U2, U3, U4.
    destruct (IH (S i) db1 result1) as (new & H);
      [intros q Hq; rewrite U4; apply Hex; now right|].
    cbv zeta in H.
    destruct H as (A1 & A2 & A3 & A4 & A5 & A6 & A7 & A8 & A9 & A10 & A11).
    exists ((patent_number p, a0) :: new). cbv zeta.
    split; [rewrite A1; unfold result1; cbn [analyzed]; now rewrite <- app_assoc|].
    split; [exact A2|]. split; [exact A3|].
    split; [cbn [map fst]; now rewrite A4|].
    split.
    { intros pn a [[= <- <-]|Hin]; [apply (analyze_sanitized env i) | eapply A5, Hin]. }
    split.
    { intros pn Hin. destruct (in_dec string_dec pn (map fst new)) as [Hn|Hn].
      - destruct (A6 pn Hn) as (a & Ha & Hg). exists a. split; [now right | exact Hg].
      - destruct Hin as [Heq|Hin]; [|contradiction]. cbn [fst] in Heq. subst pn.
        exists a0. split; [now left|]. rewrite (A7 _ Hn). unfold db1.
        apply ai_analysis_stored. apply Hex. now left. }
    split.
    { intros s Hs. rewrite A7 by (intros Hin; apply Hs; now right).
      unfold db1. apply ai_analysis_other. intros ->. apply Hs. now left. }
    split; [intros s; now rewrite A8, U4|].
    split; [now rewrite A9, U1|]. split; [now rewrite A10, U2 | now rewrite A11, U3].
Qed.

(** The part of the loop's effect that holds on every store. *)
Lemma analyze_loop_spec_weak (env : AiEnvironment) (ps : list Patent) :
  forall i db result,
  exists new,
    let r := fst (analyze_loop env i ps db result) in
    let db' := snd (analyze_loop env i ps db result) in
    analyzed r = analyzed result ++ new /\
    skipped r = skipped result /\
    ai_errors r = ai_errors result /\
    map fst new = map patent_number ps /\
    (forall pn a, In (pn, a) new -> sanitized a /\ model_used a = ai_model env) /\
    (forall s, patent_exists db' s = patent_exists db s) /\
    get_patent_count db' = get_patent_count db /\
    search_runs db' = search_runs db.
Proof.
  induction ps as [|p rest IH]; intros i db result.
  - exists []. cbn [analyze_loop fst snd map]. rewrite app_nil_r.
    repeat split; try reflexivity; intros; try contradiction.
  - cbn [analyze_loop]. unfold _analyze_single_patent. cbv zeta.
    set (a0 := analyze (ai_model env) (json_loads env) (create env i) (parse_now env i)
                       (final_now env i) (fetch_patent_image env p) (product_images env)).
    set (db1 := update_ai_analysis db (patent_number p) (json_dumps env a0)).
    set (result1 := {| analyzed := analyzed result ++ [(patent_number p, a0)];
                       skipped := skipped result; ai_errors := ai_errors result;
                       ai_duration_seconds := ai_duration_seconds result |}).
    destruct (update_patents_only db (patent_number p) "ai_analysis"
                (SqlText (json_dumps env a0)))
      as (U1 & U2 & U3 & U4 & _); [discriminate|].
    fold (update_ai_analysis db (patent_number p) (json_dumps env a0)) in U1, U2, U3, U4.
    fold db1 in U1, U2, U3, U4.
    destruct (IH (S i) db1 result1) as (new & H). cbv zeta in H.
    destruct H as (A1 & A2 & A3 & A4 & A5 & A8 & A9 & A10).
    exists ((patent_number p, a0) :: new). cbv zeta.
    split; [rewrite A1; unfold result1; cbn [analyzed]; now rewrite <- app_assoc|].
    split; [exact A2|]. split; [exact A3|].
    split; [cbn [map fst]; now rewrite A4|].
    split.
    { intros pn a [[= <- <-]|Hin]; [apply (analyze_sanitized env i) | eapply A5, Hin]. }
    split; [intros s; now rewrite A8, U4|].
    split; [now rewrite A9, U1 | now rewrite A10, U2].
Qed.

End AiBatchFacts.

Section AiBatchRun.
Import PyStr Calendar Models Db Analyzer AiService Properties.
Local Open Scope Z_scope.



(** The shape of a batch that passed its guards. *)
Lemma run_ai_analysis_ready (env : AiEnvironment) (db : Database)
    (pns : option (list string)) (res : AiAnalysisResult) (db' : Database) :
  ready env ->
  run_ai_analysis env db pns = Ok (res, db') ->
  exists ps,
    match pns with
    | Some (pn :: l) => get_listed_patents db (pn :: l)
    | _ => get_patents_without_ai_analysis db
    end = Ok ps /\
    db' = snd (analyze_loop env 0 ps db (empty_batch 0%Q)) /\
    analyzed res = analyzed (fst (analyze_loop env 0 ps db (empty_batch 0%Q))) /\
    skipped res = skipped (fst (analyze_loop env 0 ps db (empty_batch 0%Q))) /\
    ai_errors res = ai_errors (fst (analyze_loop env 0 ps db (empty_batch 0%Q))) /\
    ai_duration_seconds res = (ai_end_time env - ai_start_time env)%Q.
Proof.
  intros [Hen Him]. unfold run_ai_analysis. rewrite Hen. cbn [negb].
  destruct (product_images env) as [|img imgs]; [congruence|].
  cbv zeta.
  destruct (match pns with
            | Some (pn :: l) => get_listed_patents db (pn :: l)
            | _ => get_patents_without_ai_analysis db
            end) as [ps|e]; [|discriminate].
  destruct ps as [|p ps].
  - intros [= <- <-]. exists []. repeat split.
  - fold (empty_batch 0%Q).
    destruct (analyze_loop env 0 (p :: ps) db (empty_batch 0%Q)) as [r d] eqn:L.
    intros [= <- <-]. exists (p :: ps). rewrite L. repeat split.
Qed.

Lemma run_ai_analysis_not_ready (env : AiEnvironment) (db : Database)
    (pns : option (list string)) (res : AiAnalysisResult) (db' : Database) :
  ~ ready env ->
  run_ai_analysis env db pns = Ok (res, db') ->
  db' = db /\ analyzed res = [] /\ skipped res = 0 /\
  List.length (ai_errors res) = 1%nat.
Proof.
  intros Hn. unfold run_ai_analysis.
  destruct (ai_enabled env) eqn:Hen; cbn [negb].
  - destruct (product_images env) as [|img imgs] eqn:Him.
    + intros [= <- <-]. repeat split.
    + exfalso. apply Hn. split; [exact Hen | congruence].
  - intros [= <- <-]. repeat split.
Qed.

Lemma selected_exist (db : Database) (pns : option (list string)) (ps : list Patent) :
  keyed db ->
  match pns with
  | Some (pn :: l) => get_listed_patents db (pn :: l)
  | _ => get_patents_without_ai_analysis db
  end = Ok ps ->
  forall p, In p ps ->
    patent_exists db (patent_number p) = true /\
    forall l, pns = Some l -> l <> [] -> In (patent_number p) l.
Proof.
  intros Hk H p Hp.
  assert (Hdefault : get_patents_without_ai_analysis db = Ok ps ->
            patent_exists db (patent_number p) = true)
    by (intros H'; now apply (unanalyzed_selected db ps Hk H')).
  destruct pns as [[|pn l]|].
  - split; [now apply Hdefault | intros l [= <-] Hne; congruence].
  - destruct (get_listed_patents_exist db (pn :: l) ps H p Hp) as [H1 H2].
    split; [exact H2 | intros l' [= <-] _; exact H1].
  - split; [now apply Hdefault | discriminate].
Qed.

End AiBatchRun.

(** X28.  The accounting of an AI batch.  When [run_ai_analysis] returns,
    no patent is counted as skipped.  A batch that is not ready (analysis
    disabled, or no product image) reports exactly one error, analyzes
    nothing and leaves the store as it was; a batch that is ready reports
    no error.  Every analysis it returns is well formed (score between 0
    and 100, risk level and recommendation from their vocabularies) and
    names the configured model, and the batch neither adds nor removes a
    patent nor touches the run log. *)
Theorem ai_batch_accounting (env : AiService.AiEnvironment) (db : Db.Database)
    (patent_numbers : option (list string))
    (res : AiService.AiAnalysisResult) (db' : Db.Database) :
  AiService.run_ai_analysis env db patent_numbers = Ok (res, db') ->
  AiService.skipped res = 0%Z /\
  (Properties.ready env -> AiService.ai_errors res = []) /\
  (~ Properties.ready env ->
   db' = db /\ AiService.analyzed res = [] /\
   List.length (AiService.ai_errors res) = 1%nat) /\
  (forall pn a, In (pn, a) (AiService.analyzed res) ->
     Properties.sanitized a /\ Analyzer.model_used a = AiService.ai_model env) /\
  Db.get_patent_count db' = Db.get_patent_count db /\
  (forall s, Db.patent_exists db' s = Db.patent_exists db s) /\
  Db.search_runs db' = Db.search_runs db.
Proof.
  intros H.
  assert (Hdec : Properties.ready env \/ ~ Properties.ready env).
  { unfold Properties.ready. destruct (AiService.ai_enabled env).
    - destruct (AiService.product_images env).
      + right. intros [_ Hn]. congruence.
      + left. split; [reflexivity | discriminate].
    - right. intros [Hn _]. discriminate. }
  destruct Hdec as [Hr|Hn].
  - destruct (run_ai_analysis_ready env db patent_numbers res db' Hr H)
      as (ps & Hsel & -> & Ha & Hs & He & _).
    destruct (analyze_loop_spec_weak env ps 0%nat db (Properties.empty_batch 0%Q))
      as (new & L).
    cbv zeta in L. destruct L as (A1 & A2 & A3 & _ & A5 & A8 & A9 & A10).
    rewrite Ha, Hs, He, A1, A2, A3. cbn [Properties.empty_batch AiService.analyzed
      AiService.skipped AiService.ai_errors app].
    split; [reflexivity|]. split; [reflexivity|].
    split; [intros Hn; contradiction|].
    split; [exact A5|]. split; [exact A9|]. split; [exact A8 | exact A10].
  - destruct (run_ai_analysis_not_ready env db patent_numbers res db' Hn H)
      as (-> & Ha & Hs & He).
    rewrite Ha. split; [exact Hs|]. split; [intros Hr; contradiction|].
    split; [intros _; repeat split; assumption|].
    split; [intros pn a []|]. repeat split.
Qed.

Lemma batch_projections (r : Res (AiService.AiAnalysisResult * Db.Database)) :
  Samples.batch_returned r = true ->
  r = Ok (Samples.batch_result_of r, Samples.batch_store_of r).
Proof. destruct r as [[res db']|e]; [reflexivity | discriminate]. Qed.

Lemma first_batch_returned : Samples.batch_returned Samples.first_batch = true.
Proof. vm_compute. reflexivity. Qed.

Lemma tracked_frame_keyed : Properties.keyed Samples.tracked_frame.
Proof. apply (keyed_apply_ops [Db.OpInsertPatent Samples.eyeglasses_frame None]), keyed_empty. Qed.

Lemma sample_ai_env_ready : Properties.ready Samples.sample_ai_env.
Proof. split; [reflexivity | discriminate]. Qed.

Lemma ai_batch_accounting_witness :
  AiService.skipped (Samples.batch_result_of Samples.first_batch) = 0%Z /\
  Db.get_patent_count (Samples.batch_store_of Samples.first_batch)
    = Db.get_patent_count Samples.tracked_frame.
Proof.
  pose proof (batch_projections _ first_batch_returned) as H.
  destruct (ai_batch_accounting Samples.sample_ai_env Samples.tracked_frame None _ _ H)
    as (H1 & _ & _ & _ & H5 & _).
  split; assumption.
Defined.

(** X29.  Each analysis of a batch is stored under the number of its
    patent.  On a store whose patent numbers are a key, after a ready batch
    every number the batch reports as analyzed is a tracked patent whose
    [ai_analysis] column holds the serialized form of an analysis reported
    for that number; the analyses of all other patents are unchanged; and
    when numbers were given, only given numbers are analyzed (a given
    number that is not tracked is passed over without an error). *)
Theorem ai_batch_stores_its_results (env : AiService.AiEnvironment) (db : Db.Database)
    (patent_numbers : option (list string))
    (res : AiService.AiAnalysisResult) (db' : Db.Database) :
  Properties.keyed db ->
  Properties.ready env ->
  AiService.run_ai_analysis env db patent_numbers = Ok (res, db') ->
  (forall pn, In pn (map fst (AiService.analyzed res)) ->
     Db.patent_exists db pn = true /\
     (forall l, patent_numbers = Some l -> l <> [] -> In pn l) /\
     exists a, In (pn, a) (AiService.analyzed res) /\
               Db.get_ai_analysis db' pn
                 = Some (Db.SqlText (AiService.json_dumps env a))) /\
  (forall s, ~ In s (map fst (AiService.analyzed res)) ->
     Db.get_ai_analysis db' s = Db.get_ai_analysis db s).
Proof.
  intros Hk Hr H.
  destruct (run_ai_analysis_ready env db patent_numbers res db' Hr H)
    as (ps & Hsel & -> & Ha & _).
  pose proof (selected_exist db patent_numbers ps Hk Hsel) as Hex.
  destruct (analyze_loop_spec env ps 0%nat db (Properties.empty_batch 0%Q))
    as (new & L); [intros p Hp; now apply Hex|].
  cbv zeta in L. destruct L as (A1 & _ & _ & A4 & _ & A6 & A7 & _).
  rewrite Ha, A1. cbn [Properties.empty_batch AiService.analyzed app]. split.
  - intros pn Hin. pose proof Hin as Hin'. rewrite A4 in Hin'.
    apply in_map_iff in Hin' as (p & <- & Hp). destruct (Hex p Hp) as [E1 E2].
    split; [exact E1|]. split; [exact E2 | now apply A6].
  - exact A7.
Qed.

Lemma ai_batch_stores_its_results_witness :
  Db.get_ai_analysis (Samples.batch_store_of Samples.first_batch) "D9999999"
  = Db.get_ai_analysis Samples.tracked_frame "D9999999".
Proof.
  pose proof (batch_projections _ first_batch_returned) as H.
  destruct (ai_batch_stores_its_results Samples.sample_ai_env Samples.tracked_frame None
              _ _ tracked_frame_keyed sample_ai_env_ready H) as (_ & H2).
  apply H2. vm_compute. intros [H0|[]]. discriminate H0.
Defined.


